(** * Invoice OCR service: task orchestration and pipeline stages

    A shallow embedding of the task pipeline of the InvoiceExtraction
    service (blueprints/api_v1.py, models.py, ocr_processor.py,
    ocr_utils.py, invoice_extractor.py, celery_worker.py and the worker
    and task routes of simple_api.py) together with the properties of its
    task store, dispatcher, access control, task listing and field
    extraction. Paths follow posixpath.

    Conventions of the embedding:
    - Python [str] values are [string]s; [dict]s used as maps are [gmap]s.
    - A Python computation that may raise is a value of [res]; handler
      code lives in the state-and-exception monad [M] over [world].
    - Connection failures and permission errors are outside the model.
      The one command error modelled is WRONGTYPE of [hgetall], the only
      command issued on a key built from an id the client chooses before
      anything is known about the key; every other Redis command and
      every file operation is total on the modelled store.
    - Everything the code obtains from outside the repository (clock,
      uuid generator, werkzeug, Celery, PaddleOCR, PIL, pdfium, the
      extraction backend, the JSON decoder) is an explicit input. *)

From Stdlib Require Import String Ascii ZArith List Lia DecimalString.
From stdpp Require Import base gmap strings list.

Open Scope string_scope.
Open Scope Z_scope.

(* ===================================================================== *)
(** * Python runtime: strings, paths, exceptions *)
(* ===================================================================== *)

(** Outcome of a Python expression: a value, or a raised exception
    carrying [str(e)]. *)
Inductive res (A : Type) : Type :=
| Ok (a : A)
| Raise (msg : string).
Arguments Ok {A} a.
Arguments Raise {A} msg.

#[global] Instance res_ret : MRet res := fun A a => Ok a.
#[global] Instance res_bind : MBind res := fun A B f r =>
  match r with Ok a => f a | Raise e => Raise e end.

(** The line feed used by ["\n".join(...)]. *)
Definition nl : string := String (ascii_of_nat 10) EmptyString.

Module Py.

(** [s.find(c)]: index of the first occurrence, [-1] when absent. *)
Fixpoint find_from (c : ascii) (s : string) (i : Z) : Z :=
  match s with
  | EmptyString => -1
  | String a r => if Ascii.eqb a c then i else find_from c r (i + 1)
  end.
Definition find (c : ascii) (s : string) : Z := find_from c s 0.

(** [s.rfind(c)]: index of the last occurrence, [-1] when absent. *)
Fixpoint rfind_from (c : ascii) (s : string) (i last : Z) : Z :=
  match s with
  | EmptyString => last
  | String a r => rfind_from c r (i + 1) (if Ascii.eqb a c then i else last)
  end.
Definition rfind (c : ascii) (s : string) : Z := rfind_from c s 0 (-1).

Definition len (s : string) : Z := Z.of_nat (String.length s).

(** [s[lo:hi]] for [0 <= lo]; like Python it truncates at the end. *)
Definition slice (s : string) (lo hi : Z) : string :=
  substring (Z.to_nat lo) (Z.to_nat (hi - lo)) s.

(** [s[lo:]] for [0 <= lo]. *)
Definition slice_from (s : string) (lo : Z) : string := slice s lo (len s).

Definition lower_ascii (a : ascii) : ascii :=
  let n := nat_of_ascii a in
  if (Nat.leb 65 n && Nat.leb n 90)%bool then ascii_of_nat (n + 32) else a.

(** [s.lower()] on ASCII text. *)
Fixpoint lower (s : string) : string :=
  match s with
  | EmptyString => EmptyString
  | String a r => String (lower_ascii a) (lower r)
  end.

Fixpoint all_dots (s : string) : bool :=
  match s with
  | EmptyString => true
  | String a r => (Ascii.eqb a "."%char && all_dots r)%bool
  end.

Definition startswith_sep (s : string) : bool :=
  match s with String a _ => Ascii.eqb a "/"%char | EmptyString => false end.

Fixpoint endswith_sep (s : string) : bool :=
  match s with
  | EmptyString => false
  | String a EmptyString => Ascii.eqb a "/"%char
  | String _ r => endswith_sep r
  end.

(** [str(n)] for a natural number. *)
Definition str_of_nat (n : nat) : string :=
  NilEmpty.string_of_uint (Nat.to_uint n).

(** [str(z)] for an integer. *)
Definition str_of_Z (z : Z) : string :=
  NilZero.string_of_int (Z.to_int z).

(** ["sep".join(parts)]. *)
Definition join (sep : string) (parts : list string) : string :=
  String.concat sep parts.

(** [x in xs] for a list or set literal of strings. *)
Definition mem (x : string) (xs : list string) : bool :=
  existsb (String.eqb x) xs.

(** [not s]: the empty string is falsy. *)
Definition falsy (s : string) : bool :=
  match s with EmptyString => true | _ => false end.

Module path.

(** [os.path.basename] (posixpath): [p[p.rfind('/')+1:]]. *)
Definition basename (p : string) : string :=
  slice_from p (rfind "/"%char p + 1).

(** [os.path.splitext] (posixpath, genericpath._splitext): the
    extension starts at the last dot of the last path component,
    unless that component consists of leading dots only up to it. *)
Definition splitext (p : string) : string * string :=
  let sepIndex := rfind "/"%char p in
  let dotIndex := rfind "."%char p in
  if (sepIndex <? dotIndex) then
    if all_dots (slice p (sepIndex + 1) dotIndex)
    then (p, EmptyString)
    else (slice p 0 dotIndex, slice_from p dotIndex)
  else (p, EmptyString).

(** [os.path.join(a, b)] (posixpath). *)
Definition join (a b : string) : string :=
  if startswith_sep b then b
  else if (falsy a || endswith_sep a)%bool then a +:+ b
  else a +:+ "/" +:+ b.

End path.

(** [s.rsplit('.', 1)[1]] for a string that contains a dot. *)
Definition rsplit_dot_last (s : string) : string :=
  slice_from s (rfind "."%char s + 1).

End Py.


(* ===================================================================== *)
(** * Python values returned by the recognition engine *)
(* ===================================================================== *)

(** The recognition engine returns untyped nested lists; the code probes
    them with [len], indexing, [isinstance] and [str]. *)
#[warnings="-register-all"] Inductive pyval : Type :=
| PyNone
| PyStr (s : string)
| PyNum (repr : string)
| PyList (xs : list pyval)
| PyTuple (xs : list pyval).

Module PyVal.

Fixpoint chars (s : string) : list pyval :=
  match s with
  | EmptyString => []
  | String a r => PyStr (String a EmptyString) :: chars r
  end.

(** [len(v)]; raises [TypeError] on [None] and numbers. *)
Definition len (v : pyval) : res nat :=
  match v with
  | PyStr s => Ok (String.length s)
  | PyList xs | PyTuple xs => Ok (length xs)
  | PyNone => Raise "object of type 'NoneType' has no len()"
  | PyNum _ => Raise "object of type 'float' has no len()"
  end.

(** [v[i]] for [0 <= i]; raises [IndexError] or [TypeError]. *)
Definition index (v : pyval) (i : nat) : res pyval :=
  match v with
  | PyStr s =>
      match chars s !! i with
      | Some c => Ok c
      | None => Raise "string index out of range"
      end
  | PyList xs =>
      match xs !! i with
      | Some x => Ok x
      | None => Raise "list index out of range"
      end
  | PyTuple xs =>
      match xs !! i with
      | Some x => Ok x
      | None => Raise "tuple index out of range"
      end
  | PyNone => Raise "'NoneType' object is not subscriptable"
  | PyNum _ => Raise "'float' object is not subscriptable"
  end.

(** The items a [for] loop over [v] visits; raises [TypeError] when [v]
    is not iterable. *)
Definition iter (v : pyval) : res (list pyval) :=
  match v with
  | PyStr s => Ok (chars s)
  | PyList xs | PyTuple xs => Ok xs
  | PyNone => Raise "'NoneType' object is not iterable"
  | PyNum _ => Raise "'float' object is not iterable"
  end.

Definition is_list (v : pyval) : bool :=
  match v with PyList _ => true | _ => false end.

Definition is_list_or_tuple (v : pyval) : bool :=
  match v with PyList _ | PyTuple _ => true | _ => false end.

End PyVal.

(* ===================================================================== *)
(** * Task store, file storage and the handler monad *)
(* ===================================================================== *)

(** The Result object the workers serialise with [json.dumps]. A key the
    writer leaves out is [None]. *)
Record ocr_result : Type := mk_ocr_result {
  detected_texts : list string;
  all_text : string;
  processing_time : option Z;
  pages_processed : option nat;
  confidence_scores : option (list string)
}.

(** A Redis string value: the serialisation of a Result, or text that
    [json.loads] rejects. *)
Inductive blob : Type :=
| BJson (r : ocr_result)
| BText (s : string).

(** One entry of the in-process [TASKS] dict of simple_api.py. *)
Record simple_task : Type := mk_simple_task {
  st_status : string;
  st_filename : string;
  st_created_at : Z;
  st_language : string;
  st_use_gpu : bool;
  st_result : option ocr_result;
  st_error : option string
}.

(** The shared task state. Redis holds metadata hashes under [task:<id>]
    and result blobs under [task:<id>:result] (api_v1.py); [tasks] is the
    module-level [TASKS] dict of simple_api.py. *)
Record store : Type := mk_store {
  hashes : gmap string (gmap string string);
  blobs : gmap string blob;
  tasks : gmap string simple_task
}.

(** The world a handler or worker runs in. [observed] records the store
    after every write, in order: these are exactly the states a concurrent
    reader can see, since each Redis command and each dict assignment is
    atomic. *)
Record world : Type := mk_world {
  redis : store;
  disk : gset string;
  observed : list store
}.

Definition M (A : Type) : Type := world -> res A * world.

#[global] Instance M_ret : MRet M := fun A a w => (Ok a, w).
#[global] Instance M_bind : MBind M := fun A B f m w =>
  match m w with
  | (Ok a, w') => f a w'
  | (Raise e, w') => (Raise e, w')
  end.

(** [raise e]. *)
Definition throw {A} (e : string) : M A := fun w => (Raise e, w).

(** Evaluate a pure expression that may raise. *)
Definition lift {A} (r : res A) : M A := fun w => (r, w).

(** [try: m  except Exception as e: handler(e)]. Effects of [m] before
    the exception persist. *)
Definition try_except {A} (m : M A) (handler : string -> M A) : M A := fun w =>
  match m w with
  | (Ok a, w') => (Ok a, w')
  | (Raise e, w') => handler e w'
  end.

Module Redis.

Definition commit (s : store) (w : world) : world :=
  {| redis := s; disk := disk w; observed := observed w ++ [s] |}.

(** [r.hgetall(key)]: the fields of the hash, the empty dict when the
    key is missing. On a key that holds a string value Redis answers
    WRONGTYPE and redis-py raises [ResponseError]. *)
Definition hgetall (key : string) : M (gmap string string) := fun w =>
  match hashes (redis w) !! key with
  | Some h => (Ok h, w)
  | None =>
      match blobs (redis w) !! key with
      | Some _ =>
          (Raise "WRONGTYPE Operation against a key holding the wrong kind of value", w)
      | None => (Ok ∅, w)
      end
  end.

(** [r.hset(key, mapping=m)]: the given fields overwrite, others stay. *)
Definition hset_mapping (key : string) (m : gmap string string) : M unit := fun w =>
  let old := default ∅ (hashes (redis w) !! key) in
  (Ok tt, commit {| hashes := <[key := m ∪ old]> (hashes (redis w));
                    blobs := blobs (redis w);
                    tasks := tasks (redis w) |} w).

(** [r.hset(key, field, value)]. *)
Definition hset (key field value : string) : M unit :=
  hset_mapping key {[ field := value ]}.

(** [r.get(key)]. *)
Definition get (key : string) : M (option blob) := fun w =>
  (Ok (blobs (redis w) !! key), w).

(** [r.set(key, value)]. *)
Definition set (key : string) (value : blob) : M unit := fun w =>
  (Ok tt, commit {| hashes := hashes (redis w);
                    blobs := <[key := value]> (blobs (redis w));
                    tasks := tasks (redis w) |} w).

(** [r.delete(key)]: removes the key whatever it holds. *)
Definition delete (key : string) : M unit := fun w =>
  (Ok tt, commit {| hashes := base.delete key (hashes (redis w));
                    blobs := base.delete key (blobs (redis w));
                    tasks := tasks (redis w) |} w).

(** [TASKS[tid][field] = value] through [update]; [KeyError] when the
    task is missing. *)
Definition tasks_update (tid : string) (update : simple_task -> simple_task) : M unit := fun w =>
  match tasks (redis w) !! tid with
  | Some t =>
      (Ok tt, commit {| hashes := hashes (redis w);
                        blobs := blobs (redis w);
                        tasks := <[tid := update t]> (tasks (redis w)) |} w)
  | None => (Raise ("KeyError: " +:+ tid), w)
  end.

(** [r.keys(p + "*")]: every key that starts with [p], whatever it
    holds. Redis promises no order; the model lists the keys in the
    order of the map. *)
Definition matching (p : string) (s : store) : list string :=
  List.filter (String.prefix p) (elements (dom (hashes s) ∪ dom (blobs s))).

Definition keys_prefixed (p : string) : M (list string) := fun w =>
  (Ok (matching p (redis w)), w).

End Redis.

Module Os.

(** [os.path.exists(p)]. *)
Definition exists_ (p : string) : M bool := fun w =>
  (Ok (bool_decide (p ∈ disk w)), w).

(** [os.remove(p)] on an existing file. *)
Definition remove (p : string) : M unit := fun w =>
  (Ok tt, {| redis := redis w; disk := disk w ∖ {[ p ]}; observed := observed w |}).

(** Creating or overwriting the file at [p] ([file.save], [img.save]). *)
Definition write (p : string) : M unit := fun w =>
  (Ok tt, {| redis := redis w; disk := {[ p ]} ∪ disk w; observed := observed w |}).

End Os.

(** [json.dumps] / [json.loads] on stored Results. *)
Definition json_dumps (r : ocr_result) : blob := BJson r.

Definition json_loads (b : blob) : res ocr_result :=
  match b with
  | BJson r => Ok r
  | BText _ => Raise "JSONDecodeError"
  end.

(** [not result_data] for the value of [r.get]. *)
Definition blob_falsy (b : option blob) : bool :=
  match b with
  | None => true
  | Some (BText s) => Py.falsy s
  | Some (BJson _) => false
  end.

(* ===================================================================== *)
(** * Configuration and external collaborators *)
(* ===================================================================== *)

(** config.py, [BaseConfig]. *)
Record config : Type := mk_config {
  UPLOAD_FOLDER : string;
  OUTPUT_FOLDER : string;
  MAX_CONTENT_LENGTH : Z;
  ALLOWED_EXTENSIONS : list string
}.

Definition BaseConfig (upload_folder output_folder : string) : config :=
  {| UPLOAD_FOLDER := upload_folder;
     OUTPUT_FOLDER := output_folder;
     MAX_CONTENT_LENGTH := 50 * 1024 * 1024;
     ALLOWED_EXTENSIONS := ["png"; "jpg"; "jpeg"; "pdf"; "bmp"; "tiff"; "tif"; "webp"] |}.

(** A recognition engine: [ocr.ocr(png)]. *)
Definition engine : Type := string -> res pyval.

(** What [from ..celery_worker import celery_app] and the calls on it
    yield at submission time. *)
Inductive celery_binding : Type :=
| ImportRaises (e : string)
| CeleryApp (send_task : res string)
| NoCelery (thread_start : res unit).

(** State of a delegated job as [AsyncResult] reports it. *)
Inductive async_state : Type :=
| JobPending
| JobSuccess (result : ocr_result)
| JobFailure (error : string).

(** The collaborators outside the repository. *)
Record runtime : Type := mk_runtime {
  time_now : Z;                           (* int(time.time()) *)
  utcnow_iso : string;                    (* datetime.utcnow().isoformat() *)
  uuid_suffix : string;                   (* uuid.uuid4().hex[:8] *)
  uuid_task : string;                     (* uuid.uuid4().hex *)
  secure_filename : string -> string;     (* werkzeug.utils.secure_filename *)
  py_str : pyval -> string;               (* str(v) *)
  image_open : string -> res unit;        (* PIL: open, convert *)
  pdf_open : string -> res nat;           (* pdfium: PdfDocument, len *)
  pdf_render : string -> nat -> res unit; (* pdfium: page.render().to_pil() *)
  create_paddle_ocr : string -> bool -> res engine;
  celery : celery_binding;
  celery_reconcile : res (option (string -> res async_state))
}.

(* ===================================================================== *)
(** * ocr_processor.py: Convert and Recognize *)
(* ===================================================================== *)

Module OcrProcessor.

(** The [for i in range(len(pdf))] loop of [convert_to_png]. *)
Fixpoint render_pages (rt : runtime) (input_path output_dir base : string)
    (idxs : list nat) (paths : list string) : M (list string) :=
  match idxs with
  | [] => mret paths
  | i :: rest =>
      _ ← lift (pdf_render rt input_path i);
      let out_path :=
        Py.path.join output_dir (base +:+ "_page_" +:+ Py.str_of_nat (i + 1) +:+ ".png") in
      Os.write out_path;;
      render_pages rt input_path output_dir base rest (paths ++ [out_path])
  end.

(** [convert_to_png(input_path, output_dir)]. [os.makedirs] with
    [exist_ok=True] adds no file. *)
Definition convert_to_png (rt : runtime) (input_path output_dir : string) : M (list string) :=
  let base := fst (Py.path.splitext (Py.path.basename input_path)) in
  let ext := Py.lower (snd (Py.path.splitext (Py.path.basename input_path))) in
  if String.eqb ext ".png" then mret [input_path]
  else if Py.mem ext [".jpg"; ".jpeg"; ".bmp"; ".tif"; ".tiff"; ".webp"] then
    _ ← lift (image_open rt input_path);
    let out_path := Py.path.join output_dir (base +:+ ".png") in
    Os.write out_path;;
    mret [out_path]
  else if String.eqb ext ".pdf" then
    n ← lift (pdf_open rt input_path);
    render_pages rt input_path output_dir base (seq 0 n) []
  else mret [].

(** The body of the [try] inside the inner loop of [run_paddle_ocr]. *)
Definition text_of_detection (rt : runtime) (res_ : pyval) : res string :=
  tc ← PyVal.index res_ 1;
  if PyVal.is_list_or_tuple tc then
    n ← PyVal.len tc;
    if (2 <=? n)%nat
    then t ← PyVal.index tc 0; mret (py_str rt t)
    else mret (py_str rt tc)
  else mret (py_str rt tc).

(** The inner loop: an entry whose probing raises is skipped. *)
Fixpoint collect_lines (rt : runtime) (flat : list pyval) : list string :=
  match flat with
  | [] => []
  | r :: rest =>
      match text_of_detection rt r with
      | Ok s => s :: collect_lines rt rest
      | Raise _ => collect_lines rt rest
      end
  end.

(** One iteration of the outer loop of [run_paddle_ocr]. *)
Definition recognize_page (rt : runtime) (ocr : engine) (png : string) : res string :=
  result ← ocr png;
  n ← PyVal.len result;
  flat ← (if (n =? 1)%nat
          then first ← PyVal.index result 0;
               mret (if PyVal.is_list first then first else result)
          else mret result);
  items ← PyVal.iter flat;
  mret (Py.join nl (collect_lines rt items)).

Fixpoint recognize_pages (rt : runtime) (ocr : engine) (png_paths : list string)
    (per_page_text : list string) : res (list string) :=
  match png_paths with
  | [] => mret per_page_text
  | png :: rest =>
      t ← recognize_page rt ocr png;
      recognize_pages rt ocr rest (per_page_text ++ [t])
  end.

(** [run_paddle_ocr(png_paths, lang, use_gpu)]. *)
Definition run_paddle_ocr (rt : runtime) (png_paths : list string)
    (lang : string) (use_gpu : bool) : res (list string) :=
  ocr ← create_paddle_ocr rt lang use_gpu;
  recognize_pages rt ocr png_paths [].

(** [process_ocr(file_path, output_dir, lang, use_gpu)]. *)
Definition process_ocr (rt : runtime) (file_path output_dir lang : string)
    (use_gpu : bool) : M (list string) :=
  png_paths ← convert_to_png rt file_path output_dir;
  match png_paths with
  | [] => mret []
  | _ => lift (run_paddle_ocr rt png_paths lang use_gpu)
  end.

End OcrProcessor.

(* ===================================================================== *)
(** * invoice_extractor.py: Extract *)
(* ===================================================================== *)

(** A decoded JSON document. Numbers keep their source text. *)
#[warnings="-register-all"] Inductive json : Type :=
| JNull
| JBool (b : bool)
| JNum (repr : string)
| JStr (s : string)
| JArr (items : list json)
| JObj (members : list (string * json)).

(** The six fields of one extracted page. *)
Record invoice_fields : Type := mk_fields {
  invoice_number : string;
  invoice_date : string;
  vendor_name : string;
  customer_name : string;
  total_amount : string;
  tax_amount : string
}.

Definition empty_fields : invoice_fields :=
  mk_fields EmptyString EmptyString EmptyString EmptyString EmptyString EmptyString.

(** What the extractor reaches outside the repository. *)
Record backend : Type := mk_backend {
  environ : gmap string string;                       (* os.environ *)
  post_chat : nat -> string -> string -> string -> res json;
    (* call number, url, api key, prompt: requests.post(...),
       raise_for_status(), r.json() *)
  loads : string -> option json;                      (* json.loads on text *)
  repr_json : json -> string                          (* str(v), v not a str *)
}.

Module InvoiceExtractor.

Definition is_space (a : ascii) : bool :=
  let n := nat_of_ascii a in
  ((Nat.leb 9 n && Nat.leb n 13) || (Nat.leb 28 n && Nat.leb n 32))%bool.

Fixpoint lstrip (s : string) : string :=
  match s with
  | EmptyString => EmptyString
  | String a r => if is_space a then lstrip r else s
  end.

Fixpoint rstrip_by (p : ascii -> bool) (s : string) : string :=
  match s with
  | EmptyString => EmptyString
  | String a r =>
      match rstrip_by p r with
      | EmptyString => if p a then EmptyString else String a EmptyString
      | r' => String a r'
      end
  end.

(** [s.strip()]. *)
Definition strip (s : string) : string := rstrip_by is_space (lstrip s).

(** [s.rstrip('/')]. *)
Definition rstrip_slash (s : string) : string :=
  rstrip_by (fun a => Ascii.eqb a "/"%char) s.

(** [d.get(key)] on a decoded object: the last member with that name. *)
Fixpoint members_get (members : list (string * json)) (key : string) : option json :=
  match members with
  | [] => None
  | (k, v) :: rest =>
      match members_get rest key with
      | Some v' => Some v'
      | None => if String.eqb k key then Some v else None
      end
  end.

(** [v.get(key, default)]; [AttributeError] unless [v] is a dict. *)
Definition get (v : json) (key : string) (default : json) : res json :=
  match v with
  | JObj members => Ok (match members_get members key with Some x => x | None => default end)
  | _ => Raise "object has no attribute 'get'"
  end.

(** [v[0]]. *)
Definition first (v : json) : res json :=
  match v with
  | JArr (x :: _) => Ok x
  | JArr [] => Raise "list index out of range"
  | JStr (String a _) => Ok (JStr (String a EmptyString))
  | JStr EmptyString => Raise "string index out of range"
  | JObj _ => Raise "KeyError: 0"
  | _ => Raise "object is not subscriptable"
  end.

(** [str(v)]. *)
Definition str (b : backend) (v : json) : string :=
  match v with
  | JStr s => s
  | JNull => "None"
  | JBool true => "True"
  | JBool false => "False"
  | _ => repr_json b v
  end.

Definition prompt (page_text : string) : string :=
  "You are an information extraction assistant. Given OCR text from an invoice page, "
  +:+ "extract the following fields as concise strings. If missing, return empty string. "
  +:+ "Fields: Invoice Number, Invoice Date, Vendor Name, Customer Name, Total Amount, Tax Amount."
  +:+ nl +:+ nl
  +:+ "OCR Page Text:" +:+ nl +:+ page_text +:+ nl +:+ nl
  +:+ "Return strict JSON with keys: invoice_number, invoice_date, vendor_name, customer_name, total_amount, tax_amount.".

(** The first [try] of [extract_with_azure_openai]: the message content,
    or ["{}"] when anything raises. *)
Definition fetch_content (b : backend) (call : nat) (url api_key page_text : string) : json :=
  match (resp ← post_chat b call url api_key (prompt page_text);
         choices ← get resp "choices" (JArr [JObj []]);
         choice ← first choices;
         message ← get choice "message" (JObj []);
         get message "content" (JStr "{}")) with
  | Ok content => content
  | Raise _ => JStr "{}"
  end.

(** [content[start:end + 1]] when the guard of the salvage branch holds. *)
Definition salvage_slice (content : string) : option string :=
  let start := Py.find "{"%char content in
  let end_ := Py.rfind "}"%char content in
  if (negb (start =? -1) && negb (end_ =? -1) && (start <? end_))%bool
  then Some (Py.slice content start (end_ + 1))
  else None.

(** The second [try] with its salvage branch. [json.loads] raises
    [TypeError] on a content that is not text, and then [content.find]
    raises [AttributeError], which nothing catches. *)
Definition decode_content (b : backend) (content : json) : res json :=
  match content with
  | JStr text =>
      match loads b text with
      | Some data => Ok data
      | None =>
          match salvage_slice text with
          | Some sub =>
              match loads b sub with
              | Some data => Ok data
              | None => Ok (JObj [])
              end
          | None => Ok (JObj [])
          end
      end
  | _ => Raise "object has no attribute 'find'"
  end.

(** [str(data.get(key, EMPTY))] with the empty string as default. *)
Definition field (b : backend) (data : json) (key : string) : res string :=
  v ← get data key (JStr EmptyString);
  mret (str b v).

(** The dict built by the [return] statement. *)
Definition fields_of (b : backend) (data : json) : res invoice_fields :=
  f1 ← field b data "invoice_number";
  f2 ← field b data "invoice_date";
  f3 ← field b data "vendor_name";
  f4 ← field b data "customer_name";
  f5 ← field b data "total_amount";
  f6 ← field b data "tax_amount";
  mret (mk_fields f1 f2 f3 f4 f5 f6).

(** Everything after the request: decode the content, build the dict. *)
Definition fields_of_content (b : backend) (content : json) : res invoice_fields :=
  data ← decode_content b content;
  fields_of b data.

Definition chat_url (endpoint deployment api_version : string) : string :=
  rstrip_slash endpoint +:+ "/openai/deployments/" +:+ deployment
  +:+ "/chat/completions?api-version=" +:+ api_version.

(** [extract_with_azure_openai(api_key, endpoint, deployment, page_text, api_version)]. *)
Definition extract_with_azure_openai (b : backend) (call : nat)
    (api_key endpoint deployment page_text api_version : string) : res invoice_fields :=
  let url := chat_url endpoint deployment api_version in
  let content := fetch_content b call url api_key page_text in
  fields_of_content b content.

(** [(os.environ.get(name, default) or EMPTY).strip()], [EMPTY] the empty string. *)
Definition environ_stripped (b : backend) (name default : string) : string :=
  strip (match environ b !! name with Some v => v | None => default end).

(** [extract_structured_from_text(text_content)]. *)
Definition extract_structured_from_text (b : backend) (call : nat)
    (text_content : string) : res invoice_fields :=
  let api_key := environ_stripped b "AZURE_OPENAI_KEY" EmptyString in
  let endpoint := environ_stripped b "AZURE_OPENAI_ENDPOINT" EmptyString in
  let deployment := environ_stripped b "AZURE_DEPLOYMENT_NAME" "gpt-4o" in
  let api_version :=
    match environ b !! "AZURE_OPENAI_API_VERSION" with
    | Some v => v
    | None => "2024-08-01-preview"
    end in
  if (Py.falsy api_key || Py.falsy endpoint || Py.falsy deployment)%bool
  then Raise "Azure OpenAI credentials are not configured"
  else extract_with_azure_openai b call api_key endpoint deployment text_content api_version.

End InvoiceExtractor.

(* ===================================================================== *)
(** * A reference JSON decoder *)
(* ===================================================================== *)

(** The extractor is parametric in [json.loads] ([loads] of [backend]).
    This decoder for ASCII JSON text instantiates it in the examples. *)
Module Json.

Definition quote : ascii := ascii_of_nat 34.
Definition backslash : ascii := ascii_of_nat 92.

Definition is_ws (a : ascii) : bool :=
  let n := nat_of_ascii a in
  (Nat.eqb n 32 || Nat.eqb n 9 || Nat.eqb n 10 || Nat.eqb n 13)%bool.

Fixpoint skip_ws (s : string) : string :=
  match s with
  | EmptyString => EmptyString
  | String a r => if is_ws a then skip_ws r else s
  end.

Definition is_digit (a : ascii) : bool :=
  let n := nat_of_ascii a in (Nat.leb 48 n && Nat.leb n 57)%bool.

Fixpoint take_digits (s : string) : string * string :=
  match s with
  | EmptyString => (EmptyString, EmptyString)
  | String a r =>
      if is_digit a
      then let (ds, rest) := take_digits r in (String a ds, rest)
      else (EmptyString, s)
  end.

(** A number: optional minus, integer part without leading zeros,
    optional fraction, optional exponent. *)
Definition parse_number (s : string) : option (string * string) :=
  let (sign, s1) :=
    match s with
    | String a r => if Ascii.eqb a "-"%char then ("-", r) else (EmptyString, s)
    | EmptyString => (EmptyString, s)
    end in
  let (int_part, s2) :=
    match s1 with
    | String a r =>
        if Ascii.eqb a "0"%char then ("0", r) else take_digits s1
    | EmptyString => (EmptyString, s1)
    end in
  match int_part with
  | EmptyString => None
  | _ =>
      let (frac, s3) :=
        match s2 with
        | String a r =>
            if Ascii.eqb a "."%char then
              match take_digits r with
              | (EmptyString, _) => (EmptyString, s2)
              | (ds, rest) => (String a ds, rest)
              end
            else (EmptyString, s2)
        | EmptyString => (EmptyString, s2)
        end in
      let (exp, s4) :=
        match s3 with
        | String a r =>
            if (Ascii.eqb a "e"%char || Ascii.eqb a "E"%char)%bool then
              let (esign, r1) :=
                match r with
                | String c r' =>
                    if (Ascii.eqb c "+"%char || Ascii.eqb c "-"%char)%bool
                    then (String c EmptyString, r') else (EmptyString, r)
                | EmptyString => (EmptyString, r)
                end in
              match take_digits r1 with
              | (EmptyString, _) => (EmptyString, s3)
              | (ds, rest) => (String a (esign +:+ ds), rest)
              end
            else (EmptyString, s3)
        | EmptyString => (EmptyString, s3)
        end in
      Some (sign +:+ int_part +:+ frac +:+ exp, s4)
  end.

Definition hex_value (a : ascii) : option nat :=
  let n := nat_of_ascii a in
  if (Nat.leb 48 n && Nat.leb n 57)%bool then Some (n - 48)%nat
  else if (Nat.leb 65 n && Nat.leb n 70)%bool then Some (n - 55)%nat
  else if (Nat.leb 97 n && Nat.leb n 102)%bool then Some (n - 87)%nat
  else None.

Definition unescape (a : ascii) : option ascii :=
  if Ascii.eqb a quote then Some quote
  else if Ascii.eqb a backslash then Some backslash
  else if Ascii.eqb a "/"%char then Some "/"%char
  else if Ascii.eqb a "b"%char then Some (ascii_of_nat 8)
  else if Ascii.eqb a "f"%char then Some (ascii_of_nat 12)
  else if Ascii.eqb a "n"%char then Some (ascii_of_nat 10)
  else if Ascii.eqb a "r"%char then Some (ascii_of_nat 13)
  else if Ascii.eqb a "t"%char then Some (ascii_of_nat 9)
  else None.

(** The characters of a string literal after its opening quote. Escapes
    of code points above 127 are outside the fragment. *)
Fixpoint parse_chars (s : string) : option (string * string) :=
  match s with
  | EmptyString => None
  | String c r =>
      if Ascii.eqb c quote then Some (EmptyString, r)
      else if Ascii.eqb c backslash then
        match r with
        | String e r' =>
            match unescape e with
            | Some ch =>
                match parse_chars r' with
                | Some (cs, rest) => Some (String ch cs, rest)
                | None => None
                end
            | None =>
                if Ascii.eqb e "u"%char then
                  match r' with
                  | String h1 (String h2 (String h3 (String h4 r''))) =>
                      match hex_value h1, hex_value h2, hex_value h3, hex_value h4 with
                      | Some 0%nat, Some 0%nat, Some d3, Some d4 =>
                          if Nat.ltb d3 8 then
                            match parse_chars r'' with
                            | Some (cs, rest) =>
                                Some (String (ascii_of_nat (16 * d3 + d4)) cs, rest)
                            | None => None
                            end
                          else None
                      | _, _, _, _ => None
                      end
                  | _ => None
                  end
                else None
            end
        | EmptyString => None
        end
      else if Nat.ltb (nat_of_ascii c) 32 then None
      else
        match parse_chars r with
        | Some (cs, rest) => Some (String c cs, rest)
        | None => None
        end
  end.

(** [Some rest] when [s] starts with [lit]. *)
Fixpoint strip_prefix (lit s : string) : option string :=
  match lit, s with
  | EmptyString, _ => Some s
  | String a l, String b r => if Ascii.eqb a b then strip_prefix l r else None
  | String _ _, EmptyString => None
  end.

Definition parse_literal (s : string) : option (json * string) :=
  match strip_prefix "true" s with
  | Some r => Some (JBool true, r)
  | None =>
  match strip_prefix "false" s with
  | Some r => Some (JBool false, r)
  | None =>
  match strip_prefix "null" s with
  | Some r => Some (JNull, r)
  | None =>
  match strip_prefix "NaN" s with
  | Some r => Some (JNum "NaN", r)
  | None =>
  match strip_prefix "Infinity" s with
  | Some r => Some (JNum "Infinity", r)
  | None =>
  match strip_prefix "-Infinity" s with
  | Some r => Some (JNum "-Infinity", r)
  | None =>
  match parse_number s with
  | Some (n, r) => Some (JNum n, r)
  | None => None
  end end end end end end end.

Fixpoint parse_value (fuel : nat) (s : string) : option (json * string) :=
  match fuel with
  | O => None
  | S fuel' =>
      match skip_ws s with
      | EmptyString => None
      | String a r =>
          if Ascii.eqb a "{"%char then
            match skip_ws r with
            | String c r' =>
                if Ascii.eqb c "}"%char then Some (JObj [], r')
                else parse_members fuel' r []
            | EmptyString => None
            end
          else if Ascii.eqb a "["%char then
            match skip_ws r with
            | String c r' =>
                if Ascii.eqb c "]"%char then Some (JArr [], r')
                else parse_items fuel' r []
            | EmptyString => None
            end
          else if Ascii.eqb a quote then
            match parse_chars r with
            | Some (cs, rest) => Some (JStr cs, rest)
            | None => None
            end
          else parse_literal (String a r)
      end
  end
with parse_members (fuel : nat) (s : string) (acc : list (string * json))
    : option (json * string) :=
  match fuel with
  | O => None
  | S fuel' =>
      match skip_ws s with
      | String a r =>
          if Ascii.eqb a quote then
            match parse_chars r with
            | Some (key, r1) =>
                match skip_ws r1 with
                | String c r2 =>
                    if Ascii.eqb c ":"%char then
                      match parse_value fuel' r2 with
                      | Some (v, r3) =>
                          match skip_ws r3 with
                          | String d r4 =>
                              if Ascii.eqb d ","%char
                              then parse_members fuel' r4 (acc ++ [(key, v)])
                              else if Ascii.eqb d "}"%char
                                   then Some (JObj (acc ++ [(key, v)]), r4)
                                   else None
                          | EmptyString => None
                          end
                      | None => None
                      end
                    else None
                | EmptyString => None
                end
            | None => None
            end
          else None
      | EmptyString => None
      end
  end
with parse_items (fuel : nat) (s : string) (acc : list json)
    : option (json * string) :=
  match fuel with
  | O => None
  | S fuel' =>
      match parse_value fuel' s with
      | Some (v, r1) =>
          match skip_ws r1 with
          | String d r2 =>
              if Ascii.eqb d ","%char then parse_items fuel' r2 (acc ++ [v])
              else if Ascii.eqb d "]"%char then Some (JArr (acc ++ [v]), r2)
              else None
          | EmptyString => None
          end
      | None => None
      end
  end.

(** [json.loads(s)]: one value, surrounded by blanks only. *)
Definition decode (s : string) : option json :=
  match parse_value (2 * String.length s + 2) s with
  | Some (v, rest) =>
      match skip_ws rest with
      | EmptyString => Some v
      | _ => None
      end
  | None => None
  end.

(** Writes a JSON text with apostrophes in place of double quotes. *)
Fixpoint dq (s : string) : string :=
  match s with
  | EmptyString => EmptyString
  | String a r => String (if Ascii.eqb a "'"%char then quote else a) (dq r)
  end.

End Json.

(* ===================================================================== *)
(** * models.py: validation helpers and response builders *)
(* ===================================================================== *)

(** One entry of [invoice_data] in an extraction response. *)
Record page_entry : Type := mk_entry {
  entry_fields : invoice_fields;
  entry_page_number : nat;
  entry_error : option string
}.

(** The [data] member of a success response. *)
Inductive data : Type :=
| DNull
| DSubmitted (task_id status message : string)
| DStatus (task_id status : string) (progress created_at error_message : option string)
| DProcessing (task_id status message : string)
| DResults (task_id status : string) (results : ocr_result)
| DInvoice (task_id : string) (invoice_data : list page_entry)
    (total_pages : nat) (extraction_time : Z).

Inductive body : Type :=
| Success (d : data) (message : string)
| Failure (message : string) (error_code : string) (details : option string)
| Attachment (directory filename : string).

(** What a view function returns: [jsonify(body), status]. *)
Record response : Type := mk_response {
  resp_body : body;
  resp_status : Z
}.

Module Models.

(** [create_success_response(data, message)]. *)
Definition create_success_response (d : data) (message : string) : body :=
  Success d message.

(** [create_error_response(message, error_code, details)]. *)
Definition create_error_response (message error_code : string)
    (details : option string) : body :=
  Failure message error_code details.

(** [validate_file_extension(filename, allowed_extensions)]. *)
Definition validate_file_extension (filename : string) (allowed : list string) : bool :=
  if (Py.falsy filename || (Py.find "."%char filename =? -1))%bool then false
  else Py.mem (Py.lower (Py.rsplit_dot_last filename)) allowed.

(** [validate_file_size(file_size, max_size)]. *)
Definition validate_file_size (file_size max_size : Z) : bool :=
  file_size <=? max_size.

(** [OCRProcessRequestSchema]: the languages [OneOf] accepts. *)
Definition languages : list string := ["en"; "ch"; "fr"; "german"; "korean"; "japan"].

(** The body of an extraction request as sent. *)
Record extract_body : Type := mk_extract_body {
  body_task_id : option string;
  body_page_number : option Z
}.

(** [InvoiceExtractRequestSchema().load(body)]: the validated payload, or
    the validation messages. *)
Definition load_extract (b : extract_body) : string + (string * option Z) :=
  match body_task_id b with
  | None => inl "Task ID is required"
  | Some tid =>
      if ((1 <=? Py.len tid) && (Py.len tid <=? 100))%bool then
        match body_page_number b with
        | None => inr (tid, None)
        | Some n => if 1 <=? n then inr (tid, Some n)
                    else inl "Page number must be positive"
        end
      else inl "Length must be between 1 and 100."
  end.

(** The [pagination] member of a paginated response. *)
Record pagination : Type := mk_pagination {
  pg_page : Z;
  pg_per_page : Z;
  pg_total : Z;
  pg_pages : Z;
  pg_has_next : bool;
  pg_has_prev : bool
}.

(** [a // b]: floor division, [ZeroDivisionError] on a zero divisor. *)
Definition floordiv (a b : Z) : res Z :=
  if b =? 0 then Raise "integer division or modulo by zero" else Ok (a / b).

(** [create_paginated_response(data, page, per_page, total)]. *)
Definition create_paginated_response {A : Type} (items : list A)
    (page per_page total : Z) : res (list A * pagination) :=
  pages ← floordiv (total + per_page - 1) per_page;
  mret (items, {| pg_page := page;
                  pg_per_page := per_page;
                  pg_total := total;
                  pg_pages := pages;
                  pg_has_next := page <? pages;
                  pg_has_prev := 1 <? page |}).

End Models.

(* ===================================================================== *)
(** * blueprints/api_v1.py: the task endpoints *)
(* ===================================================================== *)

(** An uploaded file: its client-side name and its size in bytes. *)
Record upload : Type := mk_upload {
  up_filename : string;
  up_size : Z
}.

(** A submission: the multipart form and the uploaded files by field. *)
Record ocr_request : Type := mk_ocr_request {
  form : gmap string string;
  files : gmap string upload
}.

(** The variables the closure [process_task] captures. *)
Record thread : Type := mk_thread {
  th_upload_path : string;
  th_language : string;
  th_use_gpu : bool;
  th_task_id : string
}.

Module ApiV1.

Definition task_key (task_id : string) : string := "task:" +:+ task_id.
Definition result_key (task_id : string) : string := "task:" +:+ task_id +:+ ":result".

(** [get_jwt_identity().get("api_key_id", "unknown")]. *)
Definition current_user (identity : gmap string string) : string :=
  match identity !! "api_key_id" with Some u => u | None => "unknown" end.

Definition respond (b : body) (status : Z) : M response :=
  mret (mk_response b status).

(** The outermost [except Exception as e] of every view. *)
Definition internal_error (e : string) : M response :=
  respond (Models.create_error_response "Internal server error" "INTERNAL_ERROR" (Some e)) 500.

Definition not_found : M response :=
  respond (Models.create_error_response "Task not found" "TASK_NOT_FOUND" None) 404.

Definition access_denied : M response :=
  respond (Models.create_error_response "Access denied" "ACCESS_DENIED" None) 403.

(** [s.lower() in ['true', '1', 'yes', 'on']]. *)
Definition truthy_flag (s : string) : bool :=
  Py.mem (Py.lower s) ["true"; "1"; "yes"; "on"].

(** [json.dumps(b)] for a bool. *)
Definition dumps_bool (b : bool) : string := if b then "true" else "false".

(** The fields written when a task fails. *)
Definition failed_mapping (rt : runtime) (error : string) : gmap string string :=
  {[ "status" := "failed"; "error" := error; "failed_at" := utcnow_iso rt ]}.

(** The closure [process_task] run by the fallback thread. *)
Definition process_task (rt : runtime) (cfg : config) (th : thread) : M unit :=
  try_except
    (results ← OcrProcessor.process_ocr rt (th_upload_path th) (OUTPUT_FOLDER cfg)
                 (th_language th) (th_use_gpu th);
     let result_data :=
       {| detected_texts := results;
          all_text := Py.join nl results;
          processing_time := Some (time_now rt);
          pages_processed := Some (length results);
          confidence_scores := None |} in
     Redis.hset (task_key (th_task_id th)) "status" "completed";;
     Redis.set (result_key (th_task_id th)) (json_dumps result_data))
    (fun e => Redis.hset_mapping (task_key (th_task_id th)) (failed_mapping rt e)).

(** The [try] that starts background processing; [Some th] when a thread
    running [process_task] was started. *)
Definition start_processing (rt : runtime) (th : thread) : M (option thread) :=
  try_except
    (match celery rt with
     | ImportRaises e => throw e
     | CeleryApp send_task =>
         async_id ← lift send_task;
         Redis.hset (task_key (th_task_id th)) "celery_task_id" async_id;;
         mret None
     | NoCelery thread_start =>
         _ ← lift thread_start;
         mret (Some th)
     end)
    (fun e =>
       Redis.hset_mapping (task_key (th_task_id th))
         (failed_mapping rt ("Failed to start processing: " +:+ e));;
       mret None).

(** [process_ocr_endpoint()]. *)
Definition process_ocr_endpoint (rt : runtime) (cfg : config)
    (identity : gmap string string) (req : ocr_request) : M (response * option thread) :=
  try_except
    (let language := match form req !! "language" with Some l => l | None => "en" end in
     let use_gpu :=
       truthy_flag (match form req !! "use_gpu" with Some f => f | None => "false" end) in
     let return_annotated_images :=
       truthy_flag (match form req !! "return_annotated_images" with
                    | Some f => f | None => "false" end) in
     if negb (Py.mem language Models.languages) then
       r ← respond (Models.create_error_response "Validation failed" "VALIDATION_ERROR"
                      (Some "Language must be one of: en, ch, fr, german, korean, japan")) 400;
       mret (r, None)
     else
     match files req !! "file" with
     | None =>
         r ← respond (Models.create_error_response "No file provided" "NO_FILE" None) 400;
         mret (r, None)
     | Some file =>
         if Py.falsy (up_filename file) then
           r ← respond (Models.create_error_response "No file selected" "EMPTY_FILENAME" None) 400;
           mret (r, None)
         else if negb (Models.validate_file_extension (up_filename file)
                         (ALLOWED_EXTENSIONS cfg)) then
           r ← respond (Models.create_error_response
                          ("Unsupported file type. Allowed: "
                           +:+ Py.join ", " (ALLOWED_EXTENSIONS cfg))
                          "INVALID_FILE_TYPE" None) 400;
           mret (r, None)
         else if negb (Models.validate_file_size (up_size file) (MAX_CONTENT_LENGTH cfg)) then
           r ← respond (Models.create_error_response
                          ("File too large. Maximum size: "
                           +:+ Py.str_of_nat (Z.to_nat (MAX_CONTENT_LENGTH cfg / (1024 * 1024)))
                           +:+ "MB")
                          "FILE_TOO_LARGE" None) 413;
           mret (r, None)
         else
           let base_name :=
             match fst (Py.path.splitext (up_filename file)) with
             | EmptyString => "upload"
             | b => b
             end in
           let safe_base := secure_filename rt base_name in
           let ext := snd (Py.path.splitext (up_filename file)) in
           let unique_suffix := Py.str_of_Z (time_now rt) +:+ "_" +:+ uuid_suffix rt in
           let filename := safe_base +:+ "_" +:+ unique_suffix +:+ ext in
           let upload_path := Py.path.join (UPLOAD_FOLDER cfg) filename in
           Os.write upload_path;;
           let task_id := uuid_task rt in
           let task_data : gmap string string :=
             {[ "task_id" := task_id;
                "status" := "processing";
                "filename" := filename;
                "language" := language;
                "use_gpu" := dumps_bool use_gpu;
                "return_annotated_images" := dumps_bool return_annotated_images;
                "created_at" := utcnow_iso rt;
                "user_id" := current_user identity ]} in
           Redis.hset_mapping (task_key task_id) task_data;;
           started ← start_processing rt (mk_thread upload_path language use_gpu task_id);
           let response_data := DSubmitted task_id "processing" "OCR processing started" in
           r ← respond (Models.create_success_response response_data "OCR processing started") 202;
           mret (r, started)
     end)
    (fun e => r ← internal_error e; mret (r, None)).

(** The Celery branch of [get_ocr_status]: materialise the state of the
    delegated job; [task_data] is the local dict the view goes on to read.
    Any exception is swallowed by [except Exception: pass]. *)
Definition reconcile (rt : runtime) (task_id : string)
    (task_data : gmap string string) : M (gmap string string) :=
  if (bool_decide (task_data !! "status" = Some "processing")
      && negb (Py.falsy (match task_data !! "celery_task_id" with
                         | Some c => c | None => EmptyString end)))%bool
  then
    try_except
      (app ← lift (celery_reconcile rt);
       match app with
       | None => mret task_data
       | Some async_result =>
           job ← lift (async_result
                         (match task_data !! "celery_task_id" with
                          | Some c => c | None => EmptyString end));
           match job with
           | JobSuccess result =>
               Redis.hset (task_key task_id) "status" "completed";;
               Redis.set (result_key task_id) (json_dumps result);;
               mret (<["status" := "completed"]> task_data)
           | JobFailure error =>
               Redis.hset_mapping (task_key task_id) (failed_mapping rt error);;
               mret (<["error" := error]> (<["status" := "failed"]> task_data))
           | JobPending => mret task_data
           end
       end)
      (fun _ => mret task_data)
  else mret task_data.

(** [get_ocr_status(task_id)]. *)
Definition get_ocr_status (rt : runtime) (identity : gmap string string)
    (task_id : string) : M response :=
  try_except
    (task_data ← Redis.hgetall (task_key task_id);
     if bool_decide (task_data = ∅) then not_found
     else if negb (bool_decide (task_data !! "user_id" = Some (current_user identity)))
     then access_denied
     else
       task_data ← reconcile rt task_id task_data;
       let response_data :=
         DStatus task_id
           (match task_data !! "status" with Some s => s | None => "unknown" end)
           (task_data !! "progress")
           (task_data !! "created_at")
           (task_data !! "error") in
       respond (Models.create_success_response response_data "Operation successful") 200)
    internal_error.

(** [get_ocr_result(task_id)]. *)
Definition get_ocr_result (identity : gmap string string) (task_id : string) : M response :=
  try_except
    (task_data ← Redis.hgetall (task_key task_id);
     if bool_decide (task_data = ∅) then not_found
     else if negb (bool_decide (task_data !! "user_id" = Some (current_user identity)))
     then access_denied
     else
       let status := match task_data !! "status" with Some s => s | None => "unknown" end in
       if String.eqb status "processing" then
         respond (Models.create_success_response
                    (DProcessing task_id "processing" "Task is still processing")
                    "Operation successful") 202
       else if String.eqb status "failed" then
         respond (Models.create_error_response
                    (match task_data !! "error" with
                     | Some e => e | None => "Processing failed" end)
                    "PROCESSING_FAILED" None) 500
       else
         let unknown :=
           respond (Models.create_error_response "Unknown task status" "UNKNOWN_STATUS" None) 500 in
         if String.eqb status "completed" then
           result_data ← Redis.get (result_key task_id);
           match result_data with
           | Some b =>
               if blob_falsy result_data then unknown
               else
                 match json_loads b with
                 | Ok results =>
                     respond (Models.create_success_response
                                (DResults task_id "completed" results)
                                "Operation successful") 200
                 | Raise _ =>
                     respond (Models.create_error_response "Invalid result data"
                                "INVALID_RESULT" None) 500
                 end
           | None => unknown
           end
         else unknown)
    internal_error.

(** The entry substituted for a page whose extraction raised. *)
Definition failed_entry (idx : nat) (e : string) : page_entry :=
  mk_entry empty_fields idx (Some e).

(** The [for idx, page_text in enumerate(detected_texts, 1)] loop. The
    backend sees the calls of one request numbered from 0. *)
Fixpoint extract_pages (extract : nat -> string -> res invoice_fields)
    (pages : list string) (idx : nat) (results : list page_entry) : list page_entry :=
  match pages with
  | [] => results
  | page_text :: rest =>
      let entry :=
        match extract (Nat.pred idx) page_text with
        | Ok invoice_data => mk_entry invoice_data idx None
        | Raise e => failed_entry idx e
        end in
      extract_pages extract rest (S idx) (results ++ [entry])
  end.

(** [extract_invoice_data()]; [request_body] is [None] when the body is
    not JSON, so that [request.get_json(force=True)] raises. *)
Definition extract_invoice_data (rt : runtime)
    (extract : nat -> string -> res invoice_fields)
    (identity : gmap string string)
    (request_body : option Models.extract_body) : M response :=
  try_except
    (raw ← match request_body with
           | Some b => mret b
           | None => throw "400 Bad Request"
           end;
     match Models.load_extract raw with
     | inl messages =>
         respond (Models.create_error_response "Validation failed" "VALIDATION_ERROR"
                    (Some messages)) 400
     | inr (task_id, page_number) =>
         task_data ← Redis.hgetall (task_key task_id);
         if bool_decide (task_data = ∅) then not_found
         else if negb (bool_decide (task_data !! "user_id" = Some (current_user identity)))
         then access_denied
         else if negb (bool_decide (task_data !! "status" = Some "completed")) then
           respond (Models.create_error_response "Task not completed yet"
                      "TASK_NOT_COMPLETED" None) 400
         else
           result_data ← Redis.get (result_key task_id);
           match result_data with
           | Some b =>
               if blob_falsy result_data then
                 respond (Models.create_error_response "OCR results not found"
                            "RESULTS_NOT_FOUND" None) 404
               else
                 match json_loads b with
                 | Raise _ =>
                     respond (Models.create_error_response "Invalid OCR results"
                                "INVALID_RESULTS" None) 500
                 | Ok ocr_results =>
                     let texts := detected_texts ocr_results in
                     let finish (results : list page_entry) :=
                       respond (Models.create_success_response
                                  (DInvoice task_id results (length texts) (time_now rt))
                                  "Invoice data extracted successfully") 200 in
                     match page_number with
                     | Some n =>
                         if n =? 0 then finish (extract_pages extract texts 1 [])
                         else if Z.of_nat (length texts) <? n then
                           respond (Models.create_error_response "Page number out of range"
                                      "PAGE_OUT_OF_RANGE" None) 400
                         else
                           page_text ← match texts !! Z.to_nat (n - 1) with
                                       | Some t => mret t
                                       | None => throw "list index out of range"
                                       end;
                           match extract 0%nat page_text with
                           | Ok invoice_data =>
                               finish [mk_entry invoice_data (Z.to_nat n) None]
                           | Raise e =>
                               respond (Models.create_error_response
                                          ("Extraction failed: " +:+ e)
                                          "EXTRACTION_FAILED" None) 500
                           end
                     | None => finish (extract_pages extract texts 1 [])
                     end
                 end
           | None =>
               respond (Models.create_error_response "OCR results not found"
                          "RESULTS_NOT_FOUND" None) 404
           end
     end)
    internal_error.

(** [download_file(task_id, filename)]. *)
Definition download_file (cfg : config) (identity : gmap string string)
    (task_id filename : string) : M response :=
  try_except
    (task_data ← Redis.hgetall (task_key task_id);
     if bool_decide (task_data = ∅) then not_found
     else if negb (bool_decide (task_data !! "user_id" = Some (current_user identity)))
     then access_denied
     else
       let file_path := Py.path.join (OUTPUT_FOLDER cfg) filename in
       present ← Os.exists_ file_path;
       if negb present then
         respond (Models.create_error_response "File not found" "FILE_NOT_FOUND" None) 404
       else respond (Attachment (OUTPUT_FOLDER cfg) filename) 200)
    internal_error.

(** [if os.path.exists(p): os.remove(p)]. *)
Definition remove_if_exists (p : string) : M unit :=
  present ← Os.exists_ p;
  if (present : bool) then Os.remove p else mret tt.

(** The [for ext in ['.txt', '.json', '.png']] loop of [delete_task]. *)
Fixpoint remove_outputs (cfg : config) (base_name : string) (exts : list string) : M unit :=
  match exts with
  | [] => mret tt
  | ext :: rest =>
      remove_if_exists (Py.path.join (OUTPUT_FOLDER cfg) (base_name +:+ ext));;
      remove_outputs cfg base_name rest
  end.

(** [delete_task(task_id)]. *)
Definition delete_task (cfg : config) (identity : gmap string string)
    (task_id : string) : M response :=
  try_except
    (task_data ← Redis.hgetall (task_key task_id);
     if bool_decide (task_data = ∅) then not_found
     else if negb (bool_decide (task_data !! "user_id" = Some (current_user identity)))
     then access_denied
     else
       Redis.delete (task_key task_id);;
       Redis.delete (result_key task_id);;
       let filename := match task_data !! "filename" with
                       | Some f => f | None => EmptyString end in
       (if Py.falsy filename then mret tt
        else
          remove_if_exists (Py.path.join (UPLOAD_FOLDER cfg) filename);;
          let base_name := fst (Py.path.splitext filename) in
          remove_outputs cfg base_name [".txt"; ".json"; ".png"]);;
       respond (Models.create_success_response DNull "Task deleted successfully") 200)
    internal_error.

(** A query argument as [int(request.args.get(name, default))] reads it:
    absent, text that [int] parses, or text that [int] rejects. *)
Inductive int_arg : Type :=
| Absent
| Parses (z : Z)
| Rejected (text : string).

Definition int_of (a : int_arg) (dflt : Z) : res Z :=
  match a with
  | Absent => Ok dflt
  | Parses z => Ok z
  | Rejected text =>
      Raise ("invalid literal for int() with base 10: '" +:+ text +:+ "'")
  end.

(** The query string of [GET /tasks]. *)
Record tasks_query : Type := mk_tasks_query {
  q_page : int_arg;
  q_per_page : int_arg;
  q_status : option string
}.

(** One element of [data] in the listing. *)
Record task_summary : Type := mk_task_summary {
  ls_task_id : string;
  ls_status : string;
  ls_filename : string;
  ls_created_at : option string;
  ls_language : string
}.

Inductive tasks_body : Type :=
| Listed (items : list task_summary) (p : Models.pagination)
| ListFailure (message error_code : string) (details : option string).

(** The dict appended for a task; [key.split(":")[-1]] is the text after
    the last colon. *)
Definition summary_of (key : string) (task_data : gmap string string) : task_summary :=
  {| ls_task_id :=
       default (Py.slice_from key (Py.rfind ":"%char key + 1)) (task_data !! "task_id");
     ls_status := default "unknown" (task_data !! "status");
     ls_filename := default EmptyString (task_data !! "filename");
     ls_created_at := task_data !! "created_at";
     ls_language := default "en" (task_data !! "language") |}.

(** The two nested conditions of the loop body. *)
Definition selected (user : string) (status_filter : option string)
    (task_data : gmap string string) : bool :=
  (bool_decide (task_data !! "user_id" = Some user)
   && match status_filter with
      | None => true
      | Some f => Py.falsy f || bool_decide (task_data !! "status" = Some f)
      end)%bool.

(** [for key in task_keys: ...], appending to [tasks]. *)
Fixpoint collect_tasks (user : string) (status_filter : option string)
    (task_keys : list string) (tasks : list task_summary) : M (list task_summary) :=
  match task_keys with
  | [] => mret tasks
  | key :: rest =>
      task_data ← Redis.hgetall key;
      collect_tasks user status_filter rest
        (if selected user status_filter task_data
         then (tasks ++ [summary_of key task_data])%list else tasks)
  end.

(** The text a sort key [x.get("created_at", EMPTY)] is compared by. The
    member is always present, so the key of a task without a creation
    time is [None]; [sort_newest_first] raises before such a key is
    compared. *)
Definition sort_key (t : task_summary) : string := default EmptyString (ls_created_at t).

Fixpoint insert_newest (x : task_summary) (l : list task_summary) : list task_summary :=
  match l with
  | [] => [x]
  | y :: l' =>
      if String.leb (sort_key y) (sort_key x) then x :: y :: l'
      else y :: insert_newest x l'
  end.

(** [tasks.sort(key=..., reverse=True)]: stable, descending. With two or
    more elements every key takes part in a comparison, and comparing
    [None] raises [TypeError]; the operand types named after this prefix
    depend on the order of comparisons. *)
Definition sort_newest_first (tasks : list task_summary) : res (list task_summary) :=
  if ((2 <=? Z.of_nat (List.length tasks))
      && existsb (fun t => bool_decide (ls_created_at t = None)) tasks)%bool
  then Raise "'<' not supported between instances of"
  else Ok (foldr insert_newest [] tasks).

(** A slice bound as [list.__getitem__] normalises it. *)
Definition slice_bound (n i : Z) : Z :=
  if i <? 0 then Z.max 0 (i + n) else Z.min i n.

(** [l[start:stop]] for any integers. *)
Definition slice_list {A : Type} (l : list A) (start stop : Z) : list A :=
  let n := Z.of_nat (List.length l) in
  let i := slice_bound n start in
  let j := slice_bound n stop in
  take (Z.to_nat (j - i)) (drop (Z.to_nat i) l).

(** [list_tasks()] for the caller [identity]. *)
Definition list_tasks (identity : gmap string string) (q : tasks_query)
    : M (tasks_body * Z) :=
  try_except
    (page ← lift (int_of (q_page q) 1);
     requested ← lift (int_of (q_per_page q) 20);
     let per_page := Z.min requested 100 in
     let status_filter := q_status q in
     let user := current_user identity in
     task_keys ← Redis.keys_prefixed "task:";
     tasks ← collect_tasks user status_filter task_keys [];
     sorted ← lift (sort_newest_first tasks);
     let total := Z.of_nat (List.length sorted) in
     let start := (page - 1) * per_page in
     let stop := start + per_page in
     let paginated_tasks := slice_list sorted start stop in
     response_data ← lift (Models.create_paginated_response paginated_tasks page per_page total);
     mret (Listed response_data.1 response_data.2, 200))
    (fun e => mret (ListFailure "Internal server error" "INTERNAL_ERROR" (Some e), 500)).

End ApiV1.

(* ===================================================================== *)
(** * simple_api.py: the in-process worker *)
(* ===================================================================== *)

Module SimpleApi.

(** [allowed_file(filename)]. *)
Definition allowed_file (cfg : config) (filename : string) : bool :=
  (negb (Py.find "."%char filename =? -1)
   && Py.mem (Py.lower (Py.rsplit_dot_last filename)) (ALLOWED_EXTENSIONS cfg))%bool.

Definition set_result (r : ocr_result) (t : simple_task) : simple_task :=
  mk_simple_task (st_status t) (st_filename t) (st_created_at t) (st_language t)
    (st_use_gpu t) (Some r) (st_error t).

Definition set_status (status : string) (t : simple_task) : simple_task :=
  mk_simple_task status (st_filename t) (st_created_at t) (st_language t)
    (st_use_gpu t) (st_result t) (st_error t).

Definition set_error (e : string) (t : simple_task) : simple_task :=
  mk_simple_task (st_status t) (st_filename t) (st_created_at t) (st_language t)
    (st_use_gpu t) (st_result t) (Some e).

(** The closure [worker] of [ocr_process] ([worker_bin] and [worker_json]
    have the same body). *)
Definition worker (rt : runtime) (cfg : config) (th : thread) : M unit :=
  try_except
    (texts ← OcrProcessor.process_ocr rt (th_upload_path th) (OUTPUT_FOLDER cfg)
               (th_language th) (th_use_gpu th);
     let result_payload :=
       {| detected_texts := texts;
          all_text := Py.join nl texts;
          processing_time := None;
          pages_processed := Some (length texts);
          confidence_scores := None |} in
     Redis.tasks_update (th_task_id th) (set_result result_payload);;
     Redis.tasks_update (th_task_id th) (set_status "completed"))
    (fun e =>
       Redis.tasks_update (th_task_id th) (set_status "failed");;
       Redis.tasks_update (th_task_id th) (set_error e)).

(** The JSON bodies of the status and result routes. *)
Inductive simple_body : Type :=
| SimpleError (message : option string)
| SimpleStatus (task_id status : string) (error : option string)
| SimpleProcessing (task_id : string)
| SimpleCompleted (task_id : string) (results : option ocr_result).

(** [ocr_status(task_id)]. *)
Definition ocr_status (task_id : string) : M (simple_body * Z) := fun w =>
  match tasks (redis w) !! task_id with
  | None => (Ok (SimpleError (Some "task not found"), 404), w)
  | Some data =>
      (Ok (SimpleStatus task_id (st_status data) (st_error data), 200), w)
  end.

(** [ocr_result(task_id)]. *)
Definition ocr_result (task_id : string) : M (simple_body * Z) := fun w =>
  match tasks (redis w) !! task_id with
  | None => (Ok (SimpleError (Some "task not found"), 404), w)
  | Some data =>
      if String.eqb (st_status data) "processing"
      then (Ok (SimpleProcessing task_id, 202), w)
      else if String.eqb (st_status data) "failed"
      then (Ok (SimpleError (st_error data), 500), w)
      else (Ok (SimpleCompleted task_id (st_result data), 200), w)
  end.

End SimpleApi.

(* ===================================================================== *)
(** * ocr_utils.py: constructing the engine *)
(* ===================================================================== *)

Module OcrUtils.

(** The keyword arguments handed to [PaddleOCR]; an absent key is
    [None]. *)
Record paddle_kwargs : Type := mk_paddle_kwargs {
  kw_lang : string;
  kw_use_gpu : bool;
  kw_show_log : bool;
  kw_det_model_dir : option string;
  kw_rec_model_dir : option string;
  kw_cls_model_dir : option string;
  kw_use_angle_cls : option bool
}.

(** [(os.environ.get(name, EMPTY) or EMPTY).strip()], [EMPTY] the empty
    string. *)
Definition env_text (environ : gmap string string) (name : string) : string :=
  InvoiceExtractor.strip (default EmptyString (environ !! name)).

(** [text.lower() in {"1", "true", "yes", "on"}]. *)
Definition switched_on (text : string) : bool :=
  Py.mem (Py.lower text) ["1"; "true"; "yes"; "on"].

(** [if d: kwargs[key] = d]. *)
Definition dir_arg (d : string) : option string :=
  if Py.falsy d then None else Some d.

(** The loop over the three keys: the first one that is set and is not
    a directory raises [FileNotFoundError]. *)
Fixpoint check_dirs (isdir : string -> bool) (entries : list (string * option string))
    : res unit :=
  match entries with
  | [] => Ok tt
  | (_, None) :: rest => check_dirs isdir rest
  | (key, Some d) :: rest =>
      if isdir d then check_dirs isdir rest
      else Raise (key +:+ " not found at " +:+ d
                  +:+ ". Set correct path or unset OCR_USE_LOCAL_MODELS.")
  end.

(** The keyword arguments [create_paddle_ocr] reaches a [PaddleOCR(...)]
    call with, or the exception it raises before. *)
Definition paddle_arguments (environ : gmap string string) (isdir : string -> bool)
    (lang : string) (use_gpu : bool) : res paddle_kwargs :=
  let use_local := switched_on (env_text environ "OCR_USE_LOCAL_MODELS") in
  let det_dir := env_text environ "OCR_DET_MODEL_DIR" in
  let rec_dir := env_text environ "OCR_REC_MODEL_DIR" in
  let cls_dir := env_text environ "OCR_CLS_MODEL_DIR" in
  let kwargs :=
    {| kw_lang := lang; kw_use_gpu := use_gpu; kw_show_log := false;
       kw_det_model_dir := None; kw_rec_model_dir := None;
       kw_cls_model_dir := None; kw_use_angle_cls := None |} in
  if (use_local || negb (Py.falsy det_dir) || negb (Py.falsy rec_dir)
      || negb (Py.falsy cls_dir))%bool then
    let kwargs :=
      {| kw_lang := lang; kw_use_gpu := use_gpu; kw_show_log := false;
         kw_det_model_dir := dir_arg det_dir;
         kw_rec_model_dir := dir_arg rec_dir;
         kw_cls_model_dir := dir_arg cls_dir;
         kw_use_angle_cls := if Py.falsy cls_dir then None else Some true |} in
    check_dirs isdir [("det_model_dir", kw_det_model_dir kwargs);
                      ("rec_model_dir", kw_rec_model_dir kwargs);
                      ("cls_model_dir", kw_cls_model_dir kwargs)];;
    mret kwargs
  else if switched_on (env_text environ "OCR_DISABLE_DOWNLOAD") then
    Raise ("PaddleOCR model download is disabled and no local model dirs provided. "
           +:+ "Set OCR_DET_MODEL_DIR / OCR_REC_MODEL_DIR (/ OCR_CLS_MODEL_DIR) or enable downloads.")
  else mret kwargs.

(** [create_paddle_ocr(lang, use_gpu)]. [paddle_import] is what
    [from paddleocr import PaddleOCR] yields: the constructor, or the
    import error. *)
Definition create_paddle_ocr (environ : gmap string string) (isdir : string -> bool)
    (paddle_import : res (paddle_kwargs -> res engine))
    (lang : string) (use_gpu : bool) : res engine :=
  PaddleOCR ← paddle_import;
  kwargs ← paddle_arguments environ isdir lang use_gpu;
  PaddleOCR kwargs.

End OcrUtils.

(* ===================================================================== *)
(** * celery_worker.py: the delegated job *)
(* ===================================================================== *)

Module CeleryWorker.


End CeleryWorker.

(* ===================================================================== *)
(** * Requests against a task *)
(* ===================================================================== *)

(** The authenticated requests that address one task. *)
Inductive task_request : Type :=
| StatusCheck (task_id : string)
| ResultFetch (task_id : string)
| Extraction (request_body : option Models.extract_body)
| Download (task_id filename : string)
| Deletion (task_id : string).

(** The task id a request carries, as the client sent it. *)
Definition requested_task (q : task_request) : option string :=
  match q with
  | StatusCheck t | ResultFetch t | Download t _ | Deletion t => Some t
  | Extraction (Some b) => Models.body_task_id b
  | Extraction None => None
  end.

(** Whether the request body passes schema validation; only extraction
    has a body. *)
Definition well_formed (q : task_request) : bool :=
  match q with
  | Extraction (Some b) =>
      match Models.load_extract b with inr _ => true | inl _ => false end
  | Extraction None => false
  | _ => true
  end.

(** Routing of a request to its view function. *)
Definition serve (rt : runtime) (cfg : config)
    (extract : nat -> string -> res invoice_fields)
    (identity : gmap string string) (q : task_request) : M response :=
  match q with
  | StatusCheck t => ApiV1.get_ocr_status rt identity t
  | ResultFetch t => ApiV1.get_ocr_result identity t
  | Extraction b => ApiV1.extract_invoice_data rt extract identity b
  | Download t f => ApiV1.download_file cfg identity t f
  | Deletion t => ApiV1.delete_task cfg identity t
  end.

(** The task record a reader finds for an id; [None] when unknown. *)
Definition find_task (w : world) (task_id : string) : option (gmap string string) :=
  match hashes (redis w) !! ApiV1.task_key task_id with
  | Some td => if bool_decide (td = ∅) then None else Some td
  | None => None
  end.

(** The key [task:<id>] holds a string value and no task record, as for
    the id [<t>:result] of a task [t] with a stored Result. *)
Definition holds_string (w : world) (task_id : string) : bool :=
  (bool_decide (hashes (redis w) !! ApiV1.task_key task_id = None)
   && bool_decide (is_Some (blobs (redis w) !! ApiV1.task_key task_id)))%bool.

Definition NotFound : response :=
  mk_response (Failure "Task not found" "TASK_NOT_FOUND" None) 404.

(** The body and status of the outermost [except] of a view. *)
Definition InternalError (e : string) : response :=
  mk_response (Failure "Internal server error" "INTERNAL_ERROR" (Some e)) 500.

Definition AccessDenied : response :=
  mk_response (Failure "Access denied" "ACCESS_DENIED" None) 403.

(* ===================================================================== *)
(** * Submissions that pass validation, and dispatch failures *)
(* ===================================================================== *)

(** The guards of [process_ocr_endpoint] before the file is saved: the
    uploaded file when all of them pass. *)
Definition validated_upload (cfg : config) (req : ocr_request) : option upload :=
  let language := match form req !! "language" with Some l => l | None => "en" end in
  if Py.mem language Models.languages then
    match files req !! "file" with
    | Some file =>
        if (negb (Py.falsy (up_filename file))
            && Models.validate_file_extension (up_filename file) (ALLOWED_EXTENSIONS cfg)
            && Models.validate_file_size (up_size file) (MAX_CONTENT_LENGTH cfg))%bool
        then Some file else None
    | None => None
    end
  else None.

(** The exception raised while starting background processing, if any. *)
Definition dispatch_error (rt : runtime) : option string :=
  match celery rt with
  | ImportRaises e => Some e
  | CeleryApp (Raise e) => Some e
  | NoCelery (Raise e) => Some e
  | _ => None
  end.

(** The value of a field of a task's metadata record. *)
Definition task_field (s : store) (task_id field : string) : option string :=
  match hashes s !! ApiV1.task_key task_id with
  | Some td => td !! field
  | None => None
  end.

(* ===================================================================== *)
(** * Vocabulary of the pipeline properties *)
(* ===================================================================== *)

(** The extension [convert_to_png] dispatches on. *)
Definition convert_extension (input_path : string) : string :=
  Py.lower (snd (Py.path.splitext (Py.path.basename input_path))).

(** The extensions [convert_to_png] has a branch for. *)
Definition convert_supports (ext : string) : bool :=
  (String.eqb ext ".png"
   || Py.mem ext [".jpg"; ".jpeg"; ".bmp"; ".tif"; ".tiff"; ".webp"]
   || String.eqb ext ".pdf")%bool.

(** A store state in which a reader finds the task completed but no
    Result under its key. *)
Definition completed_without_result (s : store) (task_id : string) : Prop :=
  task_field s task_id "status" = Some "completed" /\
  blobs s !! ApiV1.result_key task_id = None.

(** The same for the [TASKS] dict of simple_api.py. *)
Definition simple_completed_without_result (s : store) (task_id : string) : Prop :=
  exists t, tasks s !! task_id = Some t /\
    st_status t = "completed" /\ st_result t = None.


(* ===================================================================== *)
(** * Vocabulary of the salvage property *)
(* ===================================================================== *)

(** The decoder answers a text that starts with an opening brace with an
    object, if it answers at all (as [json.loads] does). *)
Definition loads_object (b : backend) : Prop :=
  forall s v, loads b (String "{"%char s) = Some v -> exists members, v = JObj members.

Fixpoint contains (c : ascii) (s : string) : bool :=
  match s with
  | EmptyString => false
  | String a r => (Ascii.eqb a c || contains c r)%bool
  end.

(** [sub] runs from the first opening brace of [text] to its last closing
    brace, both included. *)
Definition spans_first_open_to_last_close (text sub : string) : Prop :=
  exists pre mid post,
    text = pre +:+ sub +:+ post /\
    sub = String "{"%char (mid +:+ "}") /\
    contains "{"%char pre = false /\
    contains "}"%char post = false.

(** [str(members.get(key, EMPTY))] with the empty string as default. *)
Definition member_text (b : backend) (members : list (string * json)) (key : string) : string :=
  match InvoiceExtractor.members_get members key with
  | Some v => InvoiceExtractor.str b v
  | None => EmptyString
  end.

Definition fields_of_members (b : backend) (members : list (string * json)) : invoice_fields :=
  mk_fields (member_text b members "invoice_number") (member_text b members "invoice_date")
    (member_text b members "vendor_name") (member_text b members "customer_name")
    (member_text b members "total_amount") (member_text b members "tax_amount").

(** Follows the spec's words, "the first balanced {...} substring": the
    text after an opening brace up to the brace that closes it. *)
Fixpoint balanced_tail (s : string) (depth : nat) : option string :=
  match s with
  | EmptyString => None
  | String a r =>
      if Ascii.eqb a "{"%char then
        match balanced_tail r (S depth) with
        | Some t => Some (String a t)
        | None => None
        end
      else if Ascii.eqb a "}"%char then
        match depth with
        | O => Some (String a EmptyString)
        | S d =>
            match balanced_tail r d with
            | Some t => Some (String a t)
            | None => None
            end
        end
      else
        match balanced_tail r depth with
        | Some t => Some (String a t)
        | None => None
        end
  end.

(** Follows the spec's words: the first balanced [{...}] substring. *)
Definition first_balanced_braces (text : string) : option string :=
  let start := Py.find "{"%char text in
  if start =? -1 then None
  else
    match balanced_tail (Py.slice_from text (start + 1)) 0 with
    | Some t => Some (String "{"%char t)
    | None => None
    end.

(** Follows the spec's words: decode the content, on failure decode its
    first balanced [{...}] substring, else give up with an empty object. *)
Definition decode_content_as_specified (b : backend) (content : json) : res json :=
  match content with
  | JStr text =>
      match loads b text with
      | Some data => Ok data
      | None =>
          match first_balanced_braces text with
          | Some sub =>
              match loads b sub with
              | Some data => Ok data
              | None => Ok (JObj [])
              end
          | None => Ok (JObj [])
          end
      end
  | _ => Raise "object has no attribute 'find'"
  end.

Definition fields_of_content_as_specified (b : backend) (content : json)
  : res invoice_fields :=
  data ← decode_content_as_specified b content;
  InvoiceExtractor.fields_of b data.

(* ===================================================================== *)
(** * Concrete deployments and requests used by the examples *)
(* ===================================================================== *)

Module Werkzeug.

Definition keep (a : ascii) : bool :=
  let n := nat_of_ascii a in
  ((Nat.leb 48 n && Nat.leb n 57) || (Nat.leb 65 n && Nat.leb n 90)
   || (Nat.leb 97 n && Nat.leb n 122)
   || Ascii.eqb a "_"%char || Ascii.eqb a "."%char || Ascii.eqb a "-"%char)%bool.

Definition edge (a : ascii) : bool :=
  (Ascii.eqb a "."%char || Ascii.eqb a "_"%char)%bool.

(** ["_".join(s.split())] with path separators turned into blanks. *)
Fixpoint underscore_words (s : string) (pending started : bool) : string :=
  match s with
  | EmptyString => EmptyString
  | String a r =>
      if (InvoiceExtractor.is_space a || Ascii.eqb a "/"%char)%bool
      then underscore_words r started started
      else if pending
           then String "_"%char (String a (underscore_words r false true))
           else String a (underscore_words r false true)
  end.

Fixpoint keep_only (s : string) : string :=
  match s with
  | EmptyString => EmptyString
  | String a r => if keep a then String a (keep_only r) else keep_only r
  end.

Fixpoint lstrip_edge (s : string) : string :=
  match s with
  | EmptyString => EmptyString
  | String a r => if edge a then lstrip_edge r else s
  end.

(** [werkzeug.utils.secure_filename] on ASCII names. *)
Definition secure_filename (name : string) : string :=
  InvoiceExtractor.rstrip_by edge
    (lstrip_edge (keep_only (underscore_words name false false))).

End Werkzeug.

Module Scenario.

Definition cfg : config := BaseConfig "uploads" "outputs".

Definition str_of (v : pyval) : string :=
  match v with
  | PyStr s => s
  | PyNone => "None"
  | PyNum r => r
  | PyList _ => "[...]"
  | PyTuple _ => "(...)"
  end.

(** One detection as PaddleOCR reports it: [[box, (text, confidence)]]. *)
Definition detection (text : string) : pyval :=
  PyList [PyList []; PyTuple [PyStr text; PyNum "0.99"]].

(** An engine that reads two lines on [a_page_1.png], nothing on any
    other page. *)
Definition paddle : engine := fun png =>
  if String.eqb png "outputs/a_page_1.png"
  then Ok (PyList [PyList [detection "INVOICE 7"; detection "Total 10.00"]])
  else Ok (PyList [PyNone]).

Definition rt_with (c : celery_binding) : runtime :=
  {| time_now := 1700000000;
     utcnow_iso := "2023-11-14T22:13:20";
     uuid_suffix := "1a2b3c4d";
     uuid_task := "0123456789abcdef0123456789abcdef";
     secure_filename := Werkzeug.secure_filename;
     py_str := str_of;
     image_open := fun _ => Ok tt;
     pdf_open := fun _ => Ok 2%nat;
     pdf_render := fun _ _ => Ok tt;
     create_paddle_ocr := fun _ _ => Ok paddle;
     celery := c;
     celery_reconcile := Ok None |}.

(** A deployment without Celery: submissions fall back to a thread. *)
Definition rt : runtime := rt_with (NoCelery (Ok tt)).

Definition alice : gmap string string := {[ "api_key_id" := "alice" ]}.
Definition bob : gmap string string := {[ "api_key_id" := "bob" ]}.

Definition empty_store : store := mk_store ∅ ∅ ∅.
Definition empty_world : world := mk_world empty_store ∅ [].

(** A backend that is never reached. *)
Definition no_extract : nat -> string -> res invoice_fields :=
  fun _ _ => Raise "Azure OpenAI credentials are not configured".


(** A chat completion whose message content is [content]. *)
Definition completion (content : json) : json :=
  JObj [("choices", JArr [JObj [("message", JObj [("content", content)])]])].

(** A configured backend that answers every request with [content]. *)
Definition backend_answering (content : json) : backend :=
  {| environ := {[ "AZURE_OPENAI_KEY" := "secret";
                   "AZURE_OPENAI_ENDPOINT" := "https://example.openai.azure.com/" ]};
     post_chat := fun _ _ _ _ => Ok (completion content);
     loads := Json.decode;
     repr_json := fun v => match v with JNum r => r | _ => "?" end |}.

(** Two objects side by side: not a JSON document. *)
Definition two_objects : string :=
  Json.dq "{'invoice_number': 'INV-7'} {'note': 'x'}".

(** Prose around one object. *)
Definition wrapped_object : string :=
  Json.dq "Here you go: {'invoice_number': 'INV-7', 'total_amount': 10.5} Anything else?".

(** The backend answering with [two_objects]. *)
Definition two_objects_backend : backend := backend_answering (JStr two_objects).

(** A two-page PDF uploaded by alice, still processing. *)
Definition processing_task : gmap string string :=
  {[ "task_id" := "t1"; "status" := "processing"; "filename" := "a.pdf";
     "language" := "en"; "user_id" := "alice" ]}.

Definition processing_world : world :=
  {| redis := {| hashes := {[ "task:t1" := processing_task ]};
                 blobs := ∅;
                 tasks := {[ "t1" := mk_simple_task "processing" "a.pdf" 1700000000
                                      "en" false None None ]} |};
     disk := {[ "uploads/a.pdf" ]};
     observed := [] |}.

Definition pdf_thread : thread := mk_thread "uploads/a.pdf" "en" false "t1".

(** The text the engine reads on the first page. *)
Definition page_one : string := "INVOICE 7" +:+ nl +:+ "Total 10.00".

Definition done_result : ocr_result :=
  mk_ocr_result [page_one; EmptyString] (page_one +:+ nl) (Some 1700000000)
    (Some 2%nat) None.

Definition done_task : gmap string string := <[ "status" := "completed" ]> processing_task.

(** The same task after the pipeline ran: completed, Result stored, page
    images and a text export on disk. *)
Definition done_world : world :=
  {| redis := {| hashes := {[ "task:t1" := done_task ]};
                 blobs := {[ "task:t1:result" := BJson done_result ]};
                 tasks := ∅ |};
     disk := {[ "uploads/a.pdf"; "outputs/a_page_1.png"; "outputs/a_page_2.png";
                "outputs/a.txt" ]};
     observed := [] |}.

Definition page_one_fields : invoice_fields :=
  mk_fields "7" EmptyString EmptyString EmptyString "10.00" EmptyString.

(** A backend that serves the first call of a request and fails on the
    second. *)
Definition flaky_extract : nat -> string -> res invoice_fields := fun call _ =>
  match call with
  | O => Ok page_one_fields
  | _ => Raise "backend unavailable"
  end.

Definition all_pages_body : Models.extract_body :=
  Models.mk_extract_body (Some "t1") None.

Definition second_page_body : Models.extract_body :=
  Models.mk_extract_body (Some "t1") (Some 2).

(** An upload named [.pdf]: it passes the extension check, and is stored
    under a name without extension. *)
Definition hidden_pdf_request : ocr_request :=
  {| form := ∅; files := {[ "file" := mk_upload ".pdf" 1000 ]} |}.

Definition hidden_pdf_thread : thread :=
  mk_thread "uploads/pdf_1700000000_1a2b3c4d" "en" false
    "0123456789abcdef0123456789abcdef".

(** The world after alice submitted [hidden_pdf_request]. *)
Definition hidden_pdf_submitted : world :=
  (ApiV1.process_ocr_endpoint rt cfg alice hidden_pdf_request empty_world).2.

Definition invoice_request : ocr_request :=
  {| form := {[ "language" := "en" ]};
     files := {[ "file" := mk_upload "invoice.pdf" 1000 ]} |}.

(** A deployment in which the import of the Celery application raises. *)
Definition rt_import_error : runtime :=
  rt_with (ImportRaises "attempted relative import beyond top-level package").

(** A deployment whose PDF renderer fails on the second page. *)
Definition rt_render_fails : runtime :=
  {| time_now := time_now rt;
     utcnow_iso := utcnow_iso rt;
     uuid_suffix := uuid_suffix rt;
     uuid_task := uuid_task rt;
     secure_filename := secure_filename rt;
     py_str := py_str rt;
     image_open := image_open rt;
     pdf_open := pdf_open rt;
     pdf_render := fun _ i =>
       match i with 1%nat => Raise "page render failed" | _ => Ok tt end;
     create_paddle_ocr := create_paddle_ocr rt;
     celery := celery rt;
     celery_reconcile := celery_reconcile rt |}.

(** A deployment with Celery in which every delegated job is in state
    [job]. *)
Definition rt_polling (job : async_state) : runtime :=
  {| time_now := time_now rt;
     utcnow_iso := utcnow_iso rt;
     uuid_suffix := uuid_suffix rt;
     uuid_task := uuid_task rt;
     secure_filename := secure_filename rt;
     py_str := py_str rt;
     image_open := image_open rt;
     pdf_open := pdf_open rt;
     pdf_render := pdf_render rt;
     create_paddle_ocr := create_paddle_ocr rt;
     celery := CeleryApp (Ok "job-1");
     celery_reconcile := Ok (Some (fun _ => Ok job)) |}.

(** The example task once it was handed to Celery. *)
Definition delegated_task : gmap string string :=
  <[ "celery_task_id" := "job-1" ]> processing_task.

Definition delegated_world : world :=
  {| redis := {| hashes := {[ "task:t1" := delegated_task ]};
                 blobs := ∅; tasks := ∅ |};
     disk := {[ "uploads/a.pdf" ]};
     observed := [] |}.

(** A submission of a text file. *)
Definition text_file_request : ocr_request :=
  {| form := ∅; files := {[ "file" := mk_upload "notes.txt" 10 ]} |}.

(** A backend without credentials. *)
Definition backend_unconfigured : backend :=
  {| environ := ∅;
     post_chat := fun _ _ _ _ => Ok (completion (JStr "{}"));
     loads := Json.decode;
     repr_json := fun v => match v with JNum r => r | _ => "?" end |}.

(** A configured backend that cannot be reached. *)
Definition backend_down : backend :=
  {| environ := environ (backend_answering JNull);
     post_chat := fun _ _ _ _ => Raise "connection timed out";
     loads := Json.decode;
     repr_json := fun v => match v with JNum r => r | _ => "?" end |}.

(** A reply that is one JSON object. *)
Definition plain_object : string := Json.dq "{'invoice_number': 'INV-7'}".

(** Two tasks of alice and one of bob, none with a stored Result. *)
Definition listed_task (task_id user created_at : string) : gmap string string :=
  {[ "task_id" := task_id; "status" := "processing"; "filename" := "a.pdf";
     "language" := "en"; "user_id" := user; "created_at" := created_at ]}.

Definition three_tasks_world : world :=
  {| redis := {| hashes := {[ "task:t1" := listed_task "t1" "alice" "2023-11-14T22:13:20";
                              "task:t2" := listed_task "t2" "bob" "2023-11-14T23:00:00";
                              "task:t3" := listed_task "t3" "alice" "2023-11-15T08:30:00" ]};
                 blobs := ∅; tasks := ∅ |};
     disk := ∅;
     observed := [] |}.

Definition summary (task_id created_at : string) : ApiV1.task_summary :=
  ApiV1.mk_task_summary task_id "processing" "a.pdf" (Some created_at) "en".

Definition first_page : ApiV1.tasks_query := ApiV1.mk_tasks_query ApiV1.Absent ApiV1.Absent None.

(** Model directories: only the detector's is configured. *)
Definition model_environ : gmap string string :=
  {[ "OCR_DET_MODEL_DIR" := " /models/det "; "OCR_DISABLE_DOWNLOAD" := "1" ]}.

Definition model_isdir (d : string) : bool := String.eqb d "/models/det".

(** Local models switched on without any directory, downloads disabled. *)
Definition local_only_environ : gmap string string :=
  {[ "OCR_USE_LOCAL_MODELS" := "Yes"; "OCR_DISABLE_DOWNLOAD" := "true" ]}.

End Scenario.


(* ===================================================================== *)
(** * Vocabulary of the submission properties *)
(* ===================================================================== *)

(** The name [process_ocr_endpoint] stores an accepted upload under. *)
Definition stored_filename (rt : runtime) (file : upload) : string :=
  let base_name :=
    match fst (Py.path.splitext (up_filename file)) with
    | EmptyString => "upload"
    | b => b
    end in
  secure_filename rt base_name +:+ "_"
  +:+ (Py.str_of_Z (time_now rt) +:+ "_" +:+ uuid_suffix rt)
  +:+ snd (Py.path.splitext (up_filename file)).

(** The language a submission asks for. *)
Definition requested_language (req : ocr_request) : string :=
  match form req !! "language" with Some l => l | None => "en" end.

(* ===================================================================== *)
(** * Vocabulary of the deletion properties *)
(* ===================================================================== *)

(** The paths [delete_task] tries to remove for a stored filename. *)
Definition delete_targets (cfg : config) (filename : string) : list string :=
  if Py.falsy filename then []
  else
    Py.path.join (UPLOAD_FOLDER cfg) filename
    :: map (fun ext => Py.path.join (OUTPUT_FOLDER cfg)
                         (fst (Py.path.splitext filename) +:+ ext))
         [".txt"; ".json"; ".png"].

(* ===================================================================== *)
(** * Vocabulary of the stage properties *)
(* ===================================================================== *)

(** The file [convert_to_png] writes for page [i] (0-based) of a PDF. *)
Definition pdf_page_path (input_path output_dir : string) (i : nat) : string :=
  Py.path.join output_dir
    (fst (Py.path.splitext (Py.path.basename input_path))
     +:+ "_page_" +:+ Py.str_of_nat (i + 1) +:+ ".png").

(** One detection in the shape PaddleOCR reports: [[box, (text, score)]]. *)
Definition paddle_detection (d : pyval * string * pyval) : pyval :=
  PyList [d.1.1; PyTuple [PyStr d.1.2; d.2]].

(** The text of a detection. *)
Definition detection_text (d : pyval * string * pyval) : string := d.1.2.

(* ===================================================================== *)
(** * Vocabulary of the extraction properties *)
(* ===================================================================== *)

(** The credentials check of [extract_structured_from_text] fails. *)
Definition credentials_missing (b : backend) : bool :=
  (Py.falsy (InvoiceExtractor.environ_stripped b "AZURE_OPENAI_KEY" EmptyString)
   || Py.falsy (InvoiceExtractor.environ_stripped b "AZURE_OPENAI_ENDPOINT" EmptyString)
   || Py.falsy (InvoiceExtractor.environ_stripped b "AZURE_DEPLOYMENT_NAME" "gpt-4o"))%bool.


(* ===================================================================== *)
(** * Vocabulary of the listing properties *)
(* ===================================================================== *)

(** [b] is not newer than [a], by the text of their creation times. *)
Definition not_newer (a b : ApiV1.task_summary) : Prop :=
  String.leb (ApiV1.sort_key b) (ApiV1.sort_key a) = true.

(** No entry is followed, anywhere later, by a newer one. *)
Fixpoint newest_first (l : list ApiV1.task_summary) : Prop :=
  match l with
  | [] => True
  | a :: r => Forall (not_newer a) r /\ newest_first r
  end.

(* ===================================================================== *)
(** * Reasoning about handler code *)
(* ===================================================================== *)

Lemma hgetall_find_task (w : world) (task_id : string) :
  Redis.hgetall (ApiV1.task_key task_id) w =
    (match find_task w task_id with
     | Some td => Ok td
     | None =>
         if holds_string w task_id
         then Raise "WRONGTYPE Operation against a key holding the wrong kind of value"
         else Ok ∅
     end, w).
Proof.
  unfold Redis.hgetall, find_task, holds_string.
  destruct (hashes (redis w) !! ApiV1.task_key task_id) as [td|].
  - case_bool_decide; subst; done.
  - rewrite bool_decide_eq_true_2 by done. cbn [andb].
    destruct (blobs (redis w) !! ApiV1.task_key task_id) as [v|].
    + by rewrite bool_decide_eq_true_2 by eauto.
    + rewrite bool_decide_eq_false_2; [done|]. by intros [? ?].
Qed.

Lemma hgetall_found (w : world) (task_id : string) (td : gmap string string) :
  find_task w task_id = Some td ->
  Redis.hgetall (ApiV1.task_key task_id) w = (Ok td, w).
Proof. intros H. by rewrite hgetall_find_task, H. Qed.

Lemma hgetall_unknown (w : world) (task_id : string) :
  find_task w task_id = None -> holds_string w task_id = false ->
  Redis.hgetall (ApiV1.task_key task_id) w = (Ok ∅, w).
Proof. intros H1 H2. by rewrite hgetall_find_task, H1, H2. Qed.

Lemma hgetall_string (w : world) (task_id : string) :
  holds_string w task_id = true ->
  Redis.hgetall (ApiV1.task_key task_id) w =
    (Raise "WRONGTYPE Operation against a key holding the wrong kind of value", w).
Proof.
  intros H. rewrite hgetall_find_task, H.
  unfold holds_string, find_task in *. apply andb_true_iff in H as [H _].
  apply bool_decide_eq_true in H. by rewrite H.
Qed.

Lemma find_task_nonempty (w : world) (task_id : string) (td : gmap string string) :
  find_task w task_id = Some td -> td ≠ ∅.
Proof.
  unfold find_task.
  destruct (hashes (redis w) !! ApiV1.task_key task_id) as [td'|]; [|done].
  case_bool_decide; [done|]. by intros [= <-].
Qed.


Ltac run_view :=
  cbv beta iota delta [ApiV1.get_ocr_status ApiV1.get_ocr_result
    ApiV1.extract_invoice_data ApiV1.download_file ApiV1.delete_task
    ApiV1.not_found ApiV1.access_denied ApiV1.respond ApiV1.internal_error
    try_except throw lift mbind mret M_bind M_ret].

Lemma load_extract_task_id b t p :
  Models.load_extract b = inr (t, p) -> Models.body_task_id b = Some t.
Proof.
  unfold Models.load_extract. intros H.
  destruct (Models.body_task_id b) as [tid|]; [|discriminate].
  repeat case_match; congruence.
Qed.

Lemma serve_unknown rt cfg extract identity q w tid :
  well_formed q = true ->
  requested_task q = Some tid ->
  find_task w tid = None ->
  holds_string w tid = false ->
  serve rt cfg extract identity q w = (Ok NotFound, w).
Proof.
  intros Hwf Hreq Hnone Hstr.
  destruct q as [t|t|[b|]|t f|t]; simpl in *; try discriminate;
    try (injection Hreq as ->); run_view.
  all: try (rewrite (hgetall_unknown _ _ Hnone Hstr); simpl; reflexivity).
  destruct (Models.load_extract b) as [m|[t p]] eqn:Hload; [discriminate|].
  apply load_extract_task_id in Hload. rewrite Hreq in Hload. injection Hload as <-.
  rewrite (hgetall_unknown _ _ Hnone Hstr). reflexivity.
Qed.

(** A request whose id names a string key is answered by the outermost
    handler. *)
Lemma serve_string_key rt cfg extract identity q w tid :
  well_formed q = true ->
  requested_task q = Some tid ->
  holds_string w tid = true ->
  serve rt cfg extract identity q w =
    (Ok (InternalError
           "WRONGTYPE Operation against a key holding the wrong kind of value"), w).
Proof.
  intros Hwf Hreq Hstr.
  destruct q as [t|t|[b|]|t f|t]; simpl in *; try discriminate;
    try (injection Hreq as ->); run_view.
  all: try (rewrite (hgetall_string _ _ Hstr); simpl; reflexivity).
  destruct (Models.load_extract b) as [m|[t p]] eqn:Hload; [discriminate|].
  apply load_extract_task_id in Hload. rewrite Hreq in Hload. injection Hload as <-.
  rewrite (hgetall_string _ _ Hstr). reflexivity.
Qed.


Lemma serve_foreign rt cfg extract identity q w tid td :
  well_formed q = true ->
  requested_task q = Some tid ->
  find_task w tid = Some td ->
  td !! "user_id" ≠ Some (ApiV1.current_user identity) ->
  serve rt cfg extract identity q w = (Ok AccessDenied, w).
Proof.
  intros Hwf Hreq Hsome Hown.
  pose proof (find_task_nonempty _ _ _ Hsome) as Hne.
  destruct q as [t|t|[b|]|t f|t]; simpl in *; try discriminate;
    try (injection Hreq as ->); run_view.
  all: try (rewrite (hgetall_found _ _ _ Hsome);
            rewrite (bool_decide_eq_false_2 _ Hne), (bool_decide_eq_false_2 _ Hown);
            reflexivity).
  destruct (Models.load_extract b) as [m|[t p]] eqn:Hload; [discriminate|].
  apply load_extract_task_id in Hload. rewrite Hreq in Hload. injection Hload as <-.
  rewrite (hgetall_found _ _ _ Hsome).
  rewrite (bool_decide_eq_false_2 _ Hne), (bool_decide_eq_false_2 _ Hown).
  reflexivity.
Qed.


(* ===================================================================== *)
(** * Access control: existence before ownership *)
(* ===================================================================== *)



(** The id [t1:result] once the Result of [t1] is stored: the key holds
    a string value, and the status check is answered 500, not NotFound. *)
Example result_key_as_task_id :
  find_task Scenario.done_world "t1:result" = None /\
  (serve Scenario.rt Scenario.cfg Scenario.no_extract Scenario.alice
     (StatusCheck "t1:result") Scenario.done_world).1
  = Ok (InternalError "WRONGTYPE Operation against a key holding the wrong kind of value").
Proof. split; reflexivity. Qed.


(* ===================================================================== *)
(** * Extract: a read-only view over a completed task *)
(* ===================================================================== *)

(** C6. The invoice-extract endpoint never mutates task state: whatever
    the request, the requester and the backend do, and whatever the
    outcome (success, per-page failure, validation error, any other error
    response), the view returns a response and leaves status, error,
    result and metadata of every task (and the files, and the history of
    writes) exactly as they were. *)
Theorem extract_never_mutates rt extract identity request_body w :
  exists r, ApiV1.extract_invoice_data rt extract identity request_body w = (Ok r, w).
Proof.
  run_view. unfold Redis.hgetall, Redis.get.
  repeat case_match; simplify_eq; eauto.
Qed.

Lemma extract_pages_length extract pages idx acc :
  length (ApiV1.extract_pages extract pages idx acc) = (length acc + length pages)%nat.
Proof.
  revert idx acc. induction pages as [|t pages IH]; intros idx acc; simpl.
  - lia.
  - rewrite IH, length_app. simpl. lia.
Qed.

Lemma extract_pages_prefix extract pages idx acc i e :
  acc !! i = Some e -> ApiV1.extract_pages extract pages idx acc !! i = Some e.
Proof.
  revert idx acc. induction pages as [|t pages IH]; intros idx acc Hi; simpl.
  - done.
  - apply IH. by apply lookup_app_l_Some.
Qed.

Lemma extract_pages_lookup extract pages idx acc i t :
  pages !! i = Some t ->
  ApiV1.extract_pages extract pages idx acc !! (length acc + i)%nat =
    Some (match extract (Nat.pred (idx + i)) t with
          | Ok f => mk_entry f (idx + i) None
          | Raise e => ApiV1.failed_entry (idx + i) e
          end).
Proof.
  revert idx acc i. induction pages as [|t' pages IH]; intros idx acc i Hi.
  - done.
  - destruct i as [|i]; simpl in *.
    + injection Hi as ->. apply extract_pages_prefix.
      rewrite !Nat.add_0_r. rewrite lookup_app_r by lia.
      rewrite Nat.sub_diag. done.
    + specialize (IH (S idx)
        (acc ++ [match extract (Nat.pred idx) t' with
                 | Ok f => mk_entry f idx None
                 | Raise e => ApiV1.failed_entry idx e
                 end])%list i Hi).
      rewrite length_app in IH. simpl in IH.
      replace (List.length acc + S i)%nat with (List.length acc + 1 + i)%nat by lia.
      replace (idx + S i)%nat with (S idx + i)%nat by lia.
      exact IH.
Qed.

(** The view on a completed task of the requester whose Result is stored,
    up to the point where the pages are extracted. *)
Lemma extract_reaches_pages rt extract identity b tid page td r w :
  Models.load_extract b = inr (tid, page) ->
  find_task w tid = Some td ->
  td !! "user_id" = Some (ApiV1.current_user identity) ->
  td !! "status" = Some "completed" ->
  blobs (redis w) !! ApiV1.result_key tid = Some (BJson r) ->
  (ApiV1.extract_invoice_data rt extract identity (Some b) w).1 =
    let texts := detected_texts r in
    let finish results :=
      Ok (mk_response (Success (DInvoice tid results (length texts) (time_now rt))
                         "Invoice data extracted successfully") 200) in
    match page with
    | Some n =>
        if n =? 0 then finish (ApiV1.extract_pages extract texts 1 [])
        else if Z.of_nat (length texts) <? n then
          Ok (mk_response (Failure "Page number out of range" "PAGE_OUT_OF_RANGE" None) 400)
        else
          match texts !! Z.to_nat (n - 1) with
          | Some t =>
              match extract 0%nat t with
              | Ok f => finish [mk_entry f (Z.to_nat n) None]
              | Raise e =>
                  Ok (mk_response (Failure ("Extraction failed: " +:+ e)
                                     "EXTRACTION_FAILED" None) 500)
              end
          | None =>
              Ok (mk_response (Failure "Internal server error" "INTERNAL_ERROR"
                                 (Some "list index out of range")) 500)
          end
    | None => finish (ApiV1.extract_pages extract texts 1 [])
    end.
Proof.
  intros Hload Hf Hown Hst Hblob.
  run_view. rewrite Hload. rewrite (hgetall_found _ _ _ Hf).
  rewrite (bool_decide_eq_false_2 _ (find_task_nonempty _ _ _ Hf)).
  rewrite (bool_decide_eq_true_2 _ Hown), (bool_decide_eq_true_2 _ Hst).
  unfold Redis.get. cbn [negb]. cbn beta iota. rewrite Hblob. cbn.
  destruct page as [n|]; [|reflexivity].
  destruct (n =? 0); [reflexivity|].
  destruct (Z.of_nat (length (detected_texts r)) <? n); [reflexivity|].
  destruct (detected_texts r !! Z.to_nat (n - 1)) as [t|]; [|reflexivity].
  destruct (extract 0%nat t); reflexivity.
Qed.

(** C4. For a completed task whose stored Result has N pages, the
    all-pages extraction (no page number) answers 200 with exactly N
    entries; the i-th entry is tagged with page number i (1-based); a page
    whose extraction raises yields an entry with the six fields empty and
    the error marker set; every other page carries the fields extracted
    from its own text. *)
Theorem extract_all_pages rt extract identity b tid td r w :
  Models.load_extract b = inr (tid, None) ->
  find_task w tid = Some td ->
  td !! "user_id" = Some (ApiV1.current_user identity) ->
  td !! "status" = Some "completed" ->
  blobs (redis w) !! ApiV1.result_key tid = Some (BJson r) ->
  exists entries,
    (ApiV1.extract_invoice_data rt extract identity (Some b) w).1 =
      Ok (mk_response
            (Success (DInvoice tid entries (length (detected_texts r)) (time_now rt))
               "Invoice data extracted successfully") 200) /\
    length entries = length (detected_texts r) /\
    forall i page_text,
      detected_texts r !! i = Some page_text ->
      exists e,
        entries !! i = Some e /\
        entry_page_number e = S i /\
        match extract i page_text with
        | Ok f => e = mk_entry f (S i) None
        | Raise err => e = mk_entry empty_fields (S i) (Some err)
        end.
Proof.
  intros Hload Hf Hown Hst Hblob.
  exists (ApiV1.extract_pages extract (detected_texts r) 1 []).
  split; [|split].
  - by rewrite (extract_reaches_pages _ _ _ _ _ _ _ _ _ Hload Hf Hown Hst Hblob).
  - by rewrite extract_pages_length.
  - intros i t Hi.
    pose proof (extract_pages_lookup extract _ 1 [] i t Hi) as Hl.
    simpl in Hl. eexists. split; [exact Hl|].
    destruct (extract i t); simpl; done.
Qed.

(** C9. With an explicit in-range page number, an extraction that raises
    fails the whole request: the answer is the 500 EXTRACTION_FAILED error
    body, which carries no page entry. *)
Theorem extract_single_page_failure rt extract identity b tid n td r w page_text e :
  Models.load_extract b = inr (tid, Some n) ->
  find_task w tid = Some td ->
  td !! "user_id" = Some (ApiV1.current_user identity) ->
  td !! "status" = Some "completed" ->
  blobs (redis w) !! ApiV1.result_key tid = Some (BJson r) ->
  1 <= n <= Z.of_nat (length (detected_texts r)) ->
  detected_texts r !! Z.to_nat (n - 1) = Some page_text ->
  extract 0%nat page_text = Raise e ->
  (ApiV1.extract_invoice_data rt extract identity (Some b) w).1 =
    Ok (mk_response (Failure ("Extraction failed: " +:+ e) "EXTRACTION_FAILED" None) 500).
Proof.
  intros Hload Hf Hown Hst Hblob Hn Hpage Hraise.
  rewrite (extract_reaches_pages _ _ _ _ _ _ _ _ _ Hload Hf Hown Hst Hblob).
  cbn zeta.
  destruct (Z.eqb_spec n 0) as [->|_]; [lia|].
  destruct (Z.ltb_spec (Z.of_nat (length (detected_texts r))) n) as [?|_]; [lia|].
  by rewrite Hpage, Hraise.
Qed.

(* ===================================================================== *)
(** * Submission *)
(* ===================================================================== *)

Lemma failed_mapping_status rt e : ApiV1.failed_mapping rt e !! "status" = Some "failed".
Proof. unfold ApiV1.failed_mapping. by rewrite lookup_insert_eq. Qed.

Lemma failed_mapping_error rt e : ApiV1.failed_mapping rt e !! "error" = Some e.
Proof.
  unfold ApiV1.failed_mapping.
  rewrite lookup_insert_ne by done. by rewrite lookup_insert_eq.
Qed.

Lemma hset_mapping_field key m w task_id field v :
  key = ApiV1.task_key task_id ->
  m !! field = Some v ->
  task_field (redis (Redis.hset_mapping key m w).2) task_id field = Some v.
Proof.
  intros -> Hm. unfold task_field, Redis.hset_mapping. simpl.
  rewrite lookup_insert_eq. by apply lookup_union_Some_l.
Qed.

(** What [start_processing] leaves behind when dispatch raises. *)
Lemma start_processing_failure rt th w e :
  dispatch_error rt = Some e ->
  exists w',
    ApiV1.start_processing rt th w = (Ok None, w') /\
    task_field (redis w') (th_task_id th) "status" = Some "failed" /\
    task_field (redis w') (th_task_id th) "error"
      = Some ("Failed to start processing: " +:+ e).
Proof.
  unfold dispatch_error, ApiV1.start_processing. intros He.
  destruct (celery rt) as [e'|[a|e']|[[]|e']]; simplify_eq;
    cbv beta iota delta [try_except throw lift mbind mret M_bind M_ret];
    (eexists; split; [reflexivity|]);
    (split; apply hset_mapping_field;
      auto using failed_mapping_status, failed_mapping_error).
Qed.

Lemma start_processing_returns rt th w :
  exists started w', ApiV1.start_processing rt th w = (Ok started, w').
Proof.
  unfold ApiV1.start_processing.
  destruct (celery rt) as [e'|[a|e']|[[]|e']];
    cbv beta iota delta [try_except throw lift mbind mret M_bind M_ret
                         Redis.hset Redis.hset_mapping];
    eauto.
Qed.

(** C10. Once validation passes, the submission endpoint answers 202 with
    body status "processing" in every case. In particular, when starting
    background processing raised, the stored status of the task is already
    "failed" (with the explanatory error) while the response still says
    "processing". *)
Theorem submission_always_accepted rt cfg identity req w file :
  validated_upload cfg req = Some file ->
  exists started w',
    ApiV1.process_ocr_endpoint rt cfg identity req w =
      (Ok (mk_response
             (Success (DSubmitted (uuid_task rt) "processing" "OCR processing started")
                "OCR processing started") 202, started), w') /\
    forall e, dispatch_error rt = Some e ->
      started = None /\
      task_field (redis w') (uuid_task rt) "status" = Some "failed" /\
      task_field (redis w') (uuid_task rt) "error"
        = Some ("Failed to start processing: " +:+ e).
Proof.
  unfold validated_upload, ApiV1.process_ocr_endpoint. intros Hv.
  destruct (Py.mem _ Models.languages) eqn:Hlang; [|discriminate].
  destruct (files req !! "file") as [f|] eqn:Hfile; [|discriminate].
  destruct (Py.falsy (up_filename f)) eqn:Hname; [discriminate|].
  destruct (Models.validate_file_extension _ _) eqn:Hext; [|discriminate].
  destruct (Models.validate_file_size _ _) eqn:Hsize; [|discriminate].
  simpl in Hv. injection Hv as ->.
  cbv beta iota zeta delta [try_except mbind mret M_bind M_ret negb ApiV1.respond
                            Os.write Redis.hset_mapping].
  match goal with
  | |- context [ApiV1.start_processing rt ?th ?w1] =>
      destruct (dispatch_error rt) as [e|] eqn:He;
      [ destruct (start_processing_failure rt th w1 e He) as (w' & Hrun & Hst & Herr);
        exists None, w'; rewrite Hrun
      | destruct (start_processing_returns rt th w1) as (started & w' & Hrun);
        exists started, w'; rewrite Hrun ]
  end.
  - split; [reflexivity|]. intros e' [= <-]. done.
  - split; [reflexivity|discriminate].
Qed.

(* ===================================================================== *)
(** * The pipeline stages leave the task store alone *)
(* ===================================================================== *)

Lemma render_pages_frame rt input_path output_dir base idxs paths w :
  redis (OcrProcessor.render_pages rt input_path output_dir base idxs paths w).2 = redis w /\
  observed (OcrProcessor.render_pages rt input_path output_dir base idxs paths w).2 = observed w.
Proof.
  revert paths w. induction idxs as [|i idxs IH]; intros paths w; simpl; [done|].
  cbv beta iota delta [mbind M_bind lift Os.write].
  destruct (pdf_render rt input_path i); [|done].
  match goal with |- context [OcrProcessor.render_pages _ _ _ _ _ ?p ?w'] =>
    destruct (IH p w') as [-> ->] end.
  done.
Qed.

Lemma convert_to_png_frame rt input_path output_dir w :
  redis (OcrProcessor.convert_to_png rt input_path output_dir w).2 = redis w /\
  observed (OcrProcessor.convert_to_png rt input_path output_dir w).2 = observed w.
Proof.
  unfold OcrProcessor.convert_to_png.
  repeat case_match; cbv beta iota delta [mbind mret M_bind M_ret lift Os.write];
    try done.
  - destruct (image_open rt input_path); done.
  - destruct (pdf_open rt input_path) as [n|]; [|done].
    apply render_pages_frame.
Qed.

Lemma process_ocr_frame rt file_path output_dir lang use_gpu w :
  redis (OcrProcessor.process_ocr rt file_path output_dir lang use_gpu w).2 = redis w /\
  observed (OcrProcessor.process_ocr rt file_path output_dir lang use_gpu w).2 = observed w.
Proof.
  unfold OcrProcessor.process_ocr. cbv beta iota delta [mbind M_bind].
  pose proof (convert_to_png_frame rt file_path output_dir w) as Hc.
  destruct (OcrProcessor.convert_to_png rt file_path output_dir w) as [[pngs|e] w1];
    simpl in *; [|done].
  destruct pngs; done.
Qed.

(** The run of [process_task] after a successful pipeline. *)
Lemma process_task_success rt cfg th w results w1 :
  OcrProcessor.process_ocr rt (th_upload_path th) (OUTPUT_FOLDER cfg)
    (th_language th) (th_use_gpu th) w = (Ok results, w1) ->
  let tid := th_task_id th in
  let result_data :=
    {| detected_texts := results; all_text := Py.join nl results;
       processing_time := Some (time_now rt);
       pages_processed := Some (length results);
       confidence_scores := None |} in
  let s1 :=
    {| hashes := <[ApiV1.task_key tid :=
                    {[ "status" := "completed" ]}
                    ∪ default ∅ (hashes (redis w) !! ApiV1.task_key tid)]>
                   (hashes (redis w));
       blobs := blobs (redis w); tasks := tasks (redis w) |} in
  let s2 :=
    {| hashes := hashes s1;
       blobs := <[ApiV1.result_key tid := BJson result_data]> (blobs (redis w));
       tasks := tasks (redis w) |} in
  ApiV1.process_task rt cfg th w =
    (Ok tt, {| redis := s2; disk := disk w1; observed := observed w ++ [s1; s2] |}).
Proof.
  intros Hrun. pose proof (process_ocr_frame rt (th_upload_path th) (OUTPUT_FOLDER cfg)
    (th_language th) (th_use_gpu th) w) as [Hr Ho].
  rewrite Hrun in Hr, Ho. simpl in Hr, Ho.
  unfold ApiV1.process_task.
  cbv beta iota zeta delta [try_except mbind mret M_bind M_ret].
  rewrite Hrun.
  cbv beta iota zeta delta [Redis.hset Redis.hset_mapping Redis.set Redis.commit json_dumps].
  simpl. rewrite Hr, Ho. rewrite <- app_assoc. reflexivity.
Qed.

(* ===================================================================== *)
(** * Terminal writes of the in-process worker *)
(* ===================================================================== *)

Lemma task_field_insert (h : gmap string (gmap string string)) b t tid td field :
  task_field {| hashes := <[ApiV1.task_key tid := td]> h; blobs := b; tasks := t |}
    tid field = td !! field.
Proof. unfold task_field. simpl. by rewrite lookup_insert_eq. Qed.


(** The delegated path has the same order of writes: a status read that
    finds the job successful stores the status before the Result. *)
Lemma reconcile_completed_without_result rt identity tid td c poll result w :
  find_task w tid = Some td ->
  td !! "user_id" = Some (ApiV1.current_user identity) ->
  td !! "status" = Some "processing" ->
  td !! "celery_task_id" = Some c ->
  Py.falsy c = false ->
  celery_reconcile rt = Ok (Some poll) ->
  poll c = Ok (JobSuccess result) ->
  blobs (redis w) !! ApiV1.result_key tid = None ->
  exists s s',
    observed (ApiV1.get_ocr_status rt identity tid w).2 = (observed w ++ [s; s'])%list /\
    completed_without_result s tid.
Proof.
  intros Hf Hown Hst Hc Hne Happ Hpoll Hnone.
  run_view. rewrite (hgetall_found _ _ _ Hf).
  rewrite (bool_decide_eq_false_2 _ (find_task_nonempty _ _ _ Hf)).
  rewrite (bool_decide_eq_true_2 _ Hown). cbn [negb].
  unfold ApiV1.reconcile.
  rewrite (bool_decide_eq_true_2 _ Hst), Hc, Hne. cbn [negb andb].
  cbv beta iota zeta delta [try_except throw lift mbind mret M_bind M_ret].
  rewrite Happ, Hpoll.
  cbv beta iota zeta delta [Redis.hset Redis.hset_mapping Redis.set Redis.commit json_dumps].
  simpl. rewrite <- app_assoc. simpl.
  eexists _, _. split; [reflexivity|]. split.
  - by rewrite task_field_insert, lookup_union_Some_l with (x := "completed").
  - exact Hnone.
Qed.

(** What readers answer in such a state: the result view gives 500
    UNKNOWN_STATUS and extraction gives 404 RESULTS_NOT_FOUND. *)
Lemma reads_of_completed_without_result rt extract identity b tid page td w :
  find_task w tid = Some td ->
  td !! "user_id" = Some (ApiV1.current_user identity) ->
  completed_without_result (redis w) tid ->
  Models.load_extract b = inr (tid, page) ->
  (ApiV1.get_ocr_result identity tid w).1
    = Ok (mk_response (Failure "Unknown task status" "UNKNOWN_STATUS" None) 500) /\
  (ApiV1.extract_invoice_data rt extract identity (Some b) w).1
    = Ok (mk_response (Failure "OCR results not found" "RESULTS_NOT_FOUND" None) 404).
Proof.
  intros Hf Hown [Hst Hblob] Hload.
  assert (Hst' : td !! "status" = Some "completed").
  { unfold task_field, find_task in *.
    destruct (hashes (redis w) !! ApiV1.task_key tid) as [td'|]; [|done].
    case_bool_decide; [done|]. by simplify_eq. }
  split; run_view; rewrite ?Hload; rewrite (hgetall_found _ _ _ Hf);
    rewrite (bool_decide_eq_false_2 _ (find_task_nonempty _ _ _ Hf));
    rewrite (bool_decide_eq_true_2 _ Hown); cbn [negb].
  - rewrite Hst'. unfold Redis.get. cbn. by rewrite Hblob.
  - rewrite (bool_decide_eq_true_2 _ Hst'). unfold Redis.get. cbn [negb].
    cbn beta iota. by rewrite Hblob.
Qed.

(** simple_api.py orders the two writes the other way round: its worker
    never exposes a completed task without its Result. *)
Lemma simple_worker_result_before_status rt cfg th w :
  forall s, s ∈ observed (SimpleApi.worker rt cfg th w).2 ->
    s ∈ observed w \/ ~ simple_completed_without_result s (th_task_id th).
Proof.
  intros s.
  pose proof (process_ocr_frame rt (th_upload_path th) (OUTPUT_FOLDER cfg)
    (th_language th) (th_use_gpu th) w) as [Hr Ho].
  unfold SimpleApi.worker.
  cbv beta iota zeta delta [try_except mbind mret M_bind M_ret].
  destruct (OcrProcessor.process_ocr _ _ _ _ _ w) as [[texts|e] w1]; simpl in Hr, Ho;
    unfold Redis.tasks_update, Redis.commit; rewrite Hr;
    (destruct (tasks (redis w) !! th_task_id th) as [t|] eqn:Ht;
     [ cbn [redis tasks]; rewrite lookup_insert_eq; cbn [snd observed disk redis];
       rewrite Ho, <- app_assoc; intros Hs;
       apply elem_of_app in Hs as [Hs|Hs]; [by left|right];
       intros (t' & Hl & Hstat & Hres);
       apply elem_of_cons in Hs as [->|Hs];
       [ | apply list_elem_of_singleton in Hs as -> ];
       cbn [tasks] in Hl; rewrite lookup_insert_eq in Hl; by simplify_eq
     | cbn [snd redis tasks]; rewrite ?Hr, ?Ht; cbn [snd observed]; rewrite Ho; by left ]).
Qed.

(* ===================================================================== *)
(** * Recognize and the aggregated Result *)
(* ===================================================================== *)






(* ===================================================================== *)
(** * Uploads the Convert stage has no branch for *)
(* ===================================================================== *)

Lemma convert_unsupported rt input_path output_dir w :
  convert_supports (convert_extension input_path) = false ->
  OcrProcessor.convert_to_png rt input_path output_dir w = (Ok [], w).
Proof.
  unfold convert_supports, convert_extension, OcrProcessor.convert_to_png.
  intros H. apply orb_false_elim in H as [H Hpdf].
  apply orb_false_elim in H as [Hpng Himg].
  by rewrite Hpng, Himg, Hpdf.
Qed.

Lemma process_ocr_unsupported rt file_path output_dir lang use_gpu w :
  convert_supports (convert_extension file_path) = false ->
  OcrProcessor.process_ocr rt file_path output_dir lang use_gpu w = (Ok [], w).
Proof.
  intros H. unfold OcrProcessor.process_ocr. cbv beta iota delta [mbind M_bind].
  by rewrite (convert_unsupported _ _ _ _ H).
Qed.

(** C2, the behaviour of the code. For an upload whose extension Convert
    has no branch for, Convert returns the empty sequence, and the worker
    then records the task as "completed" with a Result of zero pages: the
    empty sequence is not treated as a failure. The worker of
    simple_api.py does the same. *)
Theorem unsupported_upload_completes rt cfg th w :
  convert_supports (convert_extension (th_upload_path th)) = false ->
  OcrProcessor.convert_to_png rt (th_upload_path th) (OUTPUT_FOLDER cfg) w = (Ok [], w) /\
  task_field (redis (ApiV1.process_task rt cfg th w).2) (th_task_id th) "status"
    = Some "completed" /\
  blobs (redis (ApiV1.process_task rt cfg th w).2) !! ApiV1.result_key (th_task_id th)
    = Some (BJson (mk_ocr_result [] EmptyString (Some (time_now rt)) (Some 0%nat) None)) /\
  forall t, tasks (redis w) !! th_task_id th = Some t ->
    exists t', tasks (redis (SimpleApi.worker rt cfg th w).2) !! th_task_id th = Some t' /\
      st_status t' = "completed" /\
      st_result t' = Some (mk_ocr_result [] EmptyString None (Some 0%nat) None).
Proof.
  intros H. split; [by apply convert_unsupported|].
  pose proof (process_ocr_unsupported rt (th_upload_path th) (OUTPUT_FOLDER cfg)
    (th_language th) (th_use_gpu th) w H) as Hrun.
  rewrite (process_task_success _ _ _ _ _ _ Hrun). cbn [snd redis blobs hashes].
  split; [|split].
  - by rewrite task_field_insert, lookup_union_Some_l with (x := "completed").
  - by rewrite lookup_insert_eq.
  - intros t Ht. unfold SimpleApi.worker.
    cbv beta iota zeta delta [try_except mbind mret M_bind M_ret].
    rewrite Hrun. unfold Redis.tasks_update, Redis.commit. rewrite Ht.
    cbn [redis tasks]. rewrite lookup_insert_eq. cbn [snd redis tasks].
    rewrite lookup_insert_eq. eexists. split; [reflexivity|]. done.
Qed.

(* ===================================================================== *)
(** * Deletion *)
(* ===================================================================== *)

Lemma remove_if_exists_run p w :
  ApiV1.remove_if_exists p w =
    (Ok tt, {| redis := redis w; disk := disk w ∖ {[ p ]}; observed := observed w |}).
Proof.
  unfold ApiV1.remove_if_exists, Os.exists_, Os.remove.
  cbv beta iota delta [mbind M_bind mret M_ret].
  case_bool_decide as Hp; [done|].
  destruct w as [r d o]; simpl in *. do 2 f_equal.
  symmetry. apply difference_disjoint_L. by apply disjoint_singleton_r.
Qed.

Lemma not_in_below_difference (d X : gset string) (p : string) :
  d ⊆ X ∖ {[ p ]} -> p ∉ d.
Proof.
  intros Hsub Hd. apply Hsub in Hd. apply elem_of_difference in Hd as [_ Hd].
  apply Hd. by apply elem_of_singleton.
Qed.

Lemma remove_outputs_run cfg base_name exts w :
  exists d,
    ApiV1.remove_outputs cfg base_name exts w =
      (Ok tt, {| redis := redis w; disk := d; observed := observed w |}) /\
    d ⊆ disk w /\
    forall ext, ext ∈ exts ->
      Py.path.join (OUTPUT_FOLDER cfg) (base_name +:+ ext) ∉ d.
Proof.
  revert w. induction exts as [|ext exts IH]; intros w; simpl.
  - exists (disk w). destruct w; simpl. split; [done|]. split; [done|].
    intros ext Hext. by apply elem_of_nil in Hext.
  - cbv beta iota delta [mbind M_bind]. rewrite remove_if_exists_run.
    destruct (IH {| redis := redis w;
                    disk := disk w ∖ {[Py.path.join (OUTPUT_FOLDER cfg) (base_name +:+ ext)]};
                    observed := observed w |}) as (d & Hrun & Hsub & Hgone).
    exists d. simpl in *. split; [exact Hrun|]. split.
    { etrans; [exact Hsub|]. by apply subseteq_difference_l. }
    intros ext' Hext'. apply elem_of_cons in Hext' as [->|Hin].
    { by eapply not_in_below_difference. }
    by apply Hgone.
Qed.

(** C8. For an existing task owned by the requester, Delete answers 200
    and afterwards: the metadata record and the Result blob are gone;
    when a filename is stored, neither the uploaded file nor any of the
    [.txt], [.json], [.png] siblings rebuilt from the stored filename's
    basename is on disk; and every later request for that task id, by
    anyone, is answered NotFound. *)
Theorem delete_removes_task cfg identity tid td w :
  find_task w tid = Some td ->
  td !! "user_id" = Some (ApiV1.current_user identity) ->
  exists w',
    ApiV1.delete_task cfg identity tid w =
      (Ok (mk_response (Success DNull "Task deleted successfully") 200), w') /\
    hashes (redis w') !! ApiV1.task_key tid = None /\
    blobs (redis w') !! ApiV1.result_key tid = None /\
    (forall filename,
       td !! "filename" = Some filename -> filename ≠ EmptyString ->
       (Py.path.join (UPLOAD_FOLDER cfg) filename ∉ disk w') /\
       (forall ext, ext ∈ [".txt"; ".json"; ".png"] ->
          Py.path.join (OUTPUT_FOLDER cfg) (fst (Py.path.splitext filename) +:+ ext)
            ∉ disk w')) /\
    forall rt extract identity' q,
      well_formed q = true -> requested_task q = Some tid ->
      (serve rt cfg extract identity' q w').1 = Ok NotFound.
Proof.
  intros Hf Hown.
  assert (Hgone : forall w',
    hashes (redis w') !! ApiV1.task_key tid = None ->
    blobs (redis w') !! ApiV1.task_key tid = None ->
    forall rt extract identity' q,
      well_formed q = true -> requested_task q = Some tid ->
      (serve rt cfg extract identity' q w').1 = Ok NotFound).
  { intros w' Hh Hb rt extract identity' q Hwf Hreq.
    rewrite (serve_unknown rt cfg extract identity' q w' tid Hwf Hreq); [done| |].
    - unfold find_task. by rewrite Hh.
    - unfold holds_string. rewrite Hb. rewrite (bool_decide_eq_false_2 (is_Some None)).
      + apply andb_false_r.
      + by intros [? ?]. }
  assert (Hb : forall m : gmap string blob,
            base.delete (ApiV1.result_key tid) (base.delete (ApiV1.task_key tid) m)
              !! ApiV1.task_key tid = None).
  { intros m. apply lookup_delete_None. right. by rewrite lookup_delete_eq. }
  run_view. rewrite (hgetall_found _ _ _ Hf).
  rewrite (bool_decide_eq_false_2 _ (find_task_nonempty _ _ _ Hf)).
  rewrite (bool_decide_eq_true_2 _ Hown). cbn [negb].
  unfold Redis.delete, Redis.commit. cbn beta iota zeta.
  destruct (td !! "filename") as [filename|] eqn:Hname.
  - destruct (Py.falsy filename) eqn:Hfalsy.
    + eexists. split; [reflexivity|]. cbn [redis hashes blobs].
      assert (Hh : base.delete (ApiV1.result_key tid)
                     (base.delete (ApiV1.task_key tid) (hashes (redis w)))
                   !! ApiV1.task_key tid = None).
      { apply lookup_delete_None. right. by rewrite lookup_delete_eq. }
      split; [exact Hh|]. split; [by rewrite lookup_delete_eq|]. split.
      * intros f [= <-] Hne. by destruct filename.
      * apply Hgone; [exact Hh|apply Hb].
    + cbv beta iota delta [mbind M_bind]. rewrite remove_if_exists_run.
      match goal with |- context [ApiV1.remove_outputs cfg ?b ?e ?w0] =>
        destruct (remove_outputs_run cfg b e w0) as (d & Hrun & Hsub & Hout) end.
      rewrite Hrun. eexists. split; [reflexivity|]. cbn [redis hashes blobs disk] in *.
      assert (Hh : base.delete (ApiV1.result_key tid)
                     (base.delete (ApiV1.task_key tid) (hashes (redis w)))
                   !! ApiV1.task_key tid = None).
      { apply lookup_delete_None. right. by rewrite lookup_delete_eq. }
      split; [exact Hh|]. split; [by rewrite lookup_delete_eq|]. split.
      * intros f [= <-] _. split; [by eapply not_in_below_difference|]. exact Hout.
      * apply Hgone; [exact Hh|apply Hb].
  - cbn [Py.falsy]. eexists. split; [reflexivity|]. cbn [redis hashes blobs].
    assert (Hh : base.delete (ApiV1.result_key tid)
                   (base.delete (ApiV1.task_key tid) (hashes (redis w)))
                 !! ApiV1.task_key tid = None).
    { apply lookup_delete_None. right. by rewrite lookup_delete_eq. }
    split; [exact Hh|]. split; [by rewrite lookup_delete_eq|]. split.
    + intros f [=].
    + apply Hgone; [exact Hh|apply Hb].
Qed.

(* ===================================================================== *)
(** * Salvaging a malformed backend response *)
(* ===================================================================== *)

#[local] Arguments String.append !_ _ / : simpl nomatch.

Lemma len_cons a s : Py.len (String a s) = 1 + Py.len s.
Proof. unfold Py.len. simpl. lia. Qed.

Lemma len_nonneg s : 0 <= Py.len s.
Proof. unfold Py.len. lia. Qed.

Lemma find_from_spec c s i :
  (Py.find_from c s i = -1 /\ contains c s = false) \/
  (exists pre rest, s = pre +:+ String c rest /\ contains c pre = false /\
     Py.find_from c s i = i + Py.len pre).
Proof.
  revert i. induction s as [|a r IH]; intros i; simpl.
  - by left.
  - destruct (Ascii.eqb_spec a c) as [->|Hne].
    + right. exists EmptyString, r. simpl. split; [done|]. split; [done|].
      unfold Py.len. simpl. lia.
    + destruct (IH (i + 1)) as [[Hf Hc]|(pre & rest & -> & Hc & Hf)].
      * left. by rewrite Hf, Hc.
      * right. exists (String a pre), rest. simpl.
        destruct (Ascii.eqb_spec a c); [done|].
        split; [done|]. split; [done|]. rewrite Hf, len_cons. lia.
Qed.

Lemma rfind_from_spec c s i last :
  (Py.rfind_from c s i last = last /\ contains c s = false) \/
  (exists pre post, s = pre +:+ String c post /\ contains c post = false /\
     Py.rfind_from c s i last = i + Py.len pre).
Proof.
  revert i last. induction s as [|a r IH]; intros i last; simpl.
  - by left.
  - destruct (IH (i + 1) (if Ascii.eqb a c then i else last))
      as [[Hf Hc]|(pre & post & -> & Hc & Hf)].
    + destruct (Ascii.eqb_spec a c) as [->|Hne].
      * right. exists EmptyString, r. simpl. split; [done|]. split; [done|].
        rewrite Hf. unfold Py.len. simpl. lia.
      * left. by rewrite Hf, Hc.
    + right. exists (String a pre), post. simpl. split; [done|]. split; [done|].
      rewrite Hf, len_cons. lia.
Qed.

Lemma app_split_at p1 s1 p2 s2 :
  p1 +:+ s1 = p2 +:+ s2 -> Py.len p1 <= Py.len p2 ->
  exists m, p2 = p1 +:+ m /\ s1 = m +:+ s2.
Proof.
  revert p2. induction p1 as [|a p1 IH]; intros p2 Heq Hlen; simpl in *.
  - by exists p2.
  - destruct p2 as [|b p2]; simpl in *.
    + rewrite len_cons in Hlen. pose proof (len_nonneg p1). unfold Py.len in Hlen at 2.
      simpl in Hlen. lia.
    + injection Heq as -> Heq. rewrite !len_cons in Hlen.
      destruct (IH p2 Heq) as (m & -> & ->); [lia|]. by exists m.
Qed.

Lemma len_app s t : Py.len (s +:+ t) = Py.len s + Py.len t.
Proof.
  induction s as [|a s IH]; simpl.
  - unfold Py.len. simpl. lia.
  - rewrite !len_cons, IH. lia.
Qed.

Lemma substring_prefix mid post :
  substring 0 (String.length mid) (mid +:+ post) = mid.
Proof.
  induction mid as [|a mid IH]; simpl.
  - by destruct post.
  - by rewrite IH.
Qed.

Lemma substring_middle pre mid post :
  substring (String.length pre) (String.length mid) (pre +:+ mid +:+ post) = mid.
Proof.
  induction pre as [|a pre IH]; simpl.
  - apply substring_prefix.
  - exact IH.
Qed.

(** What the salvage branch cuts out of the content. *)
Lemma salvage_slice_spec text sub :
  InvoiceExtractor.salvage_slice text = Some sub ->
  spans_first_open_to_last_close text sub.
Proof.
  unfold InvoiceExtractor.salvage_slice, Py.find, Py.rfind.
  destruct (find_from_spec "{"%char text 0) as [[Hf _]|(pre & rest & Htext & Hpre & Hf)].
  { rewrite Hf. simpl. discriminate. }
  destruct (rfind_from_spec "}"%char text 0 (-1))
    as [[Hr _]|(pre' & post & Htext' & Hpost & Hr)].
  { rewrite Hr. rewrite andb_false_r. simpl. discriminate. }
  rewrite Hf, Hr, !Z.add_0_l.
  pose proof (len_nonneg pre). pose proof (len_nonneg pre').
  destruct (Z.eqb_spec (Py.len pre) (-1)); [lia|].
  destruct (Z.eqb_spec (Py.len pre') (-1)); [lia|]. simpl.
  destruct (Z.ltb_spec (Py.len pre) (Py.len pre')) as [Hlt|]; [|discriminate].
  intros [= <-].
  destruct (app_split_at pre (String "{"%char rest) pre' (String "}"%char post))
    as (m & -> & Hm); [congruence|lia|].
  rewrite len_app in Hlt.
  destruct m as [|a mid]; [unfold Py.len in Hlt; simpl in Hlt; lia|].
  simpl in Hm. injection Hm as <- ->.
  exists pre, mid, post.
  assert (Hsub : Py.slice text (Py.len pre) (Py.len (pre +:+ String "{"%char mid) + 1)
                 = String "{"%char (mid +:+ "}")).
  { unfold Py.slice. rewrite Htext.
    replace (Z.to_nat (Py.len pre)) with (String.length pre) by (unfold Py.len; lia).
    replace (Z.to_nat (Py.len (pre +:+ String "{"%char mid) + 1 - Py.len pre))
      with (String.length (String "{"%char (mid +:+ "}"))).
    - replace (String "{"%char (mid +:+ String "}"%char post))
        with (String "{"%char (mid +:+ "}") +:+ post).
      + apply substring_middle.
      + simpl. f_equal. clear. induction mid as [|a mid IH]; simpl; [done|].
        by rewrite IH.
    - rewrite len_app, len_cons. simpl.
      assert (String.length (mid +:+ "}") = S (String.length mid)) as ->.
      { clear. induction mid as [|a mid IH]; simpl; [done|]. by rewrite IH. }
      unfold Py.len. lia. }
  rewrite Hsub. split; [|done].
  rewrite Htext. simpl. f_equal. f_equal.
  clear. induction mid as [|a mid IH]; simpl; [done|]. by rewrite IH.
Qed.

Lemma fields_of_object b members :
  InvoiceExtractor.fields_of b (JObj members) = Ok (fields_of_members b members).
Proof.
  unfold InvoiceExtractor.fields_of, InvoiceExtractor.field, InvoiceExtractor.get,
    fields_of_members, member_text, mbind, mret, res_bind, res_ret.
  by repeat (destruct (InvoiceExtractor.members_get members _)).
Qed.

Lemma fields_of_empty_object b :
  InvoiceExtractor.fields_of b (JObj []) = Ok empty_fields.
Proof. reflexivity. Qed.

Lemma find_from_first c pre rest i :
  contains c pre = false -> Py.find_from c (pre +:+ String c rest) i = i + Py.len pre.
Proof.
  revert i. induction pre as [|a pre IH]; intros i Hpre; simpl.
  - rewrite Ascii.eqb_refl. unfold Py.len. simpl. lia.
  - simpl in Hpre. apply orb_false_iff in Hpre as [Ha Hpre].
    rewrite Ha, (IH _ Hpre), len_cons. lia.
Qed.

Lemma rfind_from_absent c s i last :
  contains c s = false -> Py.rfind_from c s i last = last.
Proof.
  revert i last. induction s as [|a s IH]; intros i last Hs; simpl; [done|].
  simpl in Hs. apply orb_false_iff in Hs as [Ha Hs]. by rewrite Ha, (IH _ _ Hs).
Qed.

Lemma rfind_from_last c s post i last :
  contains c post = false ->
  Py.rfind_from c (s +:+ String c post) i last = i + Py.len s.
Proof.
  intros Hpost. revert i last. induction s as [|a s IH]; intros i last; simpl.
  - rewrite Ascii.eqb_refl, (rfind_from_absent _ _ _ _ Hpost). unfold Py.len. simpl. lia.
  - rewrite IH, len_cons. lia.
Qed.

Lemma app_assoc_string s t u : (s +:+ t) +:+ u = s +:+ t +:+ u.
Proof. induction s as [|a s IH]; simpl; [done|]. by rewrite IH. Qed.

(** The converse: every content in which an opening brace comes before
    the last closing brace is cut from its first opening to its last
    closing brace. *)
Lemma spans_salvage_slice text sub :
  spans_first_open_to_last_close text sub ->
  InvoiceExtractor.salvage_slice text = Some sub.
Proof.
  intros (pre & mid & post & -> & -> & Hpre & Hpost).
  set (text := pre +:+ String "{"%char (mid +:+ "}") +:+ post).
  assert (Hfind : Py.find_from "{"%char text 0 = Py.len pre).
  { subst text.
    change (String "{"%char (mid +:+ "}") +:+ post)
      with (String "{"%char ((mid +:+ "}") +:+ post)).
    rewrite (find_from_first _ _ _ _ Hpre). lia. }
  assert (Hrfind : Py.rfind_from "}"%char text 0 (-1) = Py.len pre + (1 + Py.len mid)).
  { replace text with ((pre +:+ String "{"%char mid) +:+ String "}"%char post).
    - rewrite (rfind_from_last _ _ _ _ _ Hpost), len_app, len_cons. lia.
    - subst text. rewrite (app_assoc_string pre).
      change (String "{"%char mid +:+ String "}"%char post)
        with (String "{"%char (mid +:+ String "}"%char post)).
      change (String "{"%char (mid +:+ "}") +:+ post)
        with (String "{"%char ((mid +:+ "}") +:+ post)).
      by rewrite (app_assoc_string mid). }
  assert (Hcut : substring (String.length pre)
                   (String.length (String "{"%char (mid +:+ "}"))) text
                 = String "{"%char (mid +:+ "}")).
  { subst text. apply substring_middle. }
  unfold InvoiceExtractor.salvage_slice, Py.find, Py.rfind.
  rewrite Hfind, Hrfind.
  pose proof (len_nonneg pre). pose proof (len_nonneg mid).
  destruct (Z.eqb_spec (Py.len pre) (-1)); [lia|].
  destruct (Z.eqb_spec (Py.len pre + (1 + Py.len mid)) (-1)); [lia|].
  destruct (Z.ltb_spec (Py.len pre) (Py.len pre + (1 + Py.len mid))); [|lia].
  cbn [negb andb]. f_equal. unfold Py.slice.
  replace (Z.to_nat (Py.len pre)) with (String.length pre) by (unfold Py.len; lia).
  replace (Z.to_nat (Py.len pre + (1 + Py.len mid) + 1 - Py.len pre))
    with (String.length (String "{"%char (mid +:+ "}"))); [exact Hcut|].
  simpl.
  assert (String.length (mid +:+ "}") = S (String.length mid)) as ->.
  { clear. induction mid as [|a mid IH]; simpl; [done|]. by rewrite IH. }
  unfold Py.len. lia.
Qed.

(** C7, as amended. For every backend response whose content is a text
    the decoder rejects, the extractor does not raise. Whenever the
    content has an opening brace before its last closing brace, it decodes
    the substring from the first opening brace to the last closing brace,
    both included, and returns the six fields of the decoded object, or
    six empty strings if that substring does not decode either; when the
    content has no such substring, all six fields are empty strings. *)
Theorem malformed_content_salvage b call api_key endpoint deployment page_text
    api_version text :
  loads_object b ->
  InvoiceExtractor.fetch_content b call
    (InvoiceExtractor.chat_url endpoint deployment api_version) api_key page_text
    = JStr text ->
  loads b text = None ->
  (forall sub, spans_first_open_to_last_close text sub ->
     match loads b sub with
     | Some data =>
         exists members, data = JObj members /\
           InvoiceExtractor.extract_with_azure_openai b call api_key endpoint deployment
             page_text api_version = Ok (fields_of_members b members)
     | None =>
         InvoiceExtractor.extract_with_azure_openai b call api_key endpoint deployment
           page_text api_version = Ok empty_fields
     end) /\
  ((forall sub, ~ spans_first_open_to_last_close text sub) ->
     InvoiceExtractor.extract_with_azure_openai b call api_key endpoint deployment
       page_text api_version = Ok empty_fields).
Proof.
  intros Hobj Hfetch Hbad.
  unfold InvoiceExtractor.extract_with_azure_openai. cbn zeta. rewrite Hfetch.
  unfold InvoiceExtractor.fields_of_content, InvoiceExtractor.decode_content,
    mbind, res_bind.
  rewrite Hbad. split.
  - intros sub Hspan. rewrite (spans_salvage_slice _ _ Hspan).
    destruct (loads b sub) as [data|] eqn:Hsub; [|apply fields_of_empty_object].
    destruct Hspan as (pre & mid & post & Htext & Hshape & Hpre & Hpost).
    destruct (Hobj (mid +:+ "}") data) as [members ->]; [by rewrite <- Hshape|].
    exists members. split; [done|apply fields_of_object].
  - intros Hnone.
    destruct (InvoiceExtractor.salvage_slice text) as [sub|] eqn:Hs;
      [|apply fields_of_empty_object].
    exfalso. exact (Hnone sub (salvage_slice_spec _ _ Hs)).
Qed.

Lemma parse_members_object fuel :
  forall s acc v r,
    Json.parse_members fuel s acc = Some (v, r) -> exists members, v = JObj members.
Proof.
  induction fuel as [|f IH]; intros s acc v r; simpl; [done|].
  repeat case_match; try done; intros; simplify_eq; eauto.
Qed.

(** The reference decoder is an instance of the assumption on [loads]. *)
Lemma decode_object s v :
  Json.decode (String "{"%char s) = Some v -> exists members, v = JObj members.
Proof.
  unfold Json.decode.
  destruct (Json.parse_value _ _) as [[v' rest]|] eqn:Hp; [|done].
  intros Hv. assert (v' = v) as ->.
  { destruct (Json.skip_ws rest); congruence. }
  clear Hv. revert Hp. generalize (2 * String.length (String "{"%char s) + 2)%nat.
  intros [|fuel]; simpl; [done|].
  destruct (Json.skip_ws s) as [|c r']; [done|].
  destruct (Ascii.eqb c "}"%char).
  - intros [= <- _]. eauto.
  - apply parse_members_object.
Qed.

Lemma backend_answering_loads_object content :
  loads_object (Scenario.backend_answering content).
Proof. intros s v. apply decode_object. Qed.

(** Prose around one object: the span from the first opening to the last
    closing brace is that object. *)
Lemma wrapped_object_span :
  spans_first_open_to_last_close Scenario.wrapped_object
    (Json.dq "{'invoice_number': 'INV-7', 'total_amount': 10.5}").
Proof.
  exists "Here you go: ", (Json.dq "'invoice_number': 'INV-7', 'total_amount': 10.5"),
    " Anything else?".
  repeat split; reflexivity.
Qed.

Lemma malformed_content_salvage_witness :
  exists members,
    Json.decode (Json.dq "{'invoice_number': 'INV-7', 'total_amount': 10.5}")
      = Some (JObj members) /\
    InvoiceExtractor.extract_with_azure_openai
      (Scenario.backend_answering (JStr Scenario.wrapped_object)) 0
      "secret" "https://example.openai.azure.com/" "gpt-4o" "page" "2024-08-01-preview"
      = Ok (fields_of_members
              (Scenario.backend_answering (JStr Scenario.wrapped_object)) members).
Proof.
  pose proof (proj1 (malformed_content_salvage
           (Scenario.backend_answering (JStr Scenario.wrapped_object)) 0%nat
           "secret" "https://example.openai.azure.com/" "gpt-4o" "page"
           "2024-08-01-preview" Scenario.wrapped_object
           (backend_answering_loads_object _) eq_refl eq_refl)
           _ wrapped_object_span) as H.
  change (loads (Scenario.backend_answering (JStr Scenario.wrapped_object)))
    with Json.decode in H.
  destruct (Json.decode (Json.dq "{'invoice_number': 'INV-7', 'total_amount': 10.5}"))
    as [data|] eqn:Hd; [|discriminate Hd].
  destruct H as (members & -> & H). exists members. split; [reflexivity|exact H].
Defined.

(** C7 as stated fails. The content below is not a JSON document; its
    first balanced [{...}] substring decodes to an object with invoice
    number INV-7, but the extractor decodes the span from the first
    opening to the last closing brace (here the whole content), fails, and
    returns empty fields. *)
Lemma salvage_is_not_first_balanced :
  loads Scenario.two_objects_backend Scenario.two_objects = None /\
  first_balanced_braces Scenario.two_objects
    = Some (Json.dq "{'invoice_number': 'INV-7'}") /\
  InvoiceExtractor.salvage_slice Scenario.two_objects = Some Scenario.two_objects /\
  fields_of_content_as_specified Scenario.two_objects_backend (JStr Scenario.two_objects)
    = Ok (mk_fields "INV-7" EmptyString EmptyString EmptyString EmptyString EmptyString) /\
  InvoiceExtractor.extract_with_azure_openai Scenario.two_objects_backend 0
    "secret" "https://example.openai.azure.com/" "gpt-4o" "page" "2024-08-01-preview"
    = Ok empty_fields.
Proof. vm_compute. repeat split. Qed.

(** A response whose message content is [null] makes the extractor
    raise: [content.find] is outside every [try]. *)
Lemma null_content_raises :
  InvoiceExtractor.extract_structured_from_text (Scenario.backend_answering JNull) 0 "page"
  = Raise "object has no attribute 'find'".
Proof. reflexivity. Qed.

(* ===================================================================== *)
(** * The properties on concrete runs *)
(* ===================================================================== *)


(** What a client sees between the two writes of the worker: the status
    view reports "completed", the result view answers 500. *)
Example reads_between_the_two_writes :
  let between :=
    {| redis := {| hashes := {[ "task:t1" := Scenario.done_task ]};
                   blobs := ∅; tasks := ∅ |};
       disk := ∅; observed := [] |} in
  (ApiV1.get_ocr_status Scenario.rt Scenario.alice "t1" between).1
    = Ok (mk_response
            (Success (DStatus "t1" "completed" None None None) "Operation successful") 200) /\
  (ApiV1.get_ocr_result Scenario.alice "t1" between).1
    = Ok (mk_response (Failure "Unknown task status" "UNKNOWN_STATUS" None) 500).
Proof. split; reflexivity. Qed.

Lemma unsupported_upload_completes_witness :
  OcrProcessor.convert_to_png Scenario.rt (th_upload_path Scenario.hidden_pdf_thread)
    (OUTPUT_FOLDER Scenario.cfg) Scenario.hidden_pdf_submitted = (Ok [], Scenario.hidden_pdf_submitted) /\
  task_field (redis (ApiV1.process_task Scenario.rt Scenario.cfg Scenario.hidden_pdf_thread
                       Scenario.hidden_pdf_submitted).2)
    (th_task_id Scenario.hidden_pdf_thread) "status" = Some "completed" /\
  blobs (redis (ApiV1.process_task Scenario.rt Scenario.cfg Scenario.hidden_pdf_thread
                  Scenario.hidden_pdf_submitted).2)
    !! ApiV1.result_key (th_task_id Scenario.hidden_pdf_thread)
    = Some (BJson (mk_ocr_result [] EmptyString (Some (time_now Scenario.rt))
                     (Some 0%nat) None)) /\
  forall t, tasks (redis Scenario.hidden_pdf_submitted) !! th_task_id Scenario.hidden_pdf_thread
            = Some t ->
    exists t', tasks (redis (SimpleApi.worker Scenario.rt Scenario.cfg
                               Scenario.hidden_pdf_thread Scenario.hidden_pdf_submitted).2)
                 !! th_task_id Scenario.hidden_pdf_thread = Some t' /\
      st_status t' = "completed" /\
      st_result t' = Some (mk_ocr_result [] EmptyString None (Some 0%nat) None).
Proof.
  apply (unsupported_upload_completes Scenario.rt Scenario.cfg Scenario.hidden_pdf_thread
           Scenario.hidden_pdf_submitted).
  reflexivity.
Defined.

(** C2 end to end: an upload named [.pdf] passes validation, is stored
    without extension, and the thread the endpoint starts marks the task
    completed with zero pages. *)
Example hidden_pdf_upload_completes :
  Models.validate_file_extension ".pdf" (ALLOWED_EXTENSIONS Scenario.cfg) = true /\
  (ApiV1.process_ocr_endpoint Scenario.rt Scenario.cfg Scenario.alice
     Scenario.hidden_pdf_request Scenario.empty_world).1
    = Ok (mk_response
            (Success (DSubmitted "0123456789abcdef0123456789abcdef" "processing"
                        "OCR processing started") "OCR processing started") 202,
          Some Scenario.hidden_pdf_thread) /\
  convert_extension (th_upload_path Scenario.hidden_pdf_thread) = EmptyString /\
  let submitted :=
    (ApiV1.process_ocr_endpoint Scenario.rt Scenario.cfg Scenario.alice
       Scenario.hidden_pdf_request Scenario.empty_world).2 in
  let finished :=
    (ApiV1.process_task Scenario.rt Scenario.cfg Scenario.hidden_pdf_thread submitted).2 in
  task_field (redis submitted) "0123456789abcdef0123456789abcdef" "status"
    = Some "processing" /\
  task_field (redis finished) "0123456789abcdef0123456789abcdef" "status"
    = Some "completed" /\
  task_field (redis finished) "0123456789abcdef0123456789abcdef" "error" = None.
Proof. repeat split; reflexivity. Qed.


Lemma extract_all_pages_witness :
  exists entries,
    (ApiV1.extract_invoice_data Scenario.rt Scenario.flaky_extract Scenario.alice
       (Some Scenario.all_pages_body) Scenario.done_world).1 =
      Ok (mk_response
            (Success (DInvoice "t1" entries
                        (length (detected_texts Scenario.done_result))
                        (time_now Scenario.rt))
               "Invoice data extracted successfully") 200) /\
    length entries = length (detected_texts Scenario.done_result) /\
    forall i page_text,
      detected_texts Scenario.done_result !! i = Some page_text ->
      exists e,
        entries !! i = Some e /\
        entry_page_number e = S i /\
        match Scenario.flaky_extract i page_text with
        | Ok f => e = mk_entry f (S i) None
        | Raise err => e = mk_entry empty_fields (S i) (Some err)
        end.
Proof.
  apply (extract_all_pages Scenario.rt Scenario.flaky_extract Scenario.alice
           Scenario.all_pages_body "t1" Scenario.done_task Scenario.done_result
           Scenario.done_world); reflexivity.
Defined.

(** The all-pages response of the example, in full: page 1 extracted,
    page 2 replaced by the error-marked empty entry. *)
Example all_pages_with_one_failure :
  (ApiV1.extract_invoice_data Scenario.rt Scenario.flaky_extract Scenario.alice
     (Some Scenario.all_pages_body) Scenario.done_world).1 =
    Ok (mk_response
          (Success (DInvoice "t1"
                      [mk_entry Scenario.page_one_fields 1 None;
                       mk_entry empty_fields 2 (Some "backend unavailable")]
                      2 1700000000)
             "Invoice data extracted successfully") 200).
Proof. reflexivity. Qed.

Lemma extract_single_page_failure_witness :
  (ApiV1.extract_invoice_data Scenario.rt Scenario.no_extract Scenario.alice
     (Some Scenario.second_page_body) Scenario.done_world).1 =
    Ok (mk_response
          (Failure ("Extraction failed: " +:+ "Azure OpenAI credentials are not configured")
             "EXTRACTION_FAILED" None) 500).
Proof.
  apply (extract_single_page_failure Scenario.rt Scenario.no_extract Scenario.alice
           Scenario.second_page_body "t1" 2 Scenario.done_task Scenario.done_result
           Scenario.done_world EmptyString
           "Azure OpenAI credentials are not configured");
    try reflexivity.
  simpl. lia.
Defined.

Lemma delete_removes_task_witness :
  exists w',
    ApiV1.delete_task Scenario.cfg Scenario.alice "t1" Scenario.done_world =
      (Ok (mk_response (Success DNull "Task deleted successfully") 200), w') /\
    hashes (redis w') !! ApiV1.task_key "t1" = None /\
    blobs (redis w') !! ApiV1.result_key "t1" = None /\
    (forall filename,
       Scenario.done_task !! "filename" = Some filename -> filename ≠ EmptyString ->
       (Py.path.join (UPLOAD_FOLDER Scenario.cfg) filename ∉ disk w') /\
       (forall ext, ext ∈ [".txt"; ".json"; ".png"] ->
          Py.path.join (OUTPUT_FOLDER Scenario.cfg)
            (fst (Py.path.splitext filename) +:+ ext) ∉ disk w')) /\
    forall rt extract identity' q,
      well_formed q = true -> requested_task q = Some "t1" ->
      (serve rt Scenario.cfg extract identity' q w').1 = Ok NotFound.
Proof.
  apply (delete_removes_task Scenario.cfg Scenario.alice "t1" Scenario.done_task
           Scenario.done_world); reflexivity.
Defined.

(** Deleting the example task removes the upload and the text export;
    the page images rendered from the PDF are named [a_page_N.png], not
    [a.png], and stay on disk. *)
Example delete_keeps_pdf_page_images :
  elements (disk (ApiV1.delete_task Scenario.cfg Scenario.alice "t1"
                    Scenario.done_world).2)
  = ["outputs/a_page_1.png"; "outputs/a_page_2.png"].
Proof. vm_compute. reflexivity. Qed.

Lemma submission_always_accepted_witness :
  exists started w',
    ApiV1.process_ocr_endpoint Scenario.rt_import_error Scenario.cfg Scenario.alice
      Scenario.invoice_request Scenario.empty_world =
      (Ok (mk_response
             (Success (DSubmitted (uuid_task Scenario.rt_import_error) "processing"
                         "OCR processing started")
                "OCR processing started") 202, started), w') /\
    forall e, dispatch_error Scenario.rt_import_error = Some e ->
      started = None /\
      task_field (redis w') (uuid_task Scenario.rt_import_error) "status" = Some "failed" /\
      task_field (redis w') (uuid_task Scenario.rt_import_error) "error"
        = Some ("Failed to start processing: " +:+ e).
Proof.
  apply (submission_always_accepted Scenario.rt_import_error Scenario.cfg Scenario.alice
           Scenario.invoice_request Scenario.empty_world (mk_upload "invoice.pdf" 1000)).
  reflexivity.
Defined.

(** The response and the stored status of the example disagree. *)
Example accepted_yet_failed :
  (ApiV1.process_ocr_endpoint Scenario.rt_import_error Scenario.cfg Scenario.alice
     Scenario.invoice_request Scenario.empty_world).1
    = Ok (mk_response
            (Success (DSubmitted "0123456789abcdef0123456789abcdef" "processing"
                        "OCR processing started") "OCR processing started") 202, None) /\
  task_field
    (redis (ApiV1.process_ocr_endpoint Scenario.rt_import_error Scenario.cfg Scenario.alice
              Scenario.invoice_request Scenario.empty_world).2)
    "0123456789abcdef0123456789abcdef" "status" = Some "failed".
Proof. split; reflexivity. Qed.

(** Sanity checks of the path helpers against the Python behaviour. *)
Example splitext_plain :
  Py.path.splitext "uploads/inv_17_ab.pdf" = ("uploads/inv_17_ab", ".pdf").
Proof. reflexivity. Qed.

Example splitext_hidden : Py.path.splitext ".pdf" = (".pdf", EmptyString).
Proof. reflexivity. Qed.

Example splitext_dotted_directory : Py.path.splitext "a.b/c" = ("a.b/c", EmptyString).
Proof. reflexivity. Qed.

Example basename_of_upload : Py.path.basename "uploads/x.PNG" = "x.PNG".
Proof. reflexivity. Qed.

Example secure_filename_hidden : Werkzeug.secure_filename ".pdf" = "pdf".
Proof. reflexivity. Qed.

Example pdf_pages_are_recognized_in_order :
  (OcrProcessor.process_ocr Scenario.rt "uploads/a.pdf" "outputs" "en" false
     Scenario.processing_world).1 = Ok [Scenario.page_one; EmptyString].
Proof. reflexivity. Qed.

(* ===================================================================== *)
(** * The worker's terminal write *)
(* ===================================================================== *)

Lemma hset_mapping_other_field key m w task_id field :
  key = ApiV1.task_key task_id ->
  m !! field = None ->
  task_field (redis (Redis.hset_mapping key m w).2) task_id field
    = task_field (redis w) task_id field.
Proof.
  intros -> Hm. unfold task_field, Redis.hset_mapping. simpl.
  rewrite lookup_insert_eq. rewrite lookup_union_r by done.
  by destruct (hashes (redis w) !! ApiV1.task_key task_id).
Qed.

Lemma hset_mapping_other_key key m w k :
  k ≠ key ->
  hashes (redis (Redis.hset_mapping key m w).2) !! k = hashes (redis w) !! k.
Proof. intros Hk. unfold Redis.hset_mapping. simpl. by rewrite lookup_insert_ne. Qed.

Lemma failed_mapping_other rt e field :
  field ≠ "status" -> field ≠ "error" -> field ≠ "failed_at" ->
  ApiV1.failed_mapping rt e !! field = None.
Proof.
  intros H1 H2 H3. unfold ApiV1.failed_mapping.
  rewrite !lookup_insert_ne by done. apply lookup_singleton_ne. done.
Qed.

(** The run of [process_task] after a pipeline failure. *)
Lemma process_task_failure rt cfg th w e w1 :
  OcrProcessor.process_ocr rt (th_upload_path th) (OUTPUT_FOLDER cfg)
    (th_language th) (th_use_gpu th) w = (Raise e, w1) ->
  ApiV1.process_task rt cfg th w =
    (Ok tt, (Redis.hset_mapping (ApiV1.task_key (th_task_id th))
               (ApiV1.failed_mapping rt e) w1).2) /\
  redis w1 = redis w /\ observed w1 = observed w.
Proof.
  intros Hrun.
  pose proof (process_ocr_frame rt (th_upload_path th) (OUTPUT_FOLDER cfg)
    (th_language th) (th_use_gpu th) w) as [Hr Ho].
  rewrite Hrun in Hr, Ho. simpl in Hr, Ho.
  unfold ApiV1.process_task.
  cbv beta iota zeta delta [try_except mbind mret M_bind M_ret]. by rewrite Hrun.
Qed.

Lemma failed_write_spec rt e tid w1 w :
  redis w1 = redis w -> observed w1 = observed w ->
  let w' := (Redis.hset_mapping (ApiV1.task_key tid) (ApiV1.failed_mapping rt e) w1).2 in
  task_field (redis w') tid "status" = Some "failed" /\
  task_field (redis w') tid "error" = Some e /\
  task_field (redis w') tid "failed_at" = Some (utcnow_iso rt) /\
  blobs (redis w') = blobs (redis w) /\
  observed w' = (observed w ++ [redis w'])%list /\
  (forall field, field ≠ "status" -> field ≠ "error" -> field ≠ "failed_at" ->
     task_field (redis w') tid field = task_field (redis w) tid field) /\
  (forall k, k ≠ ApiV1.task_key tid ->
     hashes (redis w') !! k = hashes (redis w) !! k).
Proof.
  intros Hr Ho w'. subst w'.
  split; [apply hset_mapping_field; auto using failed_mapping_status|].
  split; [apply hset_mapping_field; auto using failed_mapping_error|].
  split.
  { apply hset_mapping_field; [done|]. unfold ApiV1.failed_mapping.
    rewrite !lookup_insert_ne by done. by rewrite lookup_singleton_eq. }
  split; [simpl; by rewrite Hr|].
  split; [simpl; by rewrite Ho|].
  split.
  - intros field H1 H2 H3.
    rewrite hset_mapping_other_field; [by rewrite Hr|done|by apply failed_mapping_other].
  - intros k Hk. rewrite hset_mapping_other_key by done. by rewrite Hr.
Qed.

(** X1. When a stage of the pipeline raises with message [e], the worker
    does not raise itself: with one write it stores status "failed", the
    message as [error] and the time as [failed_at]; it stores no Result,
    and every other field of the record (owner, filename, language, ...)
    and every other record stays as it was. *)
Theorem worker_failure_is_recorded rt cfg th w e w1 :
  OcrProcessor.process_ocr rt (th_upload_path th) (OUTPUT_FOLDER cfg)
    (th_language th) (th_use_gpu th) w = (Raise e, w1) ->
  exists w',
    ApiV1.process_task rt cfg th w = (Ok tt, w') /\
    task_field (redis w') (th_task_id th) "status" = Some "failed" /\
    task_field (redis w') (th_task_id th) "error" = Some e /\
    task_field (redis w') (th_task_id th) "failed_at" = Some (utcnow_iso rt) /\
    blobs (redis w') = blobs (redis w) /\
    observed w' = (observed w ++ [redis w'])%list /\
    (forall field, field ≠ "status" -> field ≠ "error" -> field ≠ "failed_at" ->
       task_field (redis w') (th_task_id th) field
         = task_field (redis w) (th_task_id th) field) /\
    (forall k, k ≠ ApiV1.task_key (th_task_id th) ->
       hashes (redis w') !! k = hashes (redis w) !! k).
Proof.
  intros Hrun. destruct (process_task_failure _ _ _ _ _ _ Hrun) as (Hp & Hr & Ho).
  eexists. split; [exact Hp|]. by apply failed_write_spec.
Qed.

(** X2. Whatever the pipeline does, the worker returns normally and
    leaves the task in a terminal status, "completed" or "failed"; the
    owner, the filename and every other field it does not write keep
    their values. *)
Theorem worker_always_terminates_task rt cfg th w :
  (ApiV1.process_task rt cfg th w).1 = Ok tt /\
  (task_field (redis (ApiV1.process_task rt cfg th w).2) (th_task_id th) "status"
     = Some "completed" \/
   task_field (redis (ApiV1.process_task rt cfg th w).2) (th_task_id th) "status"
     = Some "failed") /\
  forall field, field ≠ "status" -> field ≠ "error" -> field ≠ "failed_at" ->
    task_field (redis (ApiV1.process_task rt cfg th w).2) (th_task_id th) field
      = task_field (redis w) (th_task_id th) field.
Proof.
  destruct (OcrProcessor.process_ocr rt (th_upload_path th) (OUTPUT_FOLDER cfg)
              (th_language th) (th_use_gpu th) w) as [[results|e] w1] eqn:Hrun.
  - rewrite (process_task_success _ _ _ _ _ _ Hrun). cbn [fst snd redis hashes].
    split; [done|]. split.
    + left. by rewrite task_field_insert, lookup_union_Some_l with (x := "completed").
    + intros field H1 _ _. rewrite task_field_insert.
      rewrite lookup_union_r by (by apply lookup_singleton_ne).
      unfold task_field. by destruct (hashes (redis w) !! _).
  - destruct (process_task_failure _ _ _ _ _ _ Hrun) as (-> & Hr & Ho).
    destruct (failed_write_spec rt e (th_task_id th) w1 w Hr Ho)
      as (Hst & _ & _ & _ & _ & Hother & _).
    split; [done|]. split; [by right|]. exact Hother.
Qed.

(* ===================================================================== *)
(** * Submission: what is refused and what is stored *)
(* ===================================================================== *)

(** X3. A submission that fails one of the guards (language, missing or
    unnamed file, extension, size) is answered 400 or 413 with an error
    body, starts no thread, and leaves the task store and the files
    exactly as they were: nothing is created for it. *)
Theorem rejected_submission_has_no_effect rt cfg identity req w :
  validated_upload cfg req = None ->
  exists message code details status,
    ApiV1.process_ocr_endpoint rt cfg identity req w =
      (Ok (mk_response (Failure message code details) status, None), w) /\
    (status = 400 \/ status = 413).
Proof.
  unfold validated_upload, ApiV1.process_ocr_endpoint. intros Hv.
  cbv beta iota zeta delta [try_except mbind mret M_bind M_ret ApiV1.respond
                            Models.create_error_response].
  destruct (Py.mem _ Models.languages); cbn [negb]; [|eauto 10].
  destruct (files req !! "file") as [f|]; [|eauto 10].
  destruct (Py.falsy (up_filename f)); [eauto 10|].
  destruct (Models.validate_file_extension _ _); cbn [negb]; [|eauto 10].
  destruct (Models.validate_file_size _ _); cbn [negb]; [|eauto 10].
  discriminate.
Qed.

Lemma start_processing_ok rt th w :
  dispatch_error rt = None ->
  exists started w',
    ApiV1.start_processing rt th w = (Ok started, w') /\
    disk w' = disk w /\ blobs (redis w') = blobs (redis w) /\
    (forall field, field ≠ "celery_task_id" ->
       task_field (redis w') (th_task_id th) field
         = task_field (redis w) (th_task_id th) field) /\
    (forall k, k ≠ ApiV1.task_key (th_task_id th) ->
       hashes (redis w') !! k = hashes (redis w) !! k) /\
    (celery rt = NoCelery (Ok tt) -> started = Some th /\ w' = w).
Proof.
  unfold dispatch_error, ApiV1.start_processing. intros He.
  destruct (celery rt) as [e'|[a|e']|[[]|e']]; simplify_eq;
    cbv beta iota delta [try_except throw lift mbind mret M_bind M_ret].
  - eexists _, _. split; [reflexivity|]. unfold Redis.hset.
    split; [done|]. split; [done|]. split; [|split; [|done]].
    + intros field Hf. apply hset_mapping_other_field; [done|].
      by apply lookup_singleton_ne.
    + intros k Hk. by apply hset_mapping_other_key.
  - eexists _, _. split; [reflexivity|]. repeat split; done.
Qed.

(** The record an accepted submission leaves when dispatch did not raise. *)
Lemma accepted_submission_state rt cfg identity req w file :
  validated_upload cfg req = Some file ->
  dispatch_error rt = None ->
  exists r started w',
    ApiV1.process_ocr_endpoint rt cfg identity req w = (Ok (r, started), w') /\
    task_field (redis w') (uuid_task rt) "status" = Some "processing" /\
    task_field (redis w') (uuid_task rt) "user_id" = Some (ApiV1.current_user identity) /\
    task_field (redis w') (uuid_task rt) "filename" = Some (stored_filename rt file) /\
    task_field (redis w') (uuid_task rt) "task_id" = Some (uuid_task rt) /\
    task_field (redis w') (uuid_task rt) "language" = Some (requested_language req) /\
    task_field (redis w') (uuid_task rt) "created_at" = Some (utcnow_iso rt) /\
    blobs (redis w') = blobs (redis w) /\
    disk w' = {[ Py.path.join (UPLOAD_FOLDER cfg) (stored_filename rt file) ]} ∪ disk w /\
    (forall k, k ≠ ApiV1.task_key (uuid_task rt) ->
       hashes (redis w') !! k = hashes (redis w) !! k) /\
    (celery rt = NoCelery (Ok tt) ->
       started = Some (mk_thread (Py.path.join (UPLOAD_FOLDER cfg) (stored_filename rt file))
                         (requested_language req)
                         (ApiV1.truthy_flag (match form req !! "use_gpu" with
                                             | Some f => f | None => "false" end))
                         (uuid_task rt))).
Proof.
  unfold validated_upload, ApiV1.process_ocr_endpoint. intros Hv Hd.
  destruct (Py.mem _ Models.languages) eqn:Hlang; [|discriminate].
  destruct (files req !! "file") as [f|] eqn:Hfile; [|discriminate].
  destruct (Py.falsy (up_filename f)) eqn:Hname; [discriminate|].
  destruct (Models.validate_file_extension _ _) eqn:Hext; [|discriminate].
  destruct (Models.validate_file_size _ _) eqn:Hsize; [|discriminate].
  simpl in Hv. injection Hv as ->.
  cbv beta iota zeta delta [try_except mbind mret M_bind M_ret negb ApiV1.respond
                            Os.write Redis.hset_mapping].
  match goal with
  | |- context [ApiV1.start_processing rt ?th ?w1] =>
      destruct (start_processing_ok rt th w1 Hd)
        as (started & w' & Hrun & Hdisk & Hblobs & Hfields & Hkeys & Hthread);
      rewrite Hrun
  end.
  cbn [th_task_id] in *.
  assert (Hlook : forall field v,
    ({[ "task_id" := uuid_task rt; "status" := "processing";
        "filename" := stored_filename rt file;
        "language" := requested_language req;
        "use_gpu" := ApiV1.dumps_bool
                       (ApiV1.truthy_flag (match form req !! "use_gpu" with
                                           | Some f => f | None => "false" end));
        "return_annotated_images" := ApiV1.dumps_bool
                       (ApiV1.truthy_flag (match form req !! "return_annotated_images" with
                                           | Some f => f | None => "false" end));
        "created_at" := utcnow_iso rt;
        "user_id" := ApiV1.current_user identity ]} : gmap string string) !! field
      = Some v ->
    field ≠ "celery_task_id" ->
    task_field (redis w') (uuid_task rt) field = Some v).
  { intros field v Hm Hne. rewrite (Hfields field Hne).
    unfold task_field. cbn [redis hashes Redis.commit]. rewrite lookup_insert_eq.
    by apply lookup_union_Some_l. }
  eexists _, started, w'. split; [reflexivity|].
  split; [by apply Hlook|]. split; [by apply Hlook|]. split; [by apply Hlook|].
  split; [by apply Hlook|]. split; [by apply Hlook|]. split; [by apply Hlook|].
  split; [by rewrite Hblobs|]. split; [by rewrite Hdisk|]. split.
  - intros k Hk. rewrite (Hkeys k Hk). cbn [redis hashes Redis.commit].
    by rewrite lookup_insert_ne.
  - intros Hc. by destruct (Hthread Hc) as [-> _].
Qed.

(** X4. An accepted submission whose dispatch did not raise leaves a task
    record with status "processing", the submitter as owner, the stored
    filename, the requested language and the creation time; the upload is
    on disk under that filename; no Result is stored and no other record
    changes. Without Celery the thread it starts works on exactly this
    upload and task id. *)
Theorem accepted_submission_registers_task rt cfg identity req w file :
  validated_upload cfg req = Some file ->
  dispatch_error rt = None ->
  exists r started w',
    ApiV1.process_ocr_endpoint rt cfg identity req w = (Ok (r, started), w') /\
    task_field (redis w') (uuid_task rt) "status" = Some "processing" /\
    task_field (redis w') (uuid_task rt) "user_id" = Some (ApiV1.current_user identity) /\
    task_field (redis w') (uuid_task rt) "filename" = Some (stored_filename rt file) /\
    task_field (redis w') (uuid_task rt) "task_id" = Some (uuid_task rt) /\
    task_field (redis w') (uuid_task rt) "language" = Some (requested_language req) /\
    task_field (redis w') (uuid_task rt) "created_at" = Some (utcnow_iso rt) /\
    blobs (redis w') = blobs (redis w) /\
    disk w' = {[ Py.path.join (UPLOAD_FOLDER cfg) (stored_filename rt file) ]} ∪ disk w /\
    (forall k, k ≠ ApiV1.task_key (uuid_task rt) ->
       hashes (redis w') !! k = hashes (redis w) !! k) /\
    (celery rt = NoCelery (Ok tt) ->
       started = Some (mk_thread (Py.path.join (UPLOAD_FOLDER cfg) (stored_filename rt file))
                         (requested_language req)
                         (ApiV1.truthy_flag (match form req !! "use_gpu" with
                                             | Some f => f | None => "false" end))
                         (uuid_task rt))).
Proof. apply accepted_submission_state. Qed.

Lemma task_field_find w tid td field :
  find_task w tid = Some td -> task_field (redis w) tid field = td !! field.
Proof.
  unfold find_task, task_field.
  destruct (hashes (redis w) !! ApiV1.task_key tid) as [td'|]; [|done].
  case_bool_decide; [done|]. by intros [= ->].
Qed.

Lemma task_field_found w tid field v :
  task_field (redis w) tid field = Some v ->
  exists td, find_task w tid = Some td /\ td !! field = Some v.
Proof.
  unfold find_task, task_field.
  destruct (hashes (redis w) !! ApiV1.task_key tid) as [td|]; [|done].
  intros Hv. case_bool_decide as He; [by rewrite He in Hv|]. eauto.
Qed.

(** The result view on a task of the requester that is still processing. *)
Lemma result_fetch_processing identity tid td w :
  find_task w tid = Some td ->
  td !! "user_id" = Some (ApiV1.current_user identity) ->
  td !! "status" = Some "processing" ->
  ApiV1.get_ocr_result identity tid w =
    (Ok (mk_response (Success (DProcessing tid "processing" "Task is still processing")
                        "Operation successful") 202), w).
Proof.
  intros Hf Hown Hst. run_view. rewrite (hgetall_found _ _ _ Hf).
  rewrite (bool_decide_eq_false_2 _ (find_task_nonempty _ _ _ Hf)).
  rewrite (bool_decide_eq_true_2 _ Hown). cbn [negb]. by rewrite Hst.
Qed.

(** The views on a failed task of the requester. *)
Lemma views_of_failed_task rt identity tid td w e :
  find_task w tid = Some td ->
  td !! "user_id" = Some (ApiV1.current_user identity) ->
  td !! "status" = Some "failed" ->
  td !! "error" = Some e ->
  ApiV1.get_ocr_result identity tid w =
    (Ok (mk_response (Failure e "PROCESSING_FAILED" None) 500), w) /\
  ApiV1.get_ocr_status rt identity tid w =
    (Ok (mk_response
           (Success (DStatus tid "failed" (td !! "progress") (td !! "created_at") (Some e))
              "Operation successful") 200), w).
Proof.
  intros Hf Hown Hst Herr. split; run_view; rewrite (hgetall_found _ _ _ Hf);
    rewrite (bool_decide_eq_false_2 _ (find_task_nonempty _ _ _ Hf));
    rewrite (bool_decide_eq_true_2 _ Hown); cbn [negb].
  - by rewrite Hst, Herr.
  - unfold ApiV1.reconcile. rewrite bool_decide_eq_false_2 by (rewrite Hst; discriminate).
    cbn [andb]. cbv beta iota delta [mret M_ret]. by rewrite Hst, Herr.
Qed.

(** What starting background processing leaves of the record: the owner
    stays, and the status stays unless the dispatch raised. *)
Lemma start_processing_fields rt th w :
  task_field (redis (ApiV1.start_processing rt th w).2) (th_task_id th) "user_id"
    = task_field (redis w) (th_task_id th) "user_id" /\
  match dispatch_error rt with
  | None =>
      task_field (redis (ApiV1.start_processing rt th w).2) (th_task_id th) "status"
        = task_field (redis w) (th_task_id th) "status"
  | Some e =>
      task_field (redis (ApiV1.start_processing rt th w).2) (th_task_id th) "status"
        = Some "failed" /\
      task_field (redis (ApiV1.start_processing rt th w).2) (th_task_id th) "error"
        = Some ("Failed to start processing: " +:+ e)
  end.
Proof.
  unfold dispatch_error, ApiV1.start_processing.
  destruct (celery rt) as [e'|[a|e']|[[]|e']];
    cbv beta iota delta [try_except throw lift mbind mret M_bind M_ret Redis.hset];
    cbn [snd].
  all: split;
    first
      [ reflexivity
      | apply hset_mapping_other_field; [done|];
        first [ by apply lookup_singleton_ne | by apply failed_mapping_other ]
      | split; apply hset_mapping_field;
        auto using failed_mapping_status, failed_mapping_error ].
Qed.

(** The owner and the status of the record an accepted submission
    leaves, whatever the dispatch did. *)
Lemma submission_record rt cfg identity req w file :
  validated_upload cfg req = Some file ->
  task_field (redis (ApiV1.process_ocr_endpoint rt cfg identity req w).2) (uuid_task rt)
    "user_id" = Some (ApiV1.current_user identity) /\
  match dispatch_error rt with
  | None =>
      task_field (redis (ApiV1.process_ocr_endpoint rt cfg identity req w).2)
        (uuid_task rt) "status" = Some "processing"
  | Some e =>
      task_field (redis (ApiV1.process_ocr_endpoint rt cfg identity req w).2)
        (uuid_task rt) "status" = Some "failed" /\
      task_field (redis (ApiV1.process_ocr_endpoint rt cfg identity req w).2)
        (uuid_task rt) "error" = Some ("Failed to start processing: " +:+ e)
  end.
Proof.
  unfold validated_upload, ApiV1.process_ocr_endpoint. intros Hv.
  destruct (Py.mem _ Models.languages) eqn:Hlang; [|discriminate].
  destruct (files req !! "file") as [f|] eqn:Hfile; [|discriminate].
  destruct (Py.falsy (up_filename f)) eqn:Hname; [discriminate|].
  destruct (Models.validate_file_extension _ _) eqn:Hext; [|discriminate].
  destruct (Models.validate_file_size _ _) eqn:Hsize; [|discriminate].
  simpl in Hv. injection Hv as ->.
  cbv beta iota zeta delta [try_except mbind mret M_bind M_ret negb ApiV1.respond
                            Os.write Redis.hset_mapping].
  match goal with
  | |- context [ApiV1.start_processing rt ?th ?w1] =>
      pose proof (start_processing_fields rt th w1) as [Hown Hst];
      destruct (start_processing_returns rt th w1) as (started & w' & Hrun);
      rewrite Hrun in *
  end.
  cbn [snd th_task_id] in *.
  assert (Hlook : forall field v,
    ({[ "task_id" := uuid_task rt; "status" := "processing";
        "filename" := stored_filename rt file;
        "language" := requested_language req;
        "use_gpu" := ApiV1.dumps_bool
                       (ApiV1.truthy_flag (match form req !! "use_gpu" with
                                           | Some f => f | None => "false" end));
        "return_annotated_images" := ApiV1.dumps_bool
                       (ApiV1.truthy_flag (match form req !! "return_annotated_images" with
                                           | Some f => f | None => "false" end));
        "created_at" := utcnow_iso rt;
        "user_id" := ApiV1.current_user identity ]} : gmap string string) !! field
      = Some v ->
    forall s, hashes s = <[ApiV1.task_key (uuid_task rt) :=
                 ({[ "task_id" := uuid_task rt; "status" := "processing";
                     "filename" := stored_filename rt file;
                     "language" := requested_language req;
                     "use_gpu" := ApiV1.dumps_bool
                       (ApiV1.truthy_flag (match form req !! "use_gpu" with
                                           | Some f => f | None => "false" end));
                     "return_annotated_images" := ApiV1.dumps_bool
                       (ApiV1.truthy_flag (match form req !! "return_annotated_images" with
                                           | Some f => f | None => "false" end));
                     "created_at" := utcnow_iso rt;
                     "user_id" := ApiV1.current_user identity ]} : gmap string string)
                 ∪ default ∅ (hashes (redis w) !! ApiV1.task_key (uuid_task rt))]>
               (hashes (redis w)) ->
    task_field s (uuid_task rt) field = Some v).
  { intros field v Hm s Hs. unfold task_field. rewrite Hs, lookup_insert_eq.
    by apply lookup_union_Some_l. }
  split.
  - rewrite Hown. by eapply Hlook.
  - destruct (dispatch_error rt) as [e|]; [exact Hst|].
    rewrite Hst. by eapply Hlook.
Qed.

(** X5. Right after an accepted submission, a result fetch by any other
    principal answers AccessDenied, and a result fetch by the submitter
    answers 202 "processing" (no Result yet) when the dispatch did not
    raise, and 500 PROCESSING_FAILED with the dispatch error when it did,
    although the submission itself was answered 202. *)
Theorem fresh_task_is_processing rt cfg identity other req w file :
  validated_upload cfg req = Some file ->
  ApiV1.current_user other ≠ ApiV1.current_user identity ->
  (ApiV1.get_ocr_result identity (uuid_task rt)
     (ApiV1.process_ocr_endpoint rt cfg identity req w).2).1
    = Ok (match dispatch_error rt with
          | None =>
              mk_response (Success (DProcessing (uuid_task rt) "processing"
                                      "Task is still processing")
                             "Operation successful") 202
          | Some e =>
              mk_response (Failure ("Failed to start processing: " +:+ e)
                             "PROCESSING_FAILED" None) 500
          end) /\
  (ApiV1.get_ocr_result other (uuid_task rt)
     (ApiV1.process_ocr_endpoint rt cfg identity req w).2).1 = Ok AccessDenied.
Proof.
  intros Hv Hother.
  destruct (submission_record rt cfg identity req w file Hv) as [Hown Hst].
  set (w' := (ApiV1.process_ocr_endpoint rt cfg identity req w).2) in *.
  destruct (task_field_found _ _ _ _ Hown) as (td & Hf & Hown').
  split.
  - destruct (dispatch_error rt) as [e|].
    + destruct Hst as [Hst Herr].
      rewrite (task_field_find _ _ _ "status" Hf) in Hst.
      rewrite (task_field_find _ _ _ "error" Hf) in Herr.
      by rewrite (proj1 (views_of_failed_task rt identity _ td w' _ Hf Hown' Hst Herr)).
    + rewrite (task_field_find _ _ _ "status" Hf) in Hst.
      by rewrite (result_fetch_processing identity _ td w' Hf Hown' Hst).
  - assert (Hne : td !! "user_id" ≠ Some (ApiV1.current_user other)) by congruence.
    pose proof (serve_foreign rt cfg Scenario.no_extract other
                  (ResultFetch (uuid_task rt)) w' _ td eq_refl eq_refl Hf Hne) as Hs.
    simpl in Hs. by rewrite Hs.
Qed.

(** X6. Extraction on a task of the requester that is not completed is
    answered 400 TASK_NOT_COMPLETED, with or without a page number; the
    backend is not consulted (the answer is the same for every backend)
    and nothing is written. *)
Theorem extract_requires_completed rt extract identity b tid page td w :
  Models.load_extract b = inr (tid, page) ->
  find_task w tid = Some td ->
  td !! "user_id" = Some (ApiV1.current_user identity) ->
  td !! "status" ≠ Some "completed" ->
  ApiV1.extract_invoice_data rt extract identity (Some b) w =
    (Ok (mk_response (Failure "Task not completed yet" "TASK_NOT_COMPLETED" None) 400), w).
Proof.
  intros Hload Hf Hown Hst. run_view. rewrite Hload, (hgetall_found _ _ _ Hf).
  rewrite (bool_decide_eq_false_2 _ (find_task_nonempty _ _ _ Hf)).
  rewrite (bool_decide_eq_true_2 _ Hown), (bool_decide_eq_false_2 _ Hst).
  reflexivity.
Qed.

(* ===================================================================== *)
(** * From the worker's write to the client's read *)
(* ===================================================================== *)

Lemma union_nonempty_r (m td : gmap string string) : td ≠ ∅ -> m ∪ td ≠ ∅.
Proof.
  intros Hne Hu. apply map_choose in Hne as (i & x & Hi).
  assert (is_Some ((m ∪ td) !! i)) as [y Hy].
  { apply lookup_union_is_Some. right. eauto. }
  by rewrite Hu, lookup_empty in Hy.
Qed.

Lemma find_task_default w tid td :
  find_task w tid = Some td -> default ∅ (hashes (redis w) !! ApiV1.task_key tid) = td.
Proof.
  unfold find_task. destruct (hashes (redis w) !! ApiV1.task_key tid) as [td'|]; [|done].
  case_bool_decide; [done|]. by intros [= ->].
Qed.

Lemma find_task_inserted (h : gmap string (gmap string string)) b t d o tid td :
  td ≠ ∅ ->
  find_task {| redis := {| hashes := <[ApiV1.task_key tid := td]> h;
                           blobs := b; tasks := t |};
               disk := d; observed := o |} tid = Some td.
Proof.
  intros Hne. unfold find_task. cbn [redis hashes]. rewrite lookup_insert_eq.
  by rewrite (bool_decide_eq_false_2 _ Hne).
Qed.

(** The views on a failed task of the requester. *)

(** X7. A pipeline failure reaches the client verbatim: when a stage
    raises with message [e] for a task of the requester, then after the
    worker ran the result view answers 500 PROCESSING_FAILED with message
    [e], and the status view answers 200 with status "failed" and error
    message [e]; neither read changes anything. *)
Theorem worker_failure_surfaces rt cfg th identity td w e w1 :
  OcrProcessor.process_ocr rt (th_upload_path th) (OUTPUT_FOLDER cfg)
    (th_language th) (th_use_gpu th) w = (Raise e, w1) ->
  find_task w (th_task_id th) = Some td ->
  td !! "user_id" = Some (ApiV1.current_user identity) ->
  let w' := (ApiV1.process_task rt cfg th w).2 in
  ApiV1.get_ocr_result identity (th_task_id th) w' =
    (Ok (mk_response (Failure e "PROCESSING_FAILED" None) 500), w') /\
  ApiV1.get_ocr_status rt identity (th_task_id th) w' =
    (Ok (mk_response
           (Success (DStatus (th_task_id th) "failed" (td !! "progress")
                       (td !! "created_at") (Some e))
              "Operation successful") 200), w').
Proof.
  intros Hrun Hf Hown w'. subst w'.
  destruct (process_task_failure _ _ _ _ _ _ Hrun) as (-> & Hr & Ho). cbn [snd].
  set (w' := (Redis.hset_mapping _ _ w1).2).
  assert (Hf' : find_task w' (th_task_id th) = Some (ApiV1.failed_mapping rt e ∪ td)).
  { subst w'. unfold Redis.hset_mapping, Redis.commit. cbn [snd].
    rewrite Hr, (find_task_default _ _ _ Hf).
    apply find_task_inserted, union_nonempty_r. by eapply find_task_nonempty. }
  assert (Hkeep : forall field, field ≠ "status" -> field ≠ "error" -> field ≠ "failed_at" ->
            (ApiV1.failed_mapping rt e ∪ td) !! field = td !! field).
  { intros field H1 H2 H3. apply lookup_union_r. by apply failed_mapping_other. }
  destruct (views_of_failed_task rt identity (th_task_id th) _ w' e Hf') as [Hres Hstat].
  - by rewrite Hkeep.
  - apply lookup_union_Some_l, failed_mapping_status.
  - apply lookup_union_Some_l, failed_mapping_error.
  - split; [exact Hres|]. rewrite Hstat. by rewrite !Hkeep.
Qed.

(** X8. The Result round trip: after a successful pipeline for a task of
    the requester, the result view answers 200 with exactly the Result the
    worker built (the texts, their newline-join, the page count), and the
    status view reports "completed"; neither read changes anything. *)
Theorem worker_result_round_trip rt cfg th identity td w results w1 :
  OcrProcessor.process_ocr rt (th_upload_path th) (OUTPUT_FOLDER cfg)
    (th_language th) (th_use_gpu th) w = (Ok results, w1) ->
  find_task w (th_task_id th) = Some td ->
  td !! "user_id" = Some (ApiV1.current_user identity) ->
  let w' := (ApiV1.process_task rt cfg th w).2 in
  ApiV1.get_ocr_result identity (th_task_id th) w' =
    (Ok (mk_response
           (Success (DResults (th_task_id th) "completed"
                       (mk_ocr_result results (Py.join nl results) (Some (time_now rt))
                          (Some (length results)) None))
              "Operation successful") 200), w') /\
  ApiV1.get_ocr_status rt identity (th_task_id th) w' =
    (Ok (mk_response
           (Success (DStatus (th_task_id th) "completed" (td !! "progress")
                       (td !! "created_at") (td !! "error"))
              "Operation successful") 200), w').
Proof.
  intros Hrun Hf Hown w'. subst w'.
  rewrite (process_task_success _ _ _ _ _ _ Hrun). cbn [snd hashes].
  rewrite (find_task_default _ _ _ Hf).
  set (td' := ({[ "status" := "completed" ]} : gmap string string) ∪ td).
  assert (Hne : td' ≠ ∅) by (apply union_nonempty_r; by eapply find_task_nonempty).
  assert (Hst : td' !! "status" = Some "completed") by (by apply lookup_union_Some_l).
  assert (Hkeep : forall field, field ≠ "status" -> td' !! field = td !! field).
  { intros field H1. apply lookup_union_r. by apply lookup_singleton_ne. }
  split; run_view; rewrite (hgetall_found _ _ _ (find_task_inserted _ _ _ _ _ _ _ Hne));
    rewrite (bool_decide_eq_false_2 _ Hne);
    (rewrite bool_decide_eq_true_2 by (by rewrite Hkeep)); cbn [negb].
  - rewrite Hst. cbn. unfold Redis.get. cbn [redis blobs].
    rewrite lookup_insert_eq. reflexivity.
  - unfold ApiV1.reconcile. rewrite bool_decide_eq_false_2 by (rewrite Hst; discriminate).
    cbn [andb]. cbv beta iota delta [mret M_ret]. by rewrite Hst, !Hkeep.
Qed.

(* ===================================================================== *)
(** * Reconciliation of delegated jobs *)
(* ===================================================================== *)

(** X9. A status read changes the store only when it finds the delegated
    job of a processing task finished: in every other case (unknown or
    foreign task, terminal status, no job id, Celery not importable, job
    still pending, polling raises) the world after the read is the world
    before it. *)
Theorem status_read_writes_only_for_finished_job rt identity tid w :
  (ApiV1.get_ocr_status rt identity tid w).2 = w \/
  exists td c poll job,
    find_task w tid = Some td /\
    td !! "user_id" = Some (ApiV1.current_user identity) /\
    td !! "status" = Some "processing" /\
    td !! "celery_task_id" = Some c /\
    celery_reconcile rt = Ok (Some poll) /\
    poll c = Ok job /\ job ≠ JobPending.
Proof.
  run_view. rewrite hgetall_find_task.
  destruct (find_task w tid) as [td|] eqn:Hf.
  2: { destruct (holds_string w tid); [by left|].
       rewrite bool_decide_eq_true_2 by done. by left. }
  rewrite (bool_decide_eq_false_2 _ (find_task_nonempty _ _ _ Hf)).
  case_bool_decide as Hown; cbn [negb]; [|by left].
  unfold ApiV1.reconcile.
  case_bool_decide as Hst; cbn [andb]; [|by left].
  destruct (td !! "celery_task_id") as [c|] eqn:Hc; [|by left].
  destruct (Py.falsy c) eqn:Hfalsy; cbn [negb]; [by left|].
  cbv beta iota zeta delta [try_except throw lift mbind mret M_bind M_ret].
  destruct (celery_reconcile rt) as [[poll|]|e] eqn:Happ; [|by left|by left].
  destruct (poll c) as [[|result|err]|e] eqn:Hpoll; [by left| | |by left];
    right; exists td, c, poll; eexists; repeat split; eauto; discriminate.
Qed.

(** X10. When the delegated job of a processing task reports failure, the
    status read that finds it answers status "failed" with the reported
    error, writes status, error and failure time to the record in one
    write, and stores no Result. *)
Theorem reconcile_failure_is_recorded rt identity tid td c poll err w :
  find_task w tid = Some td ->
  td !! "user_id" = Some (ApiV1.current_user identity) ->
  td !! "status" = Some "processing" ->
  td !! "celery_task_id" = Some c ->
  Py.falsy c = false ->
  celery_reconcile rt = Ok (Some poll) ->
  poll c = Ok (JobFailure err) ->
  exists w',
    ApiV1.get_ocr_status rt identity tid w =
      (Ok (mk_response
             (Success (DStatus tid "failed" (td !! "progress") (td !! "created_at")
                         (Some err))
                "Operation successful") 200), w') /\
    task_field (redis w') tid "status" = Some "failed" /\
    task_field (redis w') tid "error" = Some err /\
    blobs (redis w') = blobs (redis w) /\
    observed w' = (observed w ++ [redis w'])%list.
Proof.
  intros Hf Hown Hst Hc Hne Happ Hpoll.
  run_view. rewrite (hgetall_found _ _ _ Hf).
  rewrite (bool_decide_eq_false_2 _ (find_task_nonempty _ _ _ Hf)).
  rewrite (bool_decide_eq_true_2 _ Hown). cbn [negb].
  unfold ApiV1.reconcile.
  rewrite (bool_decide_eq_true_2 _ Hst), Hc, Hne. cbn [negb andb].
  cbv beta iota zeta delta [try_except throw lift mbind mret M_bind M_ret].
  rewrite Happ, Hpoll.
  destruct (failed_write_spec rt err tid w w eq_refl eq_refl)
    as (H1 & H2 & _ & H4 & H5 & _).
  destruct (Redis.hset_mapping (ApiV1.task_key tid) (ApiV1.failed_mapping rt err) w)
    as [[[]|e] w'] eqn:Hw; [|unfold Redis.hset_mapping in Hw; discriminate].
  cbn [snd] in *. exists w'. split.
  - rewrite lookup_insert_ne by done. rewrite lookup_insert_eq.
    rewrite !lookup_insert_ne by done. rewrite lookup_insert_eq. reflexivity.
  - done.
Qed.

(** X11. When the delegated job of a processing task reports success,
    the status read that finds it answers "completed", and a result fetch
    after it answers 200 with exactly the Result the job returned. *)
Theorem reconcile_success_delivers_result rt identity tid td c poll result w :
  find_task w tid = Some td ->
  td !! "user_id" = Some (ApiV1.current_user identity) ->
  td !! "status" = Some "processing" ->
  td !! "celery_task_id" = Some c ->
  Py.falsy c = false ->
  celery_reconcile rt = Ok (Some poll) ->
  poll c = Ok (JobSuccess result) ->
  exists w',
    ApiV1.get_ocr_status rt identity tid w =
      (Ok (mk_response
             (Success (DStatus tid "completed" (td !! "progress") (td !! "created_at")
                         (td !! "error"))
                "Operation successful") 200), w') /\
    ApiV1.get_ocr_result identity tid w' =
      (Ok (mk_response (Success (DResults tid "completed" result)
                          "Operation successful") 200), w').
Proof.
  intros Hf Hown Hst Hc Hne Happ Hpoll.
  run_view. rewrite (hgetall_found _ _ _ Hf).
  rewrite (bool_decide_eq_false_2 _ (find_task_nonempty _ _ _ Hf)).
  rewrite (bool_decide_eq_true_2 _ Hown). cbn [negb].
  unfold ApiV1.reconcile.
  rewrite (bool_decide_eq_true_2 _ Hst), Hc, Hne. cbn [negb andb].
  cbv beta iota zeta delta [try_except throw lift mbind mret M_bind M_ret].
  rewrite Happ, Hpoll.
  cbv beta iota zeta delta [Redis.hset Redis.hset_mapping Redis.set Redis.commit json_dumps].
  cbn [redis hashes blobs tasks disk observed].
  rewrite (find_task_default _ _ _ Hf).
  set (td' := ({[ "status" := "completed" ]} : gmap string string) ∪ td).
  assert (Hne' : td' ≠ ∅) by (apply union_nonempty_r; by eapply find_task_nonempty).
  assert (Hst' : td' !! "status" = Some "completed") by (by apply lookup_union_Some_l).
  assert (Hkeep : forall field, field ≠ "status" -> td' !! field = td !! field).
  { intros field H1. apply lookup_union_r. by apply lookup_singleton_ne. }
  eexists. split.
  - rewrite lookup_insert_eq. rewrite !lookup_insert_ne by done. reflexivity.
  - rewrite (hgetall_found _ _ _ (find_task_inserted _ _ _ _ _ _ _ Hne')).
    rewrite (bool_decide_eq_false_2 _ Hne').
    rewrite bool_decide_eq_true_2 by (by rewrite Hkeep). cbn [negb].
    rewrite Hst'. cbn. unfold Redis.get. cbn [redis blobs].
    rewrite lookup_insert_eq. reflexivity.
Qed.

(* ===================================================================== *)
(** * Requests that are refused, deletion and download *)
(* ===================================================================== *)

Lemma status_view_effect rt identity tid w :
  (ApiV1.get_ocr_status rt identity tid w).2 = w \/
  exists r, (ApiV1.get_ocr_status rt identity tid w).1 = Ok r /\ resp_status r = 200.
Proof.
  run_view. rewrite hgetall_find_task.
  destruct (find_task w tid) as [td|] eqn:Hf.
  2: { left. destruct (holds_string w tid); [done|].
       by rewrite bool_decide_eq_true_2. }
  rewrite (bool_decide_eq_false_2 _ (find_task_nonempty _ _ _ Hf)).
  case_bool_decide; cbn [negb]; [|by left].
  destruct (ApiV1.reconcile rt tid _ w) as [[td'|e] w'] eqn:Hrec.
  - right. eauto.
  - exfalso. revert Hrec. unfold ApiV1.reconcile.
    cbv beta iota zeta delta [try_except throw lift mbind mret M_bind M_ret
                              Redis.hset Redis.hset_mapping Redis.set].
    repeat case_match; intros; simplify_eq.
Qed.

Lemma read_views_frame cfg rt extract identity tid filename b w :
  (ApiV1.get_ocr_result identity tid w).2 = w /\
  (ApiV1.download_file cfg identity tid filename w).2 = w /\
  (ApiV1.extract_invoice_data rt extract identity b w).2 = w.
Proof.
  split; [|split]; run_view; unfold Redis.hgetall, Redis.get, Os.exists_;
    repeat case_match; simplify_eq; done.
Qed.

Lemma remove_outputs_disk cfg base_name exts w :
  exists d,
    ApiV1.remove_outputs cfg base_name exts w =
      (Ok tt, {| redis := redis w; disk := d; observed := observed w |}) /\
    forall p, p ∈ d <->
      p ∈ disk w /\
      p ∉ map (fun ext => Py.path.join (OUTPUT_FOLDER cfg) (base_name +:+ ext)) exts.
Proof.
  revert w. induction exts as [|ext exts IH]; intros w; simpl.
  - exists (disk w). destruct w; simpl. split; [done|].
    intros p. split; [intros Hp; split; [done|apply not_elem_of_nil]|by intros [? _]].
  - cbv beta iota delta [mbind M_bind]. rewrite remove_if_exists_run.
    destruct (IH {| redis := redis w;
                    disk := disk w ∖ {[Py.path.join (OUTPUT_FOLDER cfg) (base_name +:+ ext)]};
                    observed := observed w |}) as (d & Hrun & Hd).
    exists d. simpl in *. split; [exact Hrun|].
    intros p. rewrite Hd, elem_of_difference, elem_of_singleton, not_elem_of_cons.
    tauto.
Qed.

(** The run of [delete_task] on a task of the requester. *)
Lemma delete_task_run cfg identity tid td w :
  find_task w tid = Some td ->
  td !! "user_id" = Some (ApiV1.current_user identity) ->
  exists w',
    ApiV1.delete_task cfg identity tid w =
      (Ok (mk_response (Success DNull "Task deleted successfully") 200), w') /\
    hashes (redis w') = base.delete (ApiV1.result_key tid)
                          (base.delete (ApiV1.task_key tid) (hashes (redis w))) /\
    blobs (redis w') = base.delete (ApiV1.result_key tid)
                         (base.delete (ApiV1.task_key tid) (blobs (redis w))) /\
    tasks (redis w') = tasks (redis w) /\
    forall p, p ∈ disk w' <->
      p ∈ disk w /\
      p ∉ delete_targets cfg (match td !! "filename" with
                              | Some f => f | None => EmptyString end).
Proof.
  intros Hf Hown. run_view. rewrite (hgetall_found _ _ _ Hf).
  rewrite (bool_decide_eq_false_2 _ (find_task_nonempty _ _ _ Hf)).
  rewrite (bool_decide_eq_true_2 _ Hown). cbn [negb].
  unfold Redis.delete, Redis.commit, delete_targets. cbn beta iota zeta.
  destruct (Py.falsy (match td !! "filename" with
                      | Some f => f | None => EmptyString end)) eqn:Hfalsy.
  - eexists. split; [reflexivity|]. cbn [redis hashes blobs tasks disk].
    split; [done|]. split; [done|]. split; [done|].
    intros p. split; [intros Hp; split; [done|apply not_elem_of_nil]|by intros [? _]].
  - cbv beta iota delta [mbind M_bind]. rewrite remove_if_exists_run.
    match goal with |- context [ApiV1.remove_outputs cfg ?b ?e ?w0] =>
      destruct (remove_outputs_disk cfg b e w0) as (d & Hrun & Hd) end.
    rewrite Hrun. eexists. split; [reflexivity|]. cbn [redis hashes blobs tasks disk] in *.
    split; [done|]. split; [done|]. split; [done|].
    intros p. rewrite Hd, elem_of_difference, elem_of_singleton, not_elem_of_cons.
    tauto.
Qed.

Lemma delete_view_effect cfg identity tid w :
  (ApiV1.delete_task cfg identity tid w).2 = w \/
  exists r, (ApiV1.delete_task cfg identity tid w).1 = Ok r /\ resp_status r = 200.
Proof.
  destruct (find_task w tid) as [td|] eqn:Hf.
  - destruct (decide (td !! "user_id" = Some (ApiV1.current_user identity))) as [Hown|Hown].
    + right. destruct (delete_task_run cfg identity tid td w Hf Hown) as (w' & -> & _).
      eauto.
    + left. pose proof (serve_foreign Scenario.rt cfg Scenario.no_extract identity
        (Deletion tid) w tid td eq_refl eq_refl Hf Hown) as Hs. simpl in Hs. by rewrite Hs.
  - left. destruct (holds_string w tid) eqn:Hstr.
    + pose proof (serve_string_key Scenario.rt cfg Scenario.no_extract identity
        (Deletion tid) w tid eq_refl eq_refl Hstr) as Hs. simpl in Hs. by rewrite Hs.
    + pose proof (serve_unknown Scenario.rt cfg Scenario.no_extract identity
        (Deletion tid) w tid eq_refl eq_refl Hf Hstr) as Hs. simpl in Hs. by rewrite Hs.
Qed.

(** X12. A request against a task that is answered 400, 403 or 404
    (validation error, task not completed, page out of range, unknown
    task, foreign task, missing Result, missing file) has no effect: task
    store, files and write history are exactly as before. *)
Theorem refused_request_has_no_effect rt cfg extract identity q w r :
  (serve rt cfg extract identity q w).1 = Ok r ->
  resp_status r = 400 \/ resp_status r = 403 \/ resp_status r = 404 ->
  (serve rt cfg extract identity q w).2 = w.
Proof.
  intros Hr Hcode.
  assert (H200 : resp_status r ≠ 200) by lia. clear Hcode.
  destruct q as [t|t|b|t f|t]; simpl in *.
  - destruct (status_view_effect rt identity t w) as [Hw|(r' & Hok & Hc)]; [done|].
    rewrite Hok in Hr. by simplify_eq.
  - apply (read_views_frame cfg rt extract identity t EmptyString None w).
  - apply (read_views_frame cfg rt extract identity EmptyString EmptyString b w).
  - apply (read_views_frame cfg rt extract identity t f None w).
  - destruct (delete_view_effect cfg identity t w) as [Hw|(r' & Hok & Hc)]; [done|].
    rewrite Hok in Hr. by simplify_eq.
Qed.

Lemma str_length_app a x : String.length (a +:+ x) = (String.length a + String.length x)%nat.
Proof. induction a as [|c a IH]; simpl; [done|]. by rewrite IH. Qed.

Lemma str_app_inv_tail a b x : a +:+ x = b +:+ x -> a = b.
Proof.
  revert b. induction a as [|c a IH]; intros [|d b] H; simpl in *.
  - done.
  - apply (f_equal String.length) in H. simpl in H. rewrite str_length_app in H. lia.
  - apply (f_equal String.length) in H. simpl in H. rewrite str_length_app in H. lia.
  - injection H as -> H. by rewrite (IH b H).
Qed.

Lemma task_key_inj a b : ApiV1.task_key a = ApiV1.task_key b -> a = b.
Proof. unfold ApiV1.task_key. simpl. by intros [= ->]. Qed.

Lemma result_key_inj a b : ApiV1.result_key a = ApiV1.result_key b -> a = b.
Proof.
  unfold ApiV1.result_key. simpl. intros [= H]. by apply str_app_inv_tail in H.
Qed.

Lemma task_key_is_result_key a b :
  ApiV1.task_key a = ApiV1.result_key b -> a = b +:+ ":result".
Proof. unfold ApiV1.task_key, ApiV1.result_key. simpl. by intros [= ->]. Qed.

(** X13. Deleting a task of the requester touches only that task: the
    record and the Result of every other task stay as they were (task ids
    that are one another's [":result"] extension excepted, since they
    share a key), the in-process task table is untouched, and the files
    removed are at most the upload and the three siblings rebuilt from the
    stored filename. *)
Theorem delete_touches_only_its_task cfg identity tid td w :
  find_task w tid = Some td ->
  td !! "user_id" = Some (ApiV1.current_user identity) ->
  let w' := (ApiV1.delete_task cfg identity tid w).2 in
  (forall other, other ≠ tid -> other ≠ tid +:+ ":result" ->
     find_task w' other = find_task w other) /\
  (forall other, other ≠ tid -> tid ≠ other +:+ ":result" ->
     blobs (redis w') !! ApiV1.result_key other
       = blobs (redis w) !! ApiV1.result_key other) /\
  tasks (redis w') = tasks (redis w) /\
  (forall p, p ∈ disk w' <->
     p ∈ disk w /\
     p ∉ delete_targets cfg (match td !! "filename" with
                             | Some f => f | None => EmptyString end)).
Proof.
  intros Hf Hown w'. subst w'.
  destruct (delete_task_run cfg identity tid td w Hf Hown)
    as (w' & -> & Hh & Hb & Ht & Hd). cbn [snd].
  split; [|split; [|split; [exact Ht|exact Hd]]].
  - intros other H1 H2. unfold find_task. rewrite Hh.
    rewrite !lookup_delete_ne; [done| |].
    + intros He. apply H1. symmetry. by apply task_key_inj.
    + intros He. apply H2. symmetry in He. by apply task_key_is_result_key.
  - intros other H1 H2. rewrite Hb.
    rewrite !lookup_delete_ne; [done| |].
    + intros He. apply H2. by apply task_key_is_result_key.
    + intros He. apply H1. symmetry. by apply result_key_inj.
Qed.

(** X14. A download is gated by ownership of the named task only; the
    file is not tied to the task. For a file name without path separator,
    a requester who owns any task is served any file present in the output
    folder as an attachment, is answered 404 FILE_NOT_FOUND when it is
    absent, and the answer is the same whichever of the requester's tasks
    is named. Nothing is written. (The names [.] and [..] denote
    directories and are left aside.) *)
Theorem download_is_gated_by_ownership_only cfg identity tid td tid2 td2 filename w :
  find_task w tid = Some td ->
  td !! "user_id" = Some (ApiV1.current_user identity) ->
  find_task w tid2 = Some td2 ->
  td2 !! "user_id" = Some (ApiV1.current_user identity) ->
  contains "/"%char filename = false ->
  filename ≠ "." -> filename ≠ ".." ->
  ApiV1.download_file cfg identity tid filename w =
    (Ok (if bool_decide (Py.path.join (OUTPUT_FOLDER cfg) filename ∈ disk w)
         then mk_response (Attachment (OUTPUT_FOLDER cfg) filename) 200
         else mk_response (Failure "File not found" "FILE_NOT_FOUND" None) 404), w) /\
  ApiV1.download_file cfg identity tid2 filename w
    = ApiV1.download_file cfg identity tid filename w.
Proof.
  intros Hf Hown Hf2 Hown2 _ _ _.
  assert (Hrun : forall t d, find_task w t = Some d ->
            d !! "user_id" = Some (ApiV1.current_user identity) ->
            ApiV1.download_file cfg identity t filename w =
              (Ok (if bool_decide (Py.path.join (OUTPUT_FOLDER cfg) filename ∈ disk w)
                   then mk_response (Attachment (OUTPUT_FOLDER cfg) filename) 200
                   else mk_response (Failure "File not found" "FILE_NOT_FOUND" None) 404),
               w)).
  { intros t d Ht Hd. run_view. rewrite (hgetall_found _ _ _ Ht).
    rewrite (bool_decide_eq_false_2 _ (find_task_nonempty _ _ _ Ht)).
    rewrite (bool_decide_eq_true_2 _ Hd). cbn [negb].
    unfold Os.exists_. cbn beta iota. by case_bool_decide. }
  split; [by eapply Hrun|]. by rewrite (Hrun _ _ Hf Hown), (Hrun _ _ Hf2 Hown2).
Qed.

(* ===================================================================== *)
(** * Convert and Recognize in detail *)
(* ===================================================================== *)

Lemma render_pages_all rt input_path output_dir idxs paths w :
  (forall i, i ∈ idxs -> pdf_render rt input_path i = Ok tt) ->
  OcrProcessor.render_pages rt input_path output_dir
    (fst (Py.path.splitext (Py.path.basename input_path))) idxs paths w =
    (Ok (paths ++ map (pdf_page_path input_path output_dir) idxs)%list,
     {| redis := redis w;
        disk := list_to_set (map (pdf_page_path input_path output_dir) idxs) ∪ disk w;
        observed := observed w |}).
Proof.
  revert paths w. induction idxs as [|i idxs IH]; intros paths w Hok; simpl.
  - rewrite app_nil_r. destruct w; simpl. do 2 f_equal. by rewrite union_empty_l_L.
  - cbv beta iota zeta delta [mbind M_bind lift Os.write].
    rewrite (Hok i) by apply list_elem_of_here.
    rewrite IH by (intros j Hj; apply Hok; by apply list_elem_of_further).
    cbn [redis disk observed].
    change (Py.path.join output_dir _) with (pdf_page_path input_path output_dir i).
    f_equal; [by rewrite <- app_assoc|]. f_equal.
    rewrite (assoc_L (∪)).
    f_equal. apply (comm_L (∪)).
Qed.

Lemma render_pages_stops rt input_path output_dir pre k post paths w e :
  (forall i, i ∈ pre -> pdf_render rt input_path i = Ok tt) ->
  pdf_render rt input_path k = Raise e ->
  OcrProcessor.render_pages rt input_path output_dir
    (fst (Py.path.splitext (Py.path.basename input_path)))
    (pre ++ k :: post) paths w =
    (Raise e,
     {| redis := redis w;
        disk := list_to_set (map (pdf_page_path input_path output_dir) pre) ∪ disk w;
        observed := observed w |}).
Proof.
  revert paths w. induction pre as [|i pre IH]; intros paths w Hok Hk; simpl.
  - cbv beta iota delta [mbind M_bind lift]. rewrite Hk.
    destruct w; simpl. do 2 f_equal. by rewrite union_empty_l_L.
  - cbv beta iota zeta delta [mbind M_bind lift Os.write].
    rewrite (Hok i) by apply list_elem_of_here.
    rewrite IH; [|intros j Hj; apply Hok; by apply list_elem_of_further|done].
    cbn [redis disk observed].
    change (Py.path.join output_dir _) with (pdf_page_path input_path output_dir i).
    do 2 f_equal. rewrite (assoc_L (∪)).
    f_equal. apply (comm_L (∪)).
Qed.

Lemma convert_pdf_unfold rt input_path output_dir w :
  convert_extension input_path = ".pdf" ->
  OcrProcessor.convert_to_png rt input_path output_dir w =
    match pdf_open rt input_path with
    | Ok n =>
        OcrProcessor.render_pages rt input_path output_dir
          (fst (Py.path.splitext (Py.path.basename input_path))) (seq 0 n) [] w
    | Raise e => (Raise e, w)
    end.
Proof.
  unfold convert_extension, OcrProcessor.convert_to_png. intros ->.
  cbn [String.eqb Py.mem existsb]. cbv beta iota delta [mbind M_bind lift].
  simpl. by destruct (pdf_open rt input_path).
Qed.

(** X15. For a PDF of [n] pages that all render, Convert returns exactly
    [n] paths, the i-th being [<output>/<base>_page_<i>.png] (1-based, in
    page order), writes exactly these files, keeps every file that was
    there, and does not touch the task store. *)
Theorem convert_pdf_yields_one_image_per_page rt input_path output_dir w n :
  convert_extension input_path = ".pdf" ->
  pdf_open rt input_path = Ok n ->
  (forall i, (i < n)%nat -> pdf_render rt input_path i = Ok tt) ->
  exists w',
    OcrProcessor.convert_to_png rt input_path output_dir w =
      (Ok (map (pdf_page_path input_path output_dir) (seq 0 n)), w') /\
    length (map (pdf_page_path input_path output_dir) (seq 0 n)) = n /\
    disk w' = list_to_set (map (pdf_page_path input_path output_dir) (seq 0 n)) ∪ disk w /\
    redis w' = redis w /\ observed w' = observed w.
Proof.
  intros Hext Hopen Hrender.
  rewrite (convert_pdf_unfold _ _ _ _ Hext), Hopen.
  rewrite render_pages_all.
  - eexists. split; [reflexivity|]. rewrite length_map, length_seq. done.
  - intros i Hi. apply Hrender. apply elem_of_seq in Hi. lia.
Qed.

(** X16. When page [k] of a PDF is the first that fails to render,
    Convert raises that error, and the images of the pages before it stay
    on disk: the failure is not cleaned up. The worker then records the
    task as failed with that error. *)
Theorem convert_pdf_failure_leaves_earlier_pages rt cfg th w n k e :
  convert_extension (th_upload_path th) = ".pdf" ->
  pdf_open rt (th_upload_path th) = Ok n ->
  (k < n)%nat ->
  (forall i, (i < k)%nat -> pdf_render rt (th_upload_path th) i = Ok tt) ->
  pdf_render rt (th_upload_path th) k = Raise e ->
  exists wc,
    OcrProcessor.convert_to_png rt (th_upload_path th) (OUTPUT_FOLDER cfg) w
      = (Raise e, wc) /\
    disk wc = list_to_set (map (pdf_page_path (th_upload_path th) (OUTPUT_FOLDER cfg))
                             (seq 0 k)) ∪ disk w /\
    disk (ApiV1.process_task rt cfg th w).2 = disk wc /\
    task_field (redis (ApiV1.process_task rt cfg th w).2) (th_task_id th) "status"
      = Some "failed" /\
    task_field (redis (ApiV1.process_task rt cfg th w).2) (th_task_id th) "error"
      = Some e.
Proof.
  intros Hext Hopen Hk Hbefore Hfail.
  assert (Hseq : seq 0 n = (seq 0 k ++ k :: seq (S k) (n - S k))%list).
  { replace n with (k + S (n - S k))%nat at 1 by lia. rewrite seq_app. done. }
  assert (Hconv : OcrProcessor.convert_to_png rt (th_upload_path th) (OUTPUT_FOLDER cfg) w =
    (Raise e,
     {| redis := redis w;
        disk := list_to_set (map (pdf_page_path (th_upload_path th) (OUTPUT_FOLDER cfg))
                               (seq 0 k)) ∪ disk w;
        observed := observed w |})).
  { rewrite (convert_pdf_unfold _ _ _ _ Hext), Hopen, Hseq.
    apply render_pages_stops; [|done].
    intros i Hi. apply Hbefore. apply elem_of_seq in Hi. lia. }
  eexists. split; [exact Hconv|]. split; [done|].
  assert (Hrun : OcrProcessor.process_ocr rt (th_upload_path th) (OUTPUT_FOLDER cfg)
                   (th_language th) (th_use_gpu th) w =
                 (Raise e,
                  {| redis := redis w;
                     disk := list_to_set
                               (map (pdf_page_path (th_upload_path th) (OUTPUT_FOLDER cfg))
                                  (seq 0 k)) ∪ disk w;
                     observed := observed w |})).
  { unfold OcrProcessor.process_ocr. cbv beta iota delta [mbind M_bind].
    by rewrite Hconv. }
  destruct (process_task_failure _ _ _ _ _ _ Hrun) as (-> & Hr & Ho). cbn [snd].
  split; [done|].
  split; apply hset_mapping_field; auto using failed_mapping_status, failed_mapping_error.
Qed.

Lemma collect_paddle_detections rt dets :
  OcrProcessor.collect_lines rt (map paddle_detection dets)
    = map (fun d => py_str rt (PyStr (detection_text d))) dets.
Proof.
  induction dets as [|[[box text] score] dets IH]; [done|].
  simpl. by rewrite IH.
Qed.

(** X17. For a page on which the engine reports detections in PaddleOCR's
    shape [[[box, (text, score)], ...]], the recognized page text is the
    texts of the detections, in the engine's order, joined by line feeds
    (each rendered by [str]); boxes and scores are dropped. *)
Theorem recognize_joins_detected_texts rt (ocr : engine) png dets :
  ocr png = Ok (PyList [PyList (map paddle_detection dets)]) ->
  OcrProcessor.recognize_page rt ocr png =
    Ok (Py.join nl (map (fun d => py_str rt (PyStr (detection_text d))) dets)).
Proof.
  intros Hocr. unfold OcrProcessor.recognize_page, mbind, res_bind. rewrite Hocr.
  simpl. by rewrite collect_paddle_detections.
Qed.

(* ===================================================================== *)
(** * Extraction: credentials, outages and decoded replies *)
(* ===================================================================== *)

Lemma extract_pages_all_fail extract e pages idx acc :
  (forall call text, extract call text = Raise e) ->
  ApiV1.extract_pages extract pages idx acc =
    (acc ++ map (fun i => ApiV1.failed_entry i e) (seq idx (length pages)))%list.
Proof.
  intros Hfail. revert idx acc. induction pages as [|t pages IH]; intros idx acc; simpl.
  - by rewrite app_nil_r.
  - rewrite Hfail, IH, <- app_assoc. done.
Qed.

(** X18. Without credentials (key, endpoint or deployment blank after
    stripping) the extractor raises before any request is made, whatever
    the backend would answer. The all-pages extraction of a completed
    task then still answers 200, with one error-marked empty entry per
    page, numbered 1 to N. *)
Theorem unconfigured_extractor_marks_every_page rt b identity body tid td r w :
  credentials_missing b = true ->
  Models.load_extract body = inr (tid, None) ->
  find_task w tid = Some td ->
  td !! "user_id" = Some (ApiV1.current_user identity) ->
  td !! "status" = Some "completed" ->
  blobs (redis w) !! ApiV1.result_key tid = Some (BJson r) ->
  (forall call text,
     InvoiceExtractor.extract_structured_from_text b call text
       = Raise "Azure OpenAI credentials are not configured") /\
  (ApiV1.extract_invoice_data rt (InvoiceExtractor.extract_structured_from_text b)
     identity (Some body) w).1 =
    Ok (mk_response
          (Success (DInvoice tid
                      (map (fun i => ApiV1.failed_entry i
                                       "Azure OpenAI credentials are not configured")
                         (seq 1 (length (detected_texts r))))
                      (length (detected_texts r)) (time_now rt))
             "Invoice data extracted successfully") 200).
Proof.
  intros Hmiss Hload Hf Hown Hst Hblob.
  assert (Hraise : forall call text,
    InvoiceExtractor.extract_structured_from_text b call text
      = Raise "Azure OpenAI credentials are not configured").
  { intros call text. unfold InvoiceExtractor.extract_structured_from_text.
    cbv zeta. unfold credentials_missing in Hmiss. by rewrite Hmiss. }
  split; [exact Hraise|].
  rewrite (extract_reaches_pages _ _ _ _ _ _ _ _ _ Hload Hf Hown Hst Hblob).
  cbv zeta. by rewrite (extract_pages_all_fail _ _ _ _ _ Hraise).
Qed.

(** X19. A backend outage is not reported as an error: when the request
    raises (timeout, connection error, HTTP error status), the extractor
    falls back to the content ["{}"] and returns the six fields empty,
    without raising, so the page entry carries no error marker. *)
Theorem backend_outage_yields_blank_fields b call api_key endpoint deployment
    page_text api_version e :
  post_chat b call (InvoiceExtractor.chat_url endpoint deployment api_version)
    api_key (InvoiceExtractor.prompt page_text) = Raise e ->
  loads b "{}" = Some (JObj []) ->
  InvoiceExtractor.extract_with_azure_openai b call api_key endpoint deployment
    page_text api_version = Ok empty_fields.
Proof.
  intros Hpost Hloads.
  unfold InvoiceExtractor.extract_with_azure_openai, InvoiceExtractor.fetch_content.
  cbv zeta. unfold mbind at 1, res_bind at 1. rewrite Hpost.
  unfold InvoiceExtractor.fields_of_content, InvoiceExtractor.decode_content,
    mbind, res_bind.
  by rewrite Hloads.
Qed.

(** X20. When the content of the reply decodes, no salvage takes place:
    a decoded object yields its six members as text, a missing member
    being the empty string; any other decoded value (an array, a number,
    a string, null) makes the extractor raise, since [.get] is called on
    it outside every [try]. *)
Theorem decoded_reply_fields b call api_key endpoint deployment page_text
    api_version text v :
  InvoiceExtractor.fetch_content b call
    (InvoiceExtractor.chat_url endpoint deployment api_version) api_key page_text
    = JStr text ->
  loads b text = Some v ->
  match v with
  | JObj members =>
      InvoiceExtractor.extract_with_azure_openai b call api_key endpoint deployment
        page_text api_version = Ok (fields_of_members b members)
  | _ =>
      exists e,
        InvoiceExtractor.extract_with_azure_openai b call api_key endpoint deployment
          page_text api_version = Raise e
  end.
Proof.
  intros Hfetch Hloads.
  unfold InvoiceExtractor.extract_with_azure_openai. cbv zeta. rewrite Hfetch.
  unfold InvoiceExtractor.fields_of_content, InvoiceExtractor.decode_content.
  rewrite Hloads. unfold mbind at 1, res_bind at 1.
  destruct v; try (by eexists). apply fields_of_object.
Qed.

Lemma member_text_missing b members key :
  InvoiceExtractor.members_get members key = None -> member_text b members key = EmptyString.
Proof. unfold member_text. by intros ->. Qed.

(* ===================================================================== *)
(** * The task listing *)
(* ===================================================================== *)

Lemma ascii_compare_refl a : Ascii.compare a a = Eq.
Proof. unfold Ascii.compare. apply N.compare_refl. Qed.

Lemma string_compare_trans s1 : forall s2 s3,
  String.compare s1 s2 <> Gt -> String.compare s2 s3 <> Gt ->
  String.compare s1 s3 <> Gt.
Proof.
  induction s1 as [|a s1 IH]; intros [|b s2] [|c s3]; simpl; try congruence.
  destruct (Ascii.compare a b) eqn:E1; [|clear IH|congruence].
  - apply Ascii.compare_eq_iff in E1 as ->.
    destruct (Ascii.compare b c) eqn:E2; [|congruence|congruence].
    apply IH.
  - destruct (Ascii.compare b c) eqn:E2; [| |congruence]; intros _ _.
    + apply Ascii.compare_eq_iff in E2 as <-. by rewrite E1.
    + unfold Ascii.compare in *. rewrite N.compare_lt_iff in E1, E2.
      assert (H : (N_of_ascii a < N_of_ascii c)%N) by lia.
      apply N.compare_lt_iff in H. by rewrite H.
Qed.

Lemma leb_trans s1 s2 s3 :
  String.leb s1 s2 = true -> String.leb s2 s3 = true -> String.leb s1 s3 = true.
Proof.
  unfold String.leb. intros H1 H2.
  pose proof (string_compare_trans s1 s2 s3) as H.
  destruct (String.compare s1 s2); destruct (String.compare s2 s3);
    destruct (String.compare s1 s3); try done; exfalso; by apply H.
Qed.

Lemma insert_newest_elem x l y :
  y ∈ ApiV1.insert_newest x l <-> y = x \/ y ∈ l.
Proof.
  induction l as [|z l IH]; simpl.
  - rewrite list_elem_of_singleton, elem_of_nil. tauto.
  - destruct (String.leb _ _).
    + by rewrite elem_of_cons.
    + rewrite !elem_of_cons, IH. tauto.
Qed.

Lemma insert_newest_length x l :
  List.length (ApiV1.insert_newest x l) = S (List.length l).
Proof.
  induction l as [|z l IH]; simpl; [done|].
  destruct (String.leb _ _); simpl; by rewrite ?IH.
Qed.

Lemma insert_newest_sorted x l :
  newest_first l -> newest_first (ApiV1.insert_newest x l).
Proof.
  induction l as [|z l IH]; simpl.
  - intros _. split; [constructor|done].
  - intros [Hz Hl]. destruct (String.leb _ _) eqn:E.
    + simpl. split; [|done]. constructor; [exact E|].
      eapply Forall_impl; [exact Hz|]. intros y Hy. unfold not_newer in *.
      by eapply leb_trans.
    + simpl. split; [|by apply IH].
      apply Forall_forall. intros y Hy. apply insert_newest_elem in Hy as [->|Hy].
      * unfold not_newer.
        destruct (String.leb_total (ApiV1.sort_key x) (ApiV1.sort_key z)); congruence.
      * rewrite Forall_forall in Hz. by apply Hz.
Qed.

Lemma sorted_elem l y : y ∈ foldr ApiV1.insert_newest [] l <-> y ∈ l.
Proof.
  induction l as [|z l IH]; simpl; [done|].
  rewrite insert_newest_elem, elem_of_cons, IH. tauto.
Qed.

Lemma sorted_length l :
  List.length (foldr ApiV1.insert_newest [] l) = List.length l.
Proof. induction l as [|z l IH]; simpl; [done|]. by rewrite insert_newest_length, IH. Qed.

Lemma sorted_newest_first l : newest_first (foldr ApiV1.insert_newest [] l).
Proof. induction l as [|z l IH]; simpl; [done|]. by apply insert_newest_sorted. Qed.

Lemma newest_first_drop n l : newest_first l -> newest_first (drop n l).
Proof.
  revert l. induction n as [|n IH]; intros [|a l]; simpl; try done.
  intros [_ H]. by apply IH.
Qed.

Lemma newest_first_take n l : newest_first l -> newest_first (take n l).
Proof.
  revert l. induction n as [|n IH]; intros [|a l]; simpl; try done.
  intros [Ha H]. split; [by apply Forall_take|by apply IH].
Qed.

Lemma slice_list_elem {A} (l : list A) start stop x :
  x ∈ ApiV1.slice_list l start stop -> x ∈ l.
Proof.
  unfold ApiV1.slice_list. cbv zeta. intros H.
  eapply elem_of_sublist; [exact H|].
  etrans; [apply sublist_take|apply sublist_drop].
Qed.

Lemma slice_list_newest_first l start stop :
  newest_first l -> newest_first (ApiV1.slice_list l start stop).
Proof.
  intros H. unfold ApiV1.slice_list. cbv zeta.
  by apply newest_first_take, newest_first_drop.
Qed.

Lemma slice_list_length {A} (l : list A) start stop :
  Z.of_nat (List.length (ApiV1.slice_list l start stop)) =
    Z.max 0 (ApiV1.slice_bound (Z.of_nat (List.length l)) stop
             - ApiV1.slice_bound (Z.of_nat (List.length l)) start).
Proof.
  unfold ApiV1.slice_list. cbv zeta.
  rewrite length_take, length_drop.
  set (n := Z.of_nat (List.length l)).
  assert (Hn : 0 <= n) by lia.
  assert (Hi : 0 <= ApiV1.slice_bound n start <= n).
  { unfold ApiV1.slice_bound. destruct (start <? 0) eqn:E; lia. }
  assert (Hj : 0 <= ApiV1.slice_bound n stop <= n).
  { unfold ApiV1.slice_bound. destruct (stop <? 0) eqn:E; lia. }
  subst n. lia.
Qed.

Lemma collect_tasks_frame user f keys : forall acc w,
  (ApiV1.collect_tasks user f keys acc w).2 = w.
Proof.
  induction keys as [|k keys IH]; intros acc w; simpl; [done|].
  unfold mbind, M_bind, Redis.hgetall.
  destruct (hashes (redis w) !! k); [apply IH|].
  destruct (blobs (redis w) !! k); [done|apply IH].
Qed.

Lemma selected_owner user f td :
  ApiV1.selected user f td = true ->
  td !! "user_id" = Some user /\
  (forall s, f = Some s -> s <> EmptyString -> td !! "status" = Some s).
Proof.
  unfold ApiV1.selected. rewrite andb_true_iff, bool_decide_eq_true.
  intros [Hu Hf]. split; [done|]. intros s -> Hs.
  apply orb_true_iff in Hf as [Hf|Hf].
  - by destruct s.
  - by apply bool_decide_eq_true in Hf.
Qed.

Lemma collect_tasks_provenance user f keys : forall acc w items w',
  ApiV1.collect_tasks user f keys acc w = (Ok items, w') ->
  forall it, it ∈ items ->
    it ∈ acc \/
    exists key td, key ∈ keys /\ hashes (redis w) !! key = Some td /\
      ApiV1.selected user f td = true /\ it = ApiV1.summary_of key td.
Proof.
  induction keys as [|k keys IH]; intros acc w items w'; simpl.
  - unfold mret, M_ret. intros [= <- <-] it Hit. by left.
  - unfold mbind, M_bind, Redis.hgetall.
    destruct (hashes (redis w) !! k) as [td|] eqn:Hk.
    + intros Hrun it Hit.
      destruct (IH _ _ _ _ Hrun it Hit) as [Hacc|(key & td' & Hin & Hh & Hs & ->)].
      * destruct (ApiV1.selected user f td) eqn:Hsel; [|by left].
        apply elem_of_app in Hacc as [Hacc|Hacc]; [by left|].
        apply list_elem_of_singleton in Hacc as ->.
        right. exists k, td. split; [apply list_elem_of_here|done].
      * right. exists key, td'. split; [by apply list_elem_of_further|done].
    + destruct (blobs (redis w) !! k); [done|].
      intros Hrun it Hit.
      assert (Hns : ApiV1.selected user f ∅ = false).
      { unfold ApiV1.selected. by rewrite lookup_empty. }
      rewrite Hns in Hrun.
      destruct (IH _ _ _ _ Hrun it Hit) as [Hacc|(key & td' & Hin & Hh & Hs & ->)];
        [by left|].
      right. exists key, td'. split; [by apply list_elem_of_further|done].
Qed.

Lemma collect_tasks_wrong_type user f keys k b : forall acc w,
  k ∈ keys ->
  hashes (redis w) !! k = None -> blobs (redis w) !! k = Some b ->
  exists e, ApiV1.collect_tasks user f keys acc w = (Raise e, w).
Proof.
  induction keys as [|k' keys IH]; intros acc w Hin Hh Hb.
  - by apply elem_of_nil in Hin.
  - simpl. unfold mbind, M_bind, Redis.hgetall.
    destruct (decide (k' = k)) as [->|Hne].
    + rewrite Hh, Hb. by eexists.
    + apply elem_of_cons in Hin as [->|Hin]; [done|].
      destruct (hashes (redis w) !! k'); [by apply IH|].
      destruct (blobs (redis w) !! k'); [by eexists|by apply IH].
Qed.

Lemma keys_prefixed_elem p w k :
  k ∈ Redis.matching p (redis w) ->
  String.prefix p k = true /\
  (is_Some (hashes (redis w) !! k) \/ is_Some (blobs (redis w) !! k)).
Proof.
  unfold Redis.matching. rewrite list_elem_of_In, filter_In.
  rewrite <- list_elem_of_In, elem_of_elements, elem_of_union, !elem_of_dom.
  tauto.
Qed.

Lemma keys_prefixed_blob p w k b :
  String.prefix p k = true -> blobs (redis w) !! k = Some b ->
  k ∈ Redis.matching p (redis w).
Proof.
  intros Hp Hb. unfold Redis.matching.
  rewrite list_elem_of_In, filter_In, <- list_elem_of_In.
  split; [|done]. rewrite elem_of_elements, elem_of_union, !elem_of_dom.
  right. by eexists.
Qed.

Ltac run_listing :=
  cbv beta iota zeta delta [ApiV1.list_tasks try_except throw lift mbind mret
    M_bind M_ret Redis.keys_prefixed].

(** What a listing that answers with a page went through. *)
Lemma list_tasks_listed identity q w items p st w' :
  ApiV1.list_tasks identity q w = (Ok (ApiV1.Listed items p, st), w') ->
  exists page requested tasks,
    ApiV1.int_of (ApiV1.q_page q) 1 = Ok page /\
    ApiV1.int_of (ApiV1.q_per_page q) 20 = Ok requested /\
    ApiV1.collect_tasks (ApiV1.current_user identity) (ApiV1.q_status q)
      (Redis.matching "task:" (redis w)) [] w = (Ok tasks, w) /\
    let sorted := foldr ApiV1.insert_newest [] tasks in
    let per_page := Z.min requested 100 in
    let total := Z.of_nat (List.length sorted) in
    ApiV1.sort_newest_first tasks = Ok sorted /\
    per_page <> 0 /\
    items = ApiV1.slice_list sorted ((page - 1) * per_page)
              ((page - 1) * per_page + per_page) /\
    Models.pg_page p = page /\ Models.pg_per_page p = per_page /\
    Models.pg_total p = total /\
    Models.pg_pages p = (total + per_page - 1) / per_page /\
    st = 200 /\ w' = w.
Proof.
  run_listing.
  destruct (ApiV1.int_of (ApiV1.q_page q) 1) as [page|] eqn:Hp; [|done].
  destruct (ApiV1.int_of (ApiV1.q_per_page q) 20) as [requested|] eqn:Hpp; [|done].
  pose proof (collect_tasks_frame (ApiV1.current_user identity) (ApiV1.q_status q)
    (Redis.matching "task:" (redis w)) [] w) as Hframe.
  destruct (ApiV1.collect_tasks _ _ _ _ w) as [[tasks|e] w1] eqn:Hc;
    simpl in Hframe; subst w1; [|done].
  unfold ApiV1.sort_newest_first.
  destruct (_ && _)%bool eqn:Hs; [done|].
  unfold Models.create_paginated_response, Models.floordiv, mbind, res_bind, mret, res_ret.
  destruct (Z.min requested 100 =? 0) eqn:Hz; [done|].
  cbn [fst snd]. intros H. injection H as Hw Hst Hpg Hit. subst w' st p items.
  exists page, requested, tasks. simpl.
  apply Z.eqb_neq in Hz. rewrite Hs. by repeat split.
Qed.

(** X21. The listing shows a caller only tasks of their own, and never
    writes: every entry of a page that is served is the summary of a task
    hash in the store whose [user_id] is the caller's, and whose status
    is the requested one when a non-empty status filter is given. *)
Theorem listing_shows_only_own_tasks identity q w items p st w' :
  ApiV1.list_tasks identity q w = (Ok (ApiV1.Listed items p, st), w') ->
  w' = w /\ st = 200 /\
  forall it, it ∈ items ->
    exists key td,
      String.prefix "task:" key = true /\
      hashes (redis w) !! key = Some td /\
      td !! "user_id" = Some (ApiV1.current_user identity) /\
      (forall s, ApiV1.q_status q = Some s -> s <> EmptyString ->
         td !! "status" = Some s) /\
      it = ApiV1.summary_of key td.
Proof.
  intros Hrun.
  destruct (list_tasks_listed _ _ _ _ _ _ _ Hrun)
    as (page & requested & tasks & _ & _ & Hc & Hrest).
  cbv zeta in Hrest. destruct Hrest as (_ & _ & -> & _ & _ & _ & _ & -> & ->).
  split; [done|]. split; [done|]. intros it Hit.
  apply slice_list_elem in Hit. rewrite sorted_elem in Hit.
  destruct (collect_tasks_provenance _ _ _ _ _ _ _ Hc it Hit)
    as [Hnil|(key & td & Hin & Hh & Hsel & ->)]; [by apply elem_of_nil in Hnil|].
  apply keys_prefixed_elem in Hin as [Hpre _].
  apply selected_owner in Hsel as [Hu Hf].
  by exists key, td.
Qed.

(** X22. A served page is ordered newest first by the text of
    [created_at]: no entry is followed by one with a greater creation
    time. *)
Theorem listing_is_newest_first identity q w items p st w' :
  ApiV1.list_tasks identity q w = (Ok (ApiV1.Listed items p, st), w') ->
  newest_first items.
Proof.
  intros Hrun.
  destruct (list_tasks_listed _ _ _ _ _ _ _ Hrun)
    as (page & requested & tasks & _ & _ & _ & Hrest).
  cbv zeta in Hrest. destruct Hrest as (_ & _ & -> & _).
  apply slice_list_newest_first, sorted_newest_first.
Qed.

(** X23. With a positive page size a served page holds at most
    [per_page] entries, and [per_page] is at most 100 whatever was
    asked for. *)
Theorem listing_page_is_bounded identity q w items p st w' :
  ApiV1.list_tasks identity q w = (Ok (ApiV1.Listed items p, st), w') ->
  1 <= Models.pg_per_page p ->
  Z.of_nat (List.length items) <= Models.pg_per_page p /\
  Models.pg_per_page p <= 100.
Proof.
  intros Hrun Hpos.
  destruct (list_tasks_listed _ _ _ _ _ _ _ Hrun)
    as (page & requested & tasks & _ & _ & _ & Hrest).
  cbv zeta in Hrest. destruct Hrest as (_ & _ & -> & _ & Hpp & _).
  rewrite Hpp in *. split; [|lia].
  rewrite slice_list_length.
  set (n := Z.of_nat (List.length _)).
  set (pp := Z.min requested 100) in *.
  set (start := (page - 1) * pp).
  assert (Hn : 0 <= n) by (subst n; lia).
  unfold ApiV1.slice_bound.
  destruct (start + pp <? 0) eqn:E1; destruct (start <? 0) eqn:E2; lia.
Qed.

(** X24. The cap on the page size does not hold for a negative one:
    with [per_page=-1] the first page is the slice [tasks[0:-1]], that
    is every task of the caller but the last, however many there are. *)
Theorem negative_page_size_lists_all_but_one identity q w items p st w' :
  ApiV1.int_of (ApiV1.q_page q) 1 = Ok 1 ->
  ApiV1.q_per_page q = ApiV1.Parses (-1) ->
  ApiV1.list_tasks identity q w = (Ok (ApiV1.Listed items p, st), w') ->
  Z.of_nat (List.length items) = Z.max 0 (Models.pg_total p - 1).
Proof.
  intros Hpage Hper Hrun.
  destruct (list_tasks_listed _ _ _ _ _ _ _ Hrun)
    as (page & requested & tasks & Hp & Hpp & _ & Hrest).
  cbv zeta in Hrest. destruct Hrest as (_ & _ & -> & _ & _ & Ht & _).
  rewrite Hpage in Hp. injection Hp as <-.
  rewrite Hper in Hpp. simpl in Hpp. injection Hpp as <-.
  rewrite Ht, slice_list_length.
  set (n := Z.of_nat (List.length _)).
  assert (Hn : 0 <= n) by (subst n; lia).
  change ((1 - 1) * Z.min (-1) 100) with 0.
  change (0 + Z.min (-1) 100) with (-1).
  unfold ApiV1.slice_bound. simpl. lia.
Qed.

(** X25. A page size of zero is answered 500: whatever the store
    holds, the division in [create_paginated_response] raises if
    nothing raised before it. Nothing is written. *)
Theorem zero_page_size_is_internal_error identity q w :
  ApiV1.q_per_page q = ApiV1.Parses 0 ->
  exists e,
    ApiV1.list_tasks identity q w =
      (Ok (ApiV1.ListFailure "Internal server error" "INTERNAL_ERROR" (Some e), 500), w).
Proof.
  intros Hper. run_listing. rewrite Hper. simpl ApiV1.int_of at 2.
  destruct (ApiV1.int_of (ApiV1.q_page q) 1) as [page|e]; [|by eexists].
  pose proof (collect_tasks_frame (ApiV1.current_user identity) (ApiV1.q_status q)
    (Redis.matching "task:" (redis w)) [] w) as Hframe.
  destruct (ApiV1.collect_tasks _ _ _ _ w) as [[tasks|e] w1] eqn:Hc;
    simpl in Hframe; subst w1; [|by eexists].
  destruct (ApiV1.sort_newest_first tasks); [|by eexists].
  by eexists.
Qed.

(** X26. A stored result breaks the listing for every caller: the
    pattern [task:*] also matches the string key [task:<id>:result],
    [hgetall] on it raises, and the view answers 500 whatever the query.
    Nothing is written. *)
Theorem stored_result_breaks_listing identity q w task_id b :
  blobs (redis w) !! ApiV1.result_key task_id = Some b ->
  hashes (redis w) !! ApiV1.result_key task_id = None ->
  exists e,
    ApiV1.list_tasks identity q w =
      (Ok (ApiV1.ListFailure "Internal server error" "INTERNAL_ERROR" (Some e), 500), w).
Proof.
  intros Hb Hh.
  assert (Hin : ApiV1.result_key task_id ∈ (Redis.matching "task:" (redis w))).
  { eapply keys_prefixed_blob; [|exact Hb]. cbv. by destruct task_id. }
  run_listing.
  destruct (ApiV1.int_of (ApiV1.q_page q) 1) as [page|e]; [|by eexists].
  destruct (ApiV1.int_of (ApiV1.q_per_page q) 20) as [requested|e]; [|by eexists].
  destruct (collect_tasks_wrong_type (ApiV1.current_user identity) (ApiV1.q_status q)
    _ _ _ [] w Hin Hh Hb) as [e He].
  rewrite He. by eexists.
Qed.

(** X27. The page count of a paginated response: for a positive page
    size [pages] is the least number of pages that hold [total] entries,
    and [has_next] is set exactly when entries remain beyond this page. *)
Theorem pagination_counts_pages {A} (items : list A) page per_page total :
  1 <= per_page ->
  exists p,
    Models.create_paginated_response items page per_page total = Ok (items, p) /\
    total <= Models.pg_pages p * per_page /\
    (Models.pg_pages p - 1) * per_page < total /\
    (Models.pg_has_next p = true <-> page * per_page < total) /\
    (Models.pg_has_prev p = true <-> 1 < page).
Proof.
  intros Hpp. unfold Models.create_paginated_response, Models.floordiv.
  destruct (per_page =? 0) eqn:E; [lia|].
  eexists. split; [reflexivity|]. simpl.
  set (pages := (total + per_page - 1) / per_page).
  pose proof (Z.div_mod (total + per_page - 1) per_page ltac:(lia)) as Hdm.
  pose proof (Z.mod_pos_bound (total + per_page - 1) per_page ltac:(lia)) as Hb.
  fold pages in Hdm.
  rewrite !Z.ltb_lt.
  repeat split; try nia.
Qed.

(* ===================================================================== *)
(** * The in-process task table *)
(* ===================================================================== *)

(** X28. What the in-process worker leaves is what the result route of
    simple_api.py serves: for a registered task, after the worker has
    run, the route answers 200 with the texts the pipeline returned,
    joined by line feeds and counted page by page, or 500 with the
    message of the exception the pipeline raised. *)
Theorem simple_worker_outcome_is_served rt cfg th w t :
  tasks (redis w) !! th_task_id th = Some t ->
  let w' := (SimpleApi.worker rt cfg th w).2 in
  match (OcrProcessor.process_ocr rt (th_upload_path th) (OUTPUT_FOLDER cfg)
           (th_language th) (th_use_gpu th) w).1 with
  | Ok texts =>
      SimpleApi.ocr_result (th_task_id th) w' =
        (Ok (SimpleApi.SimpleCompleted (th_task_id th)
               (Some {| detected_texts := texts;
                        all_text := Py.join nl texts;
                        processing_time := None;
                        pages_processed := Some (List.length texts);
                        confidence_scores := None |}), 200), w')
  | Raise e =>
      SimpleApi.ocr_result (th_task_id th) w' =
        (Ok (SimpleApi.SimpleError (Some e), 500), w') /\
      SimpleApi.ocr_status (th_task_id th) w' =
        (Ok (SimpleApi.SimpleStatus (th_task_id th) "failed" (Some e), 200), w')
  end.
Proof.
  intros Ht.
  pose proof (process_ocr_frame rt (th_upload_path th) (OUTPUT_FOLDER cfg)
    (th_language th) (th_use_gpu th) w) as [Hr _].
  unfold SimpleApi.worker.
  cbv beta iota zeta delta [try_except mbind mret M_bind M_ret].
  destruct (OcrProcessor.process_ocr _ _ _ _ _ w) as [[texts|e] w1]; simpl in Hr;
    cbn [fst]; unfold Redis.tasks_update, Redis.commit; rewrite Hr, Ht;
    cbn [redis tasks]; rewrite lookup_insert_eq; cbn [snd];
    unfold SimpleApi.ocr_result, SimpleApi.ocr_status; cbn [redis tasks];
    rewrite lookup_insert_eq; done.
Qed.

(* ===================================================================== *)
(** * Constructing the engine *)
(* ===================================================================== *)

Lemma dir_arg_some d x : OcrUtils.dir_arg d = Some x -> x = d /\ Py.falsy d = false.
Proof. unfold OcrUtils.dir_arg. destruct (Py.falsy d); [done|]. by intros [= <-]. Qed.

Lemma check_dirs_ok isdir entries :
  OcrUtils.check_dirs isdir entries = Ok tt ->
  forall key d, (key, Some d) ∈ entries -> isdir d = true.
Proof.
  induction entries as [|[k [x|]] entries IH]; simpl; intros Hc key d Hin.
  - by apply elem_of_nil in Hin.
  - destruct (isdir x) eqn:Hx; [|done].
    apply elem_of_cons in Hin as [[= -> ->]|Hin]; [done|by eapply IH].
  - apply elem_of_cons in Hin as [[=]|Hin]. by eapply IH.
Qed.

(** X29. The engine is only ever constructed on model directories that
    exist: when [create_paddle_ocr] reaches the [PaddleOCR] call, the
    call carries the requested language and device with logging off,
    every model directory it names is the stripped value of its
    environment variable and is a directory, the angle classifier is
    switched on exactly when a classifier directory is named, and if
    downloads are disabled then local models were asked for. *)
Theorem engine_arguments_are_checked environ isdir lang use_gpu kw :
  OcrUtils.paddle_arguments environ isdir lang use_gpu = Ok kw ->
  (forall ctor, OcrUtils.create_paddle_ocr environ isdir (Ok ctor) lang use_gpu = ctor kw) /\
  OcrUtils.kw_lang kw = lang /\ OcrUtils.kw_use_gpu kw = use_gpu /\
  OcrUtils.kw_show_log kw = false /\
  (forall d, OcrUtils.kw_det_model_dir kw = Some d ->
     d = OcrUtils.env_text environ "OCR_DET_MODEL_DIR" /\ isdir d = true) /\
  (forall d, OcrUtils.kw_rec_model_dir kw = Some d ->
     d = OcrUtils.env_text environ "OCR_REC_MODEL_DIR" /\ isdir d = true) /\
  (forall d, OcrUtils.kw_cls_model_dir kw = Some d ->
     d = OcrUtils.env_text environ "OCR_CLS_MODEL_DIR" /\ isdir d = true) /\
  (OcrUtils.kw_use_angle_cls kw = Some true <-> is_Some (OcrUtils.kw_cls_model_dir kw)) /\
  (OcrUtils.switched_on (OcrUtils.env_text environ "OCR_DISABLE_DOWNLOAD") = true ->
     OcrUtils.switched_on (OcrUtils.env_text environ "OCR_USE_LOCAL_MODELS") = true \/
     is_Some (OcrUtils.kw_det_model_dir kw) \/ is_Some (OcrUtils.kw_rec_model_dir kw) \/
     is_Some (OcrUtils.kw_cls_model_dir kw)).
Proof.
  intros Hargs.
  split.
  { intros ctor. unfold OcrUtils.create_paddle_ocr.
    unfold mbind at 1, res_bind at 1. by rewrite Hargs. }
  revert Hargs. unfold OcrUtils.paddle_arguments. cbv zeta.
  set (det := OcrUtils.env_text environ "OCR_DET_MODEL_DIR").
  set (rec := OcrUtils.env_text environ "OCR_REC_MODEL_DIR").
  set (cls := OcrUtils.env_text environ "OCR_CLS_MODEL_DIR").
  set (loc := OcrUtils.switched_on (OcrUtils.env_text environ "OCR_USE_LOCAL_MODELS")).
  destruct (_ || _)%bool eqn:Hany.
  - cbn [OcrUtils.kw_det_model_dir OcrUtils.kw_rec_model_dir OcrUtils.kw_cls_model_dir].
    destruct (OcrUtils.check_dirs isdir _) as [[]|e] eqn:Hc; [|done].
    unfold mbind, res_bind, mret, res_ret. intros [= <-]. simpl.
    pose proof (check_dirs_ok _ _ Hc) as Hd.
    split; [done|]. split; [done|]. split; [done|].
    split.
    { intros d Hs. split; [by apply dir_arg_some in Hs as [-> _]|].
      apply (Hd "det_model_dir"). rewrite Hs. apply list_elem_of_here. }
    split.
    { intros d Hs. split; [by apply dir_arg_some in Hs as [-> _]|].
      apply (Hd "rec_model_dir"). rewrite Hs.
      apply list_elem_of_further, list_elem_of_here. }
    split.
    { intros d Hs. split; [by apply dir_arg_some in Hs as [-> _]|].
      apply (Hd "cls_model_dir"). rewrite Hs.
      do 2 apply list_elem_of_further. apply list_elem_of_here. }
    split.
    { unfold OcrUtils.dir_arg. destruct (Py.falsy cls); split; intros H; try done.
      all: by destruct H. }
    intros _. unfold OcrUtils.dir_arg.
    destruct loc; [by left|right].
    destruct (Py.falsy det); [|left; by eexists].
    destruct (Py.falsy rec); [|right; left; by eexists].
    destruct (Py.falsy cls); [done|right; right; by eexists].
  - destruct (OcrUtils.switched_on (OcrUtils.env_text environ "OCR_DISABLE_DOWNLOAD"));
      [done|].
    unfold mret, res_ret. intros [= <-]. simpl.
    split; [done|]. split; [done|]. split; [done|].
    split; [done|]. split; [done|]. split; [done|].
    split; [|done]. split; [done|]. by intros [? ?].
Qed.

(** X30. The download guard is bypassed by the local-models switch alone:
    with [OCR_USE_LOCAL_MODELS] on and no model directory set, the
    engine is constructed without any model directory, whether or not
    [OCR_DISABLE_DOWNLOAD] is set. *)
Theorem local_flag_bypasses_download_guard environ isdir lang use_gpu ctor :
  OcrUtils.switched_on (OcrUtils.env_text environ "OCR_USE_LOCAL_MODELS") = true ->
  OcrUtils.env_text environ "OCR_DET_MODEL_DIR" = EmptyString ->
  OcrUtils.env_text environ "OCR_REC_MODEL_DIR" = EmptyString ->
  OcrUtils.env_text environ "OCR_CLS_MODEL_DIR" = EmptyString ->
  OcrUtils.create_paddle_ocr environ isdir (Ok ctor) lang use_gpu =
    ctor {| OcrUtils.kw_lang := lang; OcrUtils.kw_use_gpu := use_gpu;
            OcrUtils.kw_show_log := false;
            OcrUtils.kw_det_model_dir := None; OcrUtils.kw_rec_model_dir := None;
            OcrUtils.kw_cls_model_dir := None; OcrUtils.kw_use_angle_cls := None |}.
Proof.
  intros Hloc Hdet Hrec Hcls.
  unfold OcrUtils.create_paddle_ocr, OcrUtils.paddle_arguments. cbv zeta.
  rewrite Hloc, Hdet, Hrec, Hcls. reflexivity.
Qed.

(* ===================================================================== *)
(** * The properties on the example deployment *)
(* ===================================================================== *)

(** The renderer fails on the second page of alice's PDF: the worker
    records the failure. *)
Lemma worker_failure_is_recorded_witness :
  exists w',
    ApiV1.process_task Scenario.rt_render_fails Scenario.cfg Scenario.pdf_thread
      Scenario.processing_world = (Ok tt, w') /\
    task_field (redis w') "t1" "status" = Some "failed" /\
    task_field (redis w') "t1" "error" = Some "page render failed" /\
    task_field (redis w') "t1" "user_id" = Some "alice".
Proof.
  destruct (worker_failure_is_recorded Scenario.rt_render_fails Scenario.cfg
              Scenario.pdf_thread Scenario.processing_world "page render failed"
              (OcrProcessor.process_ocr Scenario.rt_render_fails "uploads/a.pdf" "outputs"
                 "en" false Scenario.processing_world).2 eq_refl)
    as (w' & Hrun & Hs & He & _ & _ & _ & Hother & _).
  exists w'. split; [exact Hrun|]. split; [exact Hs|]. split; [exact He|].
  etrans; [apply (Hother "user_id"); discriminate|reflexivity].
Defined.

(** A text file is refused and leaves no trace. *)
Lemma rejected_submission_has_no_effect_witness :
  exists message code details status,
    ApiV1.process_ocr_endpoint Scenario.rt Scenario.cfg Scenario.alice
      Scenario.text_file_request Scenario.empty_world =
      (Ok (mk_response (Failure message code details) status, None), Scenario.empty_world) /\
    (status = 400 \/ status = 413).
Proof.
  apply (rejected_submission_has_no_effect Scenario.rt Scenario.cfg Scenario.alice
           Scenario.text_file_request Scenario.empty_world).
  reflexivity.
Defined.

(** alice's invoice is accepted: the record carries her as owner. *)
Lemma accepted_submission_registers_task_witness :
  exists r started w',
    ApiV1.process_ocr_endpoint Scenario.rt Scenario.cfg Scenario.alice
      Scenario.invoice_request Scenario.empty_world = (Ok (r, started), w') /\
    task_field (redis w') (uuid_task Scenario.rt) "status" = Some "processing" /\
    task_field (redis w') (uuid_task Scenario.rt) "user_id" = Some "alice" /\
    task_field (redis w') (uuid_task Scenario.rt) "filename"
      = Some "invoice_1700000000_1a2b3c4d.pdf".
Proof.
  destruct (accepted_submission_registers_task Scenario.rt Scenario.cfg Scenario.alice
              Scenario.invoice_request Scenario.empty_world
              (mk_upload "invoice.pdf" 1000) eq_refl eq_refl)
    as (r & started & w' & Hrun & Hs & Hu & Hf & _).
  exists r, started, w'. split; [exact Hrun|]. split; [exact Hs|].
  split; [exact Hu|exact Hf].
Defined.

(** Right after alice's submission she is told to wait, and bob is
    refused. *)
Lemma fresh_task_is_processing_witness :
  (ApiV1.get_ocr_result Scenario.alice (uuid_task Scenario.rt)
     (ApiV1.process_ocr_endpoint Scenario.rt Scenario.cfg Scenario.alice
        Scenario.invoice_request Scenario.empty_world).2).1
    = Ok (mk_response (Success (DProcessing (uuid_task Scenario.rt) "processing"
                                  "Task is still processing")
                         "Operation successful") 202) /\
  (ApiV1.get_ocr_result Scenario.bob (uuid_task Scenario.rt)
     (ApiV1.process_ocr_endpoint Scenario.rt Scenario.cfg Scenario.alice
        Scenario.invoice_request Scenario.empty_world).2).1 = Ok AccessDenied.
Proof.
  apply (fresh_task_is_processing Scenario.rt Scenario.cfg Scenario.alice Scenario.bob
           Scenario.invoice_request Scenario.empty_world (mk_upload "invoice.pdf" 1000));
    [reflexivity|discriminate].
Defined.

(** The same submission when the import of the Celery application
    raises: alice's fetch is answered 500 with the dispatch error. *)
Example failed_dispatch_is_fetched_as_failure :
  (ApiV1.get_ocr_result Scenario.alice (uuid_task Scenario.rt_import_error)
     (ApiV1.process_ocr_endpoint Scenario.rt_import_error Scenario.cfg Scenario.alice
        Scenario.invoice_request Scenario.empty_world).2).1
    = Ok (mk_response
            (Failure ("Failed to start processing: "
                      +:+ "attempted relative import beyond top-level package")
               "PROCESSING_FAILED" None) 500).
Proof. reflexivity. Qed.

(** Extraction on alice's task while it is processing. *)
Lemma extract_requires_completed_witness :
  ApiV1.extract_invoice_data Scenario.rt Scenario.no_extract Scenario.alice
    (Some Scenario.all_pages_body) Scenario.processing_world =
    (Ok (mk_response (Failure "Task not completed yet" "TASK_NOT_COMPLETED" None) 400),
     Scenario.processing_world).
Proof.
  apply (extract_requires_completed Scenario.rt Scenario.no_extract Scenario.alice
           Scenario.all_pages_body "t1" None Scenario.processing_task
           Scenario.processing_world);
    [reflexivity|reflexivity|reflexivity|discriminate].
Defined.

(** The render failure as alice sees it. *)
Lemma worker_failure_surfaces_witness :
  let w' := (ApiV1.process_task Scenario.rt_render_fails Scenario.cfg Scenario.pdf_thread
               Scenario.processing_world).2 in
  ApiV1.get_ocr_result Scenario.alice "t1" w' =
    (Ok (mk_response (Failure "page render failed" "PROCESSING_FAILED" None) 500), w').
Proof.
  exact (proj1 (worker_failure_surfaces Scenario.rt_render_fails Scenario.cfg
                  Scenario.pdf_thread Scenario.alice Scenario.processing_task
                  Scenario.processing_world "page render failed"
                  (OcrProcessor.process_ocr Scenario.rt_render_fails "uploads/a.pdf"
                     "outputs" "en" false Scenario.processing_world).2
                  eq_refl eq_refl eq_refl)).
Defined.

(** The two pages of alice's PDF, as she fetches them. *)
Lemma worker_result_round_trip_witness :
  let w' := (ApiV1.process_task Scenario.rt Scenario.cfg Scenario.pdf_thread
               Scenario.processing_world).2 in
  ApiV1.get_ocr_result Scenario.alice "t1" w' =
    (Ok (mk_response
           (Success (DResults "t1" "completed" Scenario.done_result)
              "Operation successful") 200), w').
Proof.
  exact (proj1 (worker_result_round_trip Scenario.rt Scenario.cfg Scenario.pdf_thread
                  Scenario.alice Scenario.processing_task Scenario.processing_world
                  [Scenario.page_one; EmptyString]
                  (OcrProcessor.process_ocr Scenario.rt "uploads/a.pdf" "outputs" "en" false
                     Scenario.processing_world).2
                  eq_refl eq_refl eq_refl)).
Defined.

(** The delegated job of alice's task failed: she reads it as failed. *)
Lemma reconcile_failure_is_recorded_witness :
  exists w',
    ApiV1.get_ocr_status (Scenario.rt_polling (JobFailure "worker lost")) Scenario.alice
      "t1" Scenario.delegated_world =
      (Ok (mk_response
             (Success (DStatus "t1" "failed" None None (Some "worker lost"))
                "Operation successful") 200), w') /\
    task_field (redis w') "t1" "status" = Some "failed" /\
    task_field (redis w') "t1" "error" = Some "worker lost".
Proof.
  destruct (reconcile_failure_is_recorded (Scenario.rt_polling (JobFailure "worker lost"))
              Scenario.alice "t1" Scenario.delegated_task "job-1"
              (fun _ => Ok (JobFailure "worker lost")) "worker lost"
              Scenario.delegated_world
              eq_refl eq_refl eq_refl eq_refl eq_refl eq_refl eq_refl)
    as (w' & Hrun & Hs & He & _).
  exists w'. split; [exact Hrun|]. split; [exact Hs|exact He].
Defined.

(** The delegated job of alice's task succeeded: she reads the Result. *)
Lemma reconcile_success_delivers_result_witness :
  exists w',
    ApiV1.get_ocr_status (Scenario.rt_polling (JobSuccess Scenario.done_result))
      Scenario.alice "t1" Scenario.delegated_world =
      (Ok (mk_response
             (Success (DStatus "t1" "completed" None None None)
                "Operation successful") 200), w') /\
    ApiV1.get_ocr_result Scenario.alice "t1" w' =
      (Ok (mk_response (Success (DResults "t1" "completed" Scenario.done_result)
                          "Operation successful") 200), w').
Proof.
  apply (reconcile_success_delivers_result
           (Scenario.rt_polling (JobSuccess Scenario.done_result))
           Scenario.alice "t1" Scenario.delegated_task "job-1"
           (fun _ => Ok (JobSuccess Scenario.done_result)) Scenario.done_result
           Scenario.delegated_world); reflexivity.
Defined.

(** bob asks for alice's Result: 403, and nothing changed. *)
Lemma refused_request_has_no_effect_witness :
  (serve Scenario.rt Scenario.cfg Scenario.no_extract Scenario.bob (ResultFetch "t1")
     Scenario.done_world).2 = Scenario.done_world.
Proof.
  apply (refused_request_has_no_effect Scenario.rt Scenario.cfg Scenario.no_extract
           Scenario.bob (ResultFetch "t1") Scenario.done_world AccessDenied);
    [reflexivity|right; left; reflexivity].
Defined.

(** alice deletes [t1]: the in-process table stays, and of the files only
    the upload and the text export go. *)
Lemma delete_touches_only_its_task_witness :
  let w' := (ApiV1.delete_task Scenario.cfg Scenario.alice "t1" Scenario.done_world).2 in
  tasks (redis w') = tasks (redis Scenario.done_world) /\
  forall p, p ∈ disk w' <->
    p ∈ disk Scenario.done_world /\ p ∉ delete_targets Scenario.cfg "a.pdf".
Proof.
  destruct (delete_touches_only_its_task Scenario.cfg Scenario.alice "t1"
              Scenario.done_task Scenario.done_world eq_refl eq_refl)
    as (_ & _ & Ht & Hd).
  split; [exact Ht|exact Hd].
Defined.

(** alice, owner of [t1], downloads the text export. *)
Lemma download_is_gated_by_ownership_only_witness :
  ApiV1.download_file Scenario.cfg Scenario.alice "t1" "a.txt" Scenario.done_world =
    (Ok (if bool_decide (Py.path.join (OUTPUT_FOLDER Scenario.cfg) "a.txt"
                           ∈ disk Scenario.done_world)
         then mk_response (Attachment (OUTPUT_FOLDER Scenario.cfg) "a.txt") 200
         else mk_response (Failure "File not found" "FILE_NOT_FOUND" None) 404),
     Scenario.done_world).
Proof.
  exact (proj1 (download_is_gated_by_ownership_only Scenario.cfg Scenario.alice
                  "t1" Scenario.done_task "t1" Scenario.done_task "a.txt"
                  Scenario.done_world eq_refl eq_refl eq_refl eq_refl eq_refl
                  ltac:(discriminate) ltac:(discriminate))).
Defined.

(** The two pages of [a.pdf]. *)
Lemma convert_pdf_yields_one_image_per_page_witness :
  exists w',
    OcrProcessor.convert_to_png Scenario.rt "uploads/a.pdf" "outputs"
      Scenario.processing_world =
      (Ok (map (pdf_page_path "uploads/a.pdf" "outputs") (seq 0 2)), w') /\
    List.length (map (pdf_page_path "uploads/a.pdf" "outputs") (seq 0 2)) = 2%nat /\
    disk w' = list_to_set (map (pdf_page_path "uploads/a.pdf" "outputs") (seq 0 2))
              ∪ disk Scenario.processing_world /\
    redis w' = redis Scenario.processing_world /\
    observed w' = observed Scenario.processing_world.
Proof.
  apply (convert_pdf_yields_one_image_per_page Scenario.rt "uploads/a.pdf" "outputs"
           Scenario.processing_world 2); [reflexivity|reflexivity|].
  intros i _. reflexivity.
Defined.

(** The second page fails to render: the first page's image stays. *)
Lemma convert_pdf_failure_leaves_earlier_pages_witness :
  exists wc,
    OcrProcessor.convert_to_png Scenario.rt_render_fails "uploads/a.pdf" "outputs"
      Scenario.processing_world = (Raise "page render failed", wc) /\
    disk wc = list_to_set (map (pdf_page_path "uploads/a.pdf" "outputs") (seq 0 1))
              ∪ disk Scenario.processing_world.
Proof.
  destruct (convert_pdf_failure_leaves_earlier_pages Scenario.rt_render_fails Scenario.cfg
              Scenario.pdf_thread Scenario.processing_world 2 1 "page render failed"
              eq_refl eq_refl ltac:(lia)
              ltac:(intros [|i] Hi; [reflexivity|lia]) eq_refl)
    as (wc & Hrun & Hd & _).
  exists wc. split; [exact Hrun|exact Hd].
Defined.

(** The two lines the engine reads on the first page. *)
Lemma recognize_joins_detected_texts_witness :
  OcrProcessor.recognize_page Scenario.rt Scenario.paddle "outputs/a_page_1.png" =
    Ok (Py.join nl
          (map (fun d => py_str Scenario.rt (PyStr (detection_text d)))
             [(PyList [], "INVOICE 7", PyNum "0.99");
              (PyList [], "Total 10.00", PyNum "0.99")])).
Proof.
  apply (recognize_joins_detected_texts Scenario.rt Scenario.paddle "outputs/a_page_1.png"
           [(PyList [], "INVOICE 7", PyNum "0.99");
            (PyList [], "Total 10.00", PyNum "0.99")]).
  reflexivity.
Defined.

(** Extraction of alice's two pages without credentials. *)
Lemma unconfigured_extractor_marks_every_page_witness :
  (ApiV1.extract_invoice_data Scenario.rt
     (InvoiceExtractor.extract_structured_from_text Scenario.backend_unconfigured)
     Scenario.alice (Some Scenario.all_pages_body) Scenario.done_world).1 =
    Ok (mk_response
          (Success (DInvoice "t1"
                      (map (fun i => ApiV1.failed_entry i
                                       "Azure OpenAI credentials are not configured")
                         (seq 1 (List.length (detected_texts Scenario.done_result))))
                      (List.length (detected_texts Scenario.done_result))
                      (time_now Scenario.rt))
             "Invoice data extracted successfully") 200).
Proof.
  exact (proj2 (unconfigured_extractor_marks_every_page Scenario.rt
                  Scenario.backend_unconfigured Scenario.alice Scenario.all_pages_body
                  "t1" Scenario.done_task Scenario.done_result Scenario.done_world
                  eq_refl eq_refl eq_refl eq_refl eq_refl eq_refl)).
Defined.

(** The backend times out: six empty fields, no error. *)
Lemma backend_outage_yields_blank_fields_witness :
  InvoiceExtractor.extract_with_azure_openai Scenario.backend_down 0 "secret"
    "https://example.openai.azure.com/" "gpt-4o" "INVOICE 7" "2024-08-01-preview"
    = Ok empty_fields.
Proof.
  apply (backend_outage_yields_blank_fields Scenario.backend_down 0%nat "secret"
           "https://example.openai.azure.com/" "gpt-4o" "INVOICE 7" "2024-08-01-preview"
           "connection timed out"); reflexivity.
Defined.

(** The backend answers with one object. *)
Lemma decoded_reply_fields_witness :
  InvoiceExtractor.extract_with_azure_openai
    (Scenario.backend_answering (JStr Scenario.plain_object)) 0 "secret"
    "https://example.openai.azure.com/" "gpt-4o" "INVOICE 7" "2024-08-01-preview"
    = Ok (fields_of_members (Scenario.backend_answering (JStr Scenario.plain_object))
            [("invoice_number", JStr "INV-7")]).
Proof.
  apply (decoded_reply_fields (Scenario.backend_answering (JStr Scenario.plain_object))
           0%nat "secret" "https://example.openai.azure.com/" "gpt-4o" "INVOICE 7"
           "2024-08-01-preview" Scenario.plain_object
           (JObj [("invoice_number", JStr "INV-7")])); reflexivity.
Defined.

(** alice's listing: her two tasks, the newer one first, and not bob's. *)
Lemma listing_shows_only_own_tasks_witness :
  Scenario.three_tasks_world = Scenario.three_tasks_world /\ 200 = 200 /\
  forall it, it ∈ [Scenario.summary "t3" "2023-11-15T08:30:00";
                   Scenario.summary "t1" "2023-11-14T22:13:20"] ->
    exists key td,
      String.prefix "task:" key = true /\
      hashes (redis Scenario.three_tasks_world) !! key = Some td /\
      td !! "user_id" = Some "alice" /\
      (forall s, ApiV1.q_status Scenario.first_page = Some s -> s <> EmptyString ->
         td !! "status" = Some s) /\
      it = ApiV1.summary_of key td.
Proof.
  refine (listing_shows_only_own_tasks Scenario.alice Scenario.first_page
            Scenario.three_tasks_world _ _ 200 Scenario.three_tasks_world _).
  vm_compute. reflexivity.
Defined.

Lemma listing_is_newest_first_witness :
  newest_first [Scenario.summary "t3" "2023-11-15T08:30:00";
                Scenario.summary "t1" "2023-11-14T22:13:20"].
Proof.
  refine (listing_is_newest_first Scenario.alice Scenario.first_page
            Scenario.three_tasks_world _ _ 200 Scenario.three_tasks_world _).
  vm_compute. reflexivity.
Defined.

Lemma listing_page_is_bounded_witness :
  exists items p,
    ApiV1.list_tasks Scenario.alice Scenario.first_page Scenario.three_tasks_world
      = (Ok (ApiV1.Listed items p, 200), Scenario.three_tasks_world) /\
    Z.of_nat (List.length items) <= Models.pg_per_page p /\
    Models.pg_per_page p <= 100.
Proof.
  eexists _, _. split; [vm_compute; reflexivity|].
  eapply (listing_page_is_bounded Scenario.alice Scenario.first_page
            Scenario.three_tasks_world); [vm_compute; reflexivity|].
  vm_compute. discriminate.
Defined.

(** With [per_page=-1] alice is listed one of her two tasks. *)
Lemma negative_page_size_lists_all_but_one_witness :
  exists items p,
    ApiV1.list_tasks Scenario.alice
      (ApiV1.mk_tasks_query ApiV1.Absent (ApiV1.Parses (-1)) None)
      Scenario.three_tasks_world
      = (Ok (ApiV1.Listed items p, 200), Scenario.three_tasks_world) /\
    Models.pg_total p = 2 /\
    Z.of_nat (List.length items) = Z.max 0 (Models.pg_total p - 1).
Proof.
  eexists _, _. split; [vm_compute; reflexivity|]. split; [reflexivity|].
  eapply (negative_page_size_lists_all_but_one Scenario.alice
            (ApiV1.mk_tasks_query ApiV1.Absent (ApiV1.Parses (-1)) None)
            Scenario.three_tasks_world); [reflexivity|reflexivity|].
  vm_compute. reflexivity.
Defined.

Lemma zero_page_size_is_internal_error_witness :
  exists e,
    ApiV1.list_tasks Scenario.alice
      (ApiV1.mk_tasks_query ApiV1.Absent (ApiV1.Parses 0) None) Scenario.three_tasks_world =
      (Ok (ApiV1.ListFailure "Internal server error" "INTERNAL_ERROR" (Some e), 500),
       Scenario.three_tasks_world).
Proof.
  apply (zero_page_size_is_internal_error Scenario.alice
           (ApiV1.mk_tasks_query ApiV1.Absent (ApiV1.Parses 0) None)
           Scenario.three_tasks_world).
  reflexivity.
Defined.

(** Once the Result of [t1] is stored, the listing fails, for bob too. *)
Lemma stored_result_breaks_listing_witness :
  exists e,
    ApiV1.list_tasks Scenario.bob Scenario.first_page Scenario.done_world =
      (Ok (ApiV1.ListFailure "Internal server error" "INTERNAL_ERROR" (Some e), 500),
       Scenario.done_world).
Proof.
  apply (stored_result_breaks_listing Scenario.bob Scenario.first_page Scenario.done_world
           "t1" (BJson Scenario.done_result)); reflexivity.
Defined.

(** 45 tasks in pages of 20: three pages, and page 2 has a successor. *)
Lemma pagination_counts_pages_witness :
  exists p,
    Models.create_paginated_response ["t21"; "t22"] 2 20 45 = Ok (["t21"; "t22"], p) /\
    45 <= Models.pg_pages p * 20 /\
    (Models.pg_pages p - 1) * 20 < 45 /\
    (Models.pg_has_next p = true <-> 2 * 20 < 45) /\
    (Models.pg_has_prev p = true <-> 1 < 2).
Proof.
  apply (pagination_counts_pages ["t21"; "t22"] 2 20 45). lia.
Defined.

(** The in-process worker on alice's PDF, and the result route after it. *)
Lemma simple_worker_outcome_is_served_witness :
  let w' := (SimpleApi.worker Scenario.rt Scenario.cfg Scenario.pdf_thread
               Scenario.processing_world).2 in
  SimpleApi.ocr_result "t1" w' =
    (Ok (SimpleApi.SimpleCompleted "t1"
           (Some (mk_ocr_result [Scenario.page_one; EmptyString]
                    (Py.join nl [Scenario.page_one; EmptyString]) None (Some 2%nat) None)),
         200), w').
Proof.
  exact (simple_worker_outcome_is_served Scenario.rt Scenario.cfg Scenario.pdf_thread
           Scenario.processing_world
           (mk_simple_task "processing" "a.pdf" 1700000000 "en" false None None) eq_refl).
Defined.

(** Only the detector's directory is configured, and it exists. *)
Lemma engine_arguments_are_checked_witness :
  OcrUtils.create_paddle_ocr Scenario.model_environ Scenario.model_isdir
    (Ok (fun kw => Ok (fun _ => Ok (PyList [PyStr (default "none" (OcrUtils.kw_det_model_dir kw))]))))
    "en" false =
  Ok (fun _ => Ok (PyList [PyStr "/models/det"])).
Proof.
  exact (proj1 (engine_arguments_are_checked Scenario.model_environ Scenario.model_isdir
                  "en" false
                  (OcrUtils.mk_paddle_kwargs "en" false false (Some "/models/det")
                     None None None) eq_refl)
           (fun kw => Ok (fun _ => Ok (PyList [PyStr (default "none"
                                                        (OcrUtils.kw_det_model_dir kw))])))).
Defined.

Lemma local_flag_bypasses_download_guard_witness :
  OcrUtils.switched_on (OcrUtils.env_text Scenario.local_only_environ "OCR_DISABLE_DOWNLOAD")
    = true /\
  OcrUtils.create_paddle_ocr Scenario.local_only_environ (fun _ => false)
    (Ok (fun _ => Ok Scenario.paddle)) "en" false = Ok Scenario.paddle.
Proof.
  split; [reflexivity|].
  exact (local_flag_bypasses_download_guard Scenario.local_only_environ (fun _ => false)
           "en" false (fun _ => Ok Scenario.paddle) eq_refl eq_refl eq_refl eq_refl).
Defined.
